(** * MoE routing trace: capture logger and offline analysis

    A shallow embedding of

    - [vllm/model_executor/layers/fused_moe/moe_logger.py] (class [MoELogger]:
      [__init__], [get_instance], [write_meta_header], [log_routing], [close],
      [__del__]),
    - [plot_expert_hist.py] ([read_moe_log], [analyze_expert_usage],
      [calculate_metrics], [plot_histogram], [main]) and
    - the prompt file written by [make_prompts.py] and loaded by
      [run_generate.py],

    together with the part of the Python runtime these functions lean on:
    [str.strip], text-file line iteration, [json.dumps] and [json.loads].

    Modelling conventions.

    - Python [str] values are Rocq [string]s; a character is a code point
      below 256.
    - Python [int]s are [Z] (or [nat] where the code only counts upwards).
    - A Python [float] that went through [round(w, 6)] is kept as an integer
      number of millionths; the unrounded weight coming out of a tensor is
      the rational [Q] it denotes.  This is exact as long as the rounded
      value has at most 15 significant digits (weights are in [[0, 1]]);
      the sign of a zero is not kept.  Non-finite floats are not modelled.
    - [loads] decodes the JSON whose values the model has: it does not
      decode a number that is not a whole number of millionths, [NaN],
      [Infinity], or an escape [\uXXXX] of a code point of 256 or more,
      all of which [json.loads] accepts.  What is stated of the reader is
      stated for lines that [loads] decodes, or for lines, such as a blank
      one, that [json.loads] rejects as well.
    - [int] and [str] convert ints of at most 4300 digits, as CPython does
      by default; what is stated of ints written as text is stated within
      that limit.
    - A raised exception is a value of type [exn]; a function that can raise
      returns in an error monad, and [try ... except Exception] is the
      handler [try_except]. *)

From Stdlib Require Import ZArith NArith QArith Qabs List String Ascii Lia Bool Sorted.
From Stdlib Require Import DecimalString DecimalPos DecimalN DecimalZ DecimalFacts
  DecimalNat.
From stdpp Require Import base option list gmap strings.

Open Scope string_scope.

(** ** Characters used by the text formats *)

Definition DQUOTE : ascii := "034".
Definition BSLASH : ascii := "\".
Definition NEWLINE : ascii := "010".
Definition CRETURN : ascii := "013".
Definition HTAB : ascii := "009".
Definition BACKSP : ascii := "008".
Definition FORMFEED : ascii := "012".

(** ** Python text primitives *)

Module PyStr.

(** [str.isspace] on one character, for code points below 256:
    U+0009..U+000D, U+001C..U+0020, U+0085 and U+00A0. *)
Definition isspace (c : ascii) : bool :=
  let n := N_of_ascii c in
  ((9 <=? n) && (n <=? 13) || (28 <=? n) && (n <=? 32) || (n =? 133) || (n =? 160))%N.

Fixpoint lstrip (s : string) : string :=
  match s with
  | "" => ""
  | String c s' => if isspace c then lstrip s' else s
  end.

Fixpoint rstrip (s : string) : string :=
  match s with
  | "" => ""
  | String c s' =>
      match rstrip s' with
      | "" => if isspace c then "" else String c ""
      | r => String c r
      end
  end.

(** [s.strip()] *)
Definition strip (s : string) : string := rstrip (lstrip s).

(** [for line in f] on a file opened in text mode with the default
    [newline=None]: ["\r\n"] and a lone ["\r"] are read as ["\n"], and each
    line keeps its terminating ["\n"]; a last line without terminator is
    still produced. *)
Fixpoint iter_lines (s : string) : list string :=
  match s with
  | "" => []
  | String c s' =>
      if Ascii.eqb c NEWLINE then String NEWLINE "" :: iter_lines s'
      else if Ascii.eqb c CRETURN then
        match s' with
        | String c' s'' =>
            if Ascii.eqb c' NEWLINE then String NEWLINE "" :: iter_lines s''
            else String NEWLINE "" :: iter_lines s'
        | "" => String NEWLINE "" :: iter_lines s'
        end
      else
        match iter_lines s' with
        | [] => [String c ""]
        | l :: ls => String c l :: ls
        end
  end.

(** [str(n)] for a non-negative [int], and for any [int]. *)
Definition str_of_nat (n : nat) : string :=
  NilZero.string_of_uint (Nat.to_uint n).

Definition str_of_Z (z : Z) : string :=
  NilZero.string_of_int (Z.to_int z).

Definition is_digit (c : ascii) : bool :=
  let n := N_of_ascii c in ((48 <=? n) && (n <=? 57))%N.

(** The longest prefix of decimal digits, and what follows it. *)
Fixpoint span_digits (s : string) : string * string :=
  match s with
  | "" => ("", "")
  | String c s' =>
      if is_digit c then
        let '(ds, r) := span_digits s' in (String c ds, r)
      else ("", s)
  end.

(** The number a (possibly empty) digit string denotes. *)
Fixpoint digits_value (acc : N) (ds : string) : N :=
  match ds with
  | "" => acc
  | String c ds' => digits_value (10 * acc + (N_of_ascii c - 48)) ds'
  end.

Definition N_of_digits (ds : string) : N := digits_value 0 ds.

End PyStr.

(** ** The [json] module of the Python standard library

    [dumps] follows [json.dumps] with its default arguments
    ([ensure_ascii=True], separators [", "] and [": "]); [loads] follows
    [json.loads] (the scanner of [json.decoder] and [json.scanner]). *)

Module Json.

(** A decoded JSON document.  A Python [dict] keeps insertion order, so an
    object is an association list (with distinct keys, see [dict_of_pairs]).
    [JFloat k] is the float [k / 10^6]. *)
#[warnings="-register-all"]
Inductive json : Type :=
| JNull
| JBool (b : bool)
| JInt (z : Z)
| JFloat (micro : Z)
| JStr (s : string)
| JList (l : list json)
| JObj (kv : list (string * json)).

(** [d[k]] for a dict: the value bound to the key, if any. *)
Fixpoint dict_get (k : string) (d : list (string * json)) : option json :=
  match d with
  | [] => None
  | (k', v) :: d' => if String.eqb k k' then Some v else dict_get k d'
  end.

(** [d[k] = v]: an existing key keeps its position, a new key goes last. *)
Fixpoint dict_set (k : string) (v : json) (d : list (string * json))
  : list (string * json) :=
  match d with
  | [] => [(k, v)]
  | (k', v') :: d' =>
      if String.eqb k k' then (k, v) :: d' else (k', v') :: dict_set k v d'
  end.

(** [dict(pairs)] *)
Definition dict_of_pairs (ps : list (string * json)) : list (string * json) :=
  fold_left (fun d p => dict_set (fst p) (snd p) d) ps [].

(** *** Encoding *)

Definition digit_char (d : N) : ascii := ascii_of_N (48 + d).

Definition hex_char (d : N) : ascii :=
  if (d <? 10)%N then ascii_of_N (48 + d) else ascii_of_N (87 + d).

Definition is_printable (c : ascii) : bool :=
  let n := N_of_ascii c in ((32 <=? n) && (n <=? 126))%N.

(** One character of a string literal ([ESCAPE_ASCII] and [ESCAPE_DCT] of
    [json.encoder]). *)
Definition escape_char (c : ascii) : string :=
  if Ascii.eqb c DQUOTE then String BSLASH (String DQUOTE "")
  else if Ascii.eqb c BSLASH then String BSLASH (String BSLASH "")
  else if Ascii.eqb c NEWLINE then "\n"
  else if Ascii.eqb c CRETURN then "\r"
  else if Ascii.eqb c HTAB then "\t"
  else if Ascii.eqb c BACKSP then "\b"
  else if Ascii.eqb c FORMFEED then "\f"
  else if is_printable c then String c ""
  else "\u00" ++ String (hex_char (N_of_ascii c / 16))
                   (String (hex_char (N_of_ascii c mod 16)) "").

Fixpoint escape (s : string) : string :=
  match s with
  | "" => ""
  | String c s' => escape_char c ++ escape s'
  end.

Definition encode_str (s : string) : string :=
  String DQUOTE (escape s ++ String DQUOTE "").

(** The fractional digits of [f / 10^n], without trailing zeros. *)
Fixpoint frac_digits (n : nat) (f : N) : string :=
  match n with
  | O => ""
  | S n' =>
      if (f =? 0)%N then ""
      else String (digit_char (f / 10 ^ N.of_nat n'))
                  (frac_digits n' (f mod 10 ^ N.of_nat n'))
  end.

(** [float.__repr__] of [a / 10^6] for [0 <= a <= 10^15]: exponent notation
    below [1e-4], positional notation otherwise (Python turns to exponent
    notation again from [1e16] on, past the floats the model is exact
    for). *)
Definition repr_micro_abs (a : N) : string :=
  if (a =? 0)%N then "0.0"
  else if (a <? 10)%N then String (digit_char a) "e-06"
  else if (a <? 100)%N then
    String (digit_char (a / 10))
      ((if (a mod 10 =? 0)%N then "" else String "." (String (digit_char (a mod 10)) ""))
       ++ "e-05")
  else
    PyStr.str_of_Z (Z.of_N (a / 1000000)) ++
    String "."
      (match frac_digits 6 (a mod 1000000) with
       | "" => "0"
       | ds => ds
       end).

Definition repr_micro (k : Z) : string :=
  (if (k <? 0)%Z then "-" else "") ++ repr_micro_abs (Z.abs_N k).

Fixpoint join (sep : string) (l : list string) : string :=
  match l with
  | [] => ""
  | [x] => x
  | x :: l' => x ++ sep ++ join sep l'
  end.

(** [json.dumps(v)] *)
Fixpoint dumps (v : json) : string :=
  match v with
  | JNull => "null"
  | JBool true => "true"
  | JBool false => "false"
  | JInt z => PyStr.str_of_Z z
  | JFloat k => repr_micro k
  | JStr s => encode_str s
  | JList l => "[" ++ join ", " (map dumps l) ++ "]"
  | JObj kv =>
      "{" ++ join ", " (map (fun p => encode_str (fst p) ++ ": " ++ dumps (snd p)) kv)
          ++ "}"
  end.

(** *** Decoding *)

(** [WHITESPACE] of [json.decoder]. *)
Definition is_ws (c : ascii) : bool :=
  Ascii.eqb c " " || Ascii.eqb c HTAB || Ascii.eqb c NEWLINE || Ascii.eqb c CRETURN.

Fixpoint skip_ws (s : string) : string :=
  match s with
  | "" => ""
  | String c s' => if is_ws c then skip_ws s' else s
  end.

Definition hex_val (c : ascii) : option N :=
  let n := N_of_ascii c in
  if ((48 <=? n) && (n <=? 57))%N then Some (n - 48)%N
  else if ((97 <=? n) && (n <=? 102))%N then Some (n - 87)%N
  else if ((65 <=? n) && (n <=? 70))%N then Some (n - 55)%N
  else None.

(** The character a one-letter escape stands for ([BACKSLASH]). *)
Definition unescape (e : ascii) : option ascii :=
  if Ascii.eqb e DQUOTE then Some DQUOTE
  else if Ascii.eqb e BSLASH then Some BSLASH
  else if Ascii.eqb e "/" then Some "/"%char
  else if Ascii.eqb e "b" then Some BACKSP
  else if Ascii.eqb e "f" then Some FORMFEED
  else if Ascii.eqb e "n" then Some NEWLINE
  else if Ascii.eqb e "r" then Some CRETURN
  else if Ascii.eqb e "t" then Some HTAB
  else None.

(** [scanstring] in strict mode, called just after the opening quote:
    the decoded string and the text after the closing quote.  An escape
    [\uXXXX] naming a code point of 256 or more is outside the model. *)
Fixpoint scanstring (s : string) : option (string * string) :=
  match s with
  | "" => None
  | String c s' =>
      if Ascii.eqb c DQUOTE then Some ("", s')
      else if Ascii.eqb c BSLASH then
        match s' with
        | "" => None
        | String e s'' =>
            if Ascii.eqb e "u" then
              match s'' with
              | String h1 (String h2 (String h3 (String h4 r))) =>
                  match hex_val h1, hex_val h2, hex_val h3, hex_val h4 with
                  | Some a, Some b, Some c', Some d =>
                      if ((a =? 0) && (b =? 0))%N then
                        match scanstring r with
                        | Some (str, rest) =>
                            Some (String (ascii_of_N (16 * c' + d)) str, rest)
                        | None => None
                        end
                      else None
                  | _, _, _, _ => None
                  end
              | _ => None
              end
            else
              match unescape e with
              | Some ch =>
                  match scanstring s'' with
                  | Some (str, rest) => Some (String ch str, rest)
                  | None => None
                  end
              | None => None
              end
        end
      else if (N_of_ascii c <? 32)%N then None
      else
        match scanstring s' with
        | Some (str, rest) => Some (String c str, rest)
        | None => None
        end
  end.

(** The float [(-1)^neg * digits * 10^scale] in millionths, when it is a
    whole number of millionths. *)
Definition micro_of (neg : bool) (digits : string) (scale : Z) : option Z :=
  let m := Z.of_N (PyStr.N_of_digits digits) in
  let e := (scale + 6)%Z in
  let v :=
    if (0 <=? e)%Z then Some (m * 10 ^ e)%Z
    else if (m mod 10 ^ (- e) =? 0)%Z then Some (m / 10 ^ (- e))%Z
    else None in
  match v with
  | Some x => Some (if neg then (- x)%Z else x)
  | None => None
  end.

(** [NUMBER_RE] of [json.scanner]: an optional minus sign; an integer
    part that is a single zero or starts with a non-zero digit; an optional
    fraction (a dot and at least one digit); an optional exponent ([e] or
    [E], an optional sign, at least one digit).  Without fraction and
    exponent the literal is an [int], otherwise a [float]. *)
Definition scan_number (s : string) : option (json * string) :=
  let '(neg, s1) :=
    match s with
    | String c r => if Ascii.eqb c "-" then (true, r) else (false, s)
    | "" => (false, s)
    end in
  match s1 with
  | "" => None
  | String c r =>
      if negb (PyStr.is_digit c) then None
      else
        let '(ip, r1) :=
          if Ascii.eqb c "0" then ("0", r) else PyStr.span_digits s1 in
        let '(fp, r2) :=
          match r1 with
          | String c1 r1' =>
              if Ascii.eqb c1 "." then
                match PyStr.span_digits r1' with
                | ("", _) => (None, r1)
                | (ds, r') => (Some ds, r')
                end
              else (None, r1)
          | "" => (None, r1)
          end in
        let '(ep, r3) :=
          match r2 with
          | String c2 r2' =>
              if Ascii.eqb c2 "e" || Ascii.eqb c2 "E" then
                let '(eneg, r2'') :=
                  match r2' with
                  | String c3 r3' =>
                      if Ascii.eqb c3 "-" then (true, r3')
                      else if Ascii.eqb c3 "+" then (false, r3')
                      else (false, r2')
                  | "" => (false, r2')
                  end in
                match PyStr.span_digits r2'' with
                | ("", _) => (None, r2)
                | (ds, r') =>
                    let e := Z.of_N (PyStr.N_of_digits ds) in
                    (Some (if eneg then (- e)%Z else e), r')
                end
              else (None, r2)
          | "" => (None, r2)
          end in
        match fp, ep with
        | None, None =>
            let m := Z.of_N (PyStr.N_of_digits ip) in
            Some (JInt (if neg then (- m)%Z else m), r3)
        | _, _ =>
            let fd := match fp with Some ds => ds | None => "" end in
            let e := match ep with Some e => e | None => 0%Z end in
            match micro_of neg (ip ++ fd) (e - Z.of_nat (String.length fd)) with
            | Some k => Some (JFloat k, r3)
            | None => None
            end
        end
  end.

(** [s.startswith(p)], returning the remainder. *)
Fixpoint strip_prefix (p s : string) : option string :=
  match p, s with
  | "", _ => Some s
  | String a p', String b s' => if Ascii.eqb a b then strip_prefix p' s' else None
  | _, "" => None
  end.

(** [scan_once], [JSONArray] and [JSONObject].  [fuel] bounds the number of
    nested calls; [loads] passes more than any text can use. *)
Fixpoint scan_once (fuel : nat) (s : string) : option (json * string) :=
  match fuel with
  | O => None
  | S fuel' =>
      match s with
      | "" => None
      | String c s' =>
          if Ascii.eqb c DQUOTE then
            match scanstring s' with
            | Some (str, r) => Some (JStr str, r)
            | None => None
            end
          else if Ascii.eqb c "{" then
            match skip_ws s' with
            | String c1 r1 =>
                if Ascii.eqb c1 "}" then Some (JObj [], r1)
                else if Ascii.eqb c1 DQUOTE then
                  match scan_members fuel' r1 with
                  | Some (ps, r) => Some (JObj (dict_of_pairs ps), r)
                  | None => None
                  end
                else None
            | "" => None
            end
          else if Ascii.eqb c "[" then
            match skip_ws s' with
            | String c1 r1 =>
                if Ascii.eqb c1 "]" then Some (JList [], r1)
                else
                  match scan_elements fuel' (String c1 r1) with
                  | Some (vs, r) => Some (JList vs, r)
                  | None => None
                  end
            | "" => None
            end
          else if Ascii.eqb c "n" then
            match strip_prefix "null" s with
            | Some r => Some (JNull, r)
            | None => None
            end
          else if Ascii.eqb c "t" then
            match strip_prefix "true" s with
            | Some r => Some (JBool true, r)
            | None => None
            end
          else if Ascii.eqb c "f" then
            match strip_prefix "false" s with
            | Some r => Some (JBool false, r)
            | None => None
            end
          else scan_number s
      end
  end
with scan_elements (fuel : nat) (s : string) : option (list json * string) :=
  match fuel with
  | O => None
  | S fuel' =>
      match scan_once fuel' s with
      | Some (v, r) =>
          match skip_ws r with
          | String c r1 =>
              if Ascii.eqb c "]" then Some ([v], r1)
              else if Ascii.eqb c "," then
                match scan_elements fuel' (skip_ws r1) with
                | Some (vs, r2) => Some (v :: vs, r2)
                | None => None
                end
              else None
          | "" => None
          end
      | None => None
      end
  end
with scan_members (fuel : nat) (s : string)
  : option (list (string * json) * string) :=
  match fuel with
  | O => None
  | S fuel' =>
      match scanstring s with
      | Some (key, r) =>
          match skip_ws r with
          | String c r1 =>
              if Ascii.eqb c ":" then
                match scan_once fuel' (skip_ws r1) with
                | Some (v, r2) =>
                    match skip_ws r2 with
                    | String c2 r3 =>
                        if Ascii.eqb c2 "}" then Some ([(key, v)], r3)
                        else if Ascii.eqb c2 "," then
                          match skip_ws r3 with
                          | String c3 r4 =>
                              if Ascii.eqb c3 DQUOTE then
                                match scan_members fuel' r4 with
                                | Some (ps, r5) => Some ((key, v) :: ps, r5)
                                | None => None
                                end
                              else None
                          | "" => None
                          end
                        else None
                    | "" => None
                    end
                | None => None
                end
              else None
          | "" => None
          end
      | None => None
      end
  end.

(** [json.loads(s)]: one value, surrounded by optional whitespace and
    nothing else.  [None] means that the text is not decoded; for a text
    whose values the model has, that is where [json.loads] raises
    [JSONDecodeError]. *)
Definition loads (s : string) : option json :=
  match scan_once (S (String.length s)) (skip_ws s) with
  | Some (v, r) =>
      match skip_ws r with
      | "" => Some v
      | _ => None
      end
  | None => None
  end.

End Json.

Import Json.

(** ** Exceptions and results *)

(** The exception classes the modelled code can meet; all derive from
    [Exception].  [JSONDecodeError] is the one [json.loads] raises. *)
Inductive exn : Type :=
| OSError | TypeError | IndexError | KeyError | ValueError | AttributeError
| JSONDecodeError.

(** The outcome of a call: a returned value or a raised exception. *)
Inductive result (A : Type) : Type :=
| Ok (a : A)
| Raise (e : exn).
Arguments Ok {A} a.
Arguments Raise {A} e.

(** ** Tensors as [tolist()] shows them

    [t.detach().cpu().tolist()] is a scalar for a 0-dimensional tensor and a
    list of sub-results otherwise. *)
#[warnings="-register-all"]
Inductive nested (A : Type) : Type :=
| Scalar (a : A)
| Nested (l : list (nested A)).
Arguments Scalar {A} a.
Arguments Nested {A} l.

(** An argument passed as a tensor, as [log_routing] meets it: the data the
    conversion [t.detach().cpu().tolist()] returns, or the exception it
    raises (an object that is no tensor has no [detach]; a device can fail
    while the data is copied). *)
Inductive tensor (A : Type) : Type :=
| Tensor (data : nested A)
| Faulty (e : exn).
Arguments Tensor {A} data.
Arguments Faulty {A} e.

(** [t.detach().cpu().tolist()] *)
Definition tolist {A} (t : tensor A) : result (nested A) :=
  match t with
  | Tensor data => Ok data
  | Faulty e => Raise e
  end.

(** [len(x)] *)
Definition py_len {A} (x : nested A) : result nat :=
  match x with
  | Scalar _ => Raise TypeError
  | Nested l => Ok (length l)
  end.

(** [x[i]] for [i >= 0] *)
Definition py_getitem {A} (x : nested A) (i : nat) : result (nested A) :=
  match x with
  | Scalar _ => Raise TypeError
  | Nested l =>
      match l !! i with
      | Some y => Ok y
      | None => Raise IndexError
      end
  end.

(** The items [for w in x] goes through. *)
Definition py_iter {A} (x : nested A) : result (list (nested A)) :=
  match x with
  | Scalar _ => Raise TypeError
  | Nested l => Ok l
  end.

(** Rounding to the nearest integer, ties to even. *)
Definition round_half_even (q : Q) : Z :=
  let d := Z.pos (Qden q) in
  let f := (Qnum q / d)%Z in
  let r := (Qnum q mod d)%Z in
  match (2 * r ?= d)%Z with
  | Lt => f
  | Gt => (f + 1)%Z
  | Eq => if Z.even f then f else (f + 1)%Z
  end.

(** [round(w, 6)] on a float, in millionths. *)
Definition round6 (w : Q) : Z := round_half_even (w * 1000000)%Q.

(** [round(w, 6)] on an item of a weight row; a list cannot be rounded. *)
Definition py_round6 (w : nested Q) : result json :=
  match w with
  | Scalar q => Ok (JFloat (round6 q))
  | Nested _ => Raise TypeError
  end.

(** [[round(w, 6) for w in row]] *)
Fixpoint round_all (ws : list (nested Q)) : result (list json) :=
  match ws with
  | [] => Ok []
  | w :: ws' =>
      match py_round6 w with
      | Raise e => Raise e
      | Ok x =>
          match round_all ws' with
          | Raise e => Raise e
          | Ok xs => Ok (x :: xs)
          end
      end
  end.

(** What [json.dumps] sees of a row of expert ids. *)
Fixpoint ids_to_json (t : nested Z) : json :=
  match t with
  | Scalar z => JInt z
  | Nested l => JList (map ids_to_json l)
  end.

(** ** The capture logger: [moe_logger.py] *)

Inductive level : Type := INFO | WARNING | ERROR.

(** One message on the diagnostic channel ([vllm.logger]): its level, the
    fixed part of its text and the exception it reports, if any. *)
Record diagnostic : Type := Diagnostic {
  d_level : level;
  d_text : string;
  d_exn : option exn
}.

(** An open text file: its path and the text written but not yet flushed. *)
Record file_object : Type := FileObject {
  f_name : string;
  f_buffer : string
}.

(** What lies outside the logger object: the files, the process environment
    ([os.environ]), the [__version__] attributes of the [torch] and [vllm]
    modules ([None] when reading one raises), the diagnostic channel, and the
    fate of the coming I/O calls ([true]: the next call raises [OSError]; an
    exhausted plan means success). *)
Record world : Type := World {
  disk : gmap string string;
  environ : gmap string string;
  torch_version : option string;
  vllm_version : option string;
  diagnostics : list diagnostic;
  io_plan : list bool
}.

Definition set_disk (d : gmap string string) (w : world) : world :=
  World d (environ w) (torch_version w) (vllm_version w) (diagnostics w) (io_plan w).

Definition set_diagnostics (ds : list diagnostic) (w : world) : world :=
  World (disk w) (environ w) (torch_version w) (vllm_version w) ds (io_plan w).

Definition set_io_plan (plan : list bool) (w : world) : world :=
  World (disk w) (environ w) (torch_version w) (vllm_version w) (diagnostics w) plan.

(** The fields of a [MoELogger] instance. *)
Record MoELogger : Type := Build_MoELogger {
  enabled : bool;
  log_file : option string;
  file_handle : option file_object;
  logged_layer : Z;
  request_counter : nat
}.

Record state : Type := State {
  self : MoELogger;
  env : world
}.

(** Computations that read and update the state and may raise; the state
    reached when an exception is raised is kept, as in Python. *)
Definition M (A : Type) : Type := state -> result A * state.

Definition ret {A} (a : A) : M A := fun s => (Ok a, s).

Definition bind {A B} (m : M A) (k : A -> M B) : M B :=
  fun s =>
    match m s with
    | (Ok a, s') => k a s'
    | (Raise e, s') => (Raise e, s')
    end.

#[global] Instance M_ret : MRet M := @ret.
#[global] Instance M_bind : MBind M := fun A B k m => bind m k.

Definition raise {A} (e : exn) : M A := fun s => (Raise e, s).

Definition lift {A} (r : result A) : M A := fun s => (r, s).

Definition get_self : M MoELogger := fun s => (Ok (self s), s).

Definition get_env : M world := fun s => (Ok (env s), s).

Definition set_self (f : MoELogger -> MoELogger) : M unit :=
  fun s => (Ok tt, State (f (self s)) (env s)).

Definition set_env (f : world -> world) : M unit :=
  fun s => (Ok tt, State (self s) (f (env s))).

(** [try: m  except Exception as e: h e] *)
Definition try_except (m : M unit) (h : exn -> M unit) : M unit :=
  fun s =>
    match m s with
    | (Ok a, s') => (Ok a, s')
    | (Raise e, s') => h e s'
    end.

(** [for x in l: body x] *)
Fixpoint for_each {A} (l : list A) (body : A -> M unit) : M unit :=
  match l with
  | [] => mret tt
  | x :: l' => body x ≫= λ _, for_each l' body
  end.

(** [logger.info], [logger.warning], [logger.error] *)
Definition emit (lv : level) (text : string) (e : option exn) : M unit :=
  set_env (fun w => set_diagnostics (diagnostics w ++ [Diagnostic lv text e]) w).

(** Every call into the operating system consumes one entry of the plan. *)
Definition io_call : M unit :=
  fun s =>
    let w := env s in
    match io_plan w with
    | true :: plan => (Raise OSError, State (self s) (set_io_plan plan w))
    | false :: plan => (Ok tt, State (self s) (set_io_plan plan w))
    | [] => (Ok tt, s)
    end.

Definition set_file_handle (h : option file_object) (l : MoELogger) : MoELogger :=
  Build_MoELogger (enabled l) (log_file l) h (logged_layer l) (request_counter l).

Definition set_enabled (b : bool) (l : MoELogger) : MoELogger :=
  Build_MoELogger b (log_file l) (file_handle l) (logged_layer l) (request_counter l).

Definition set_log_file (p : option string) (l : MoELogger) : MoELogger :=
  Build_MoELogger (enabled l) p (file_handle l) (logged_layer l) (request_counter l).

Definition set_logged_layer (z : Z) (l : MoELogger) : MoELogger :=
  Build_MoELogger (enabled l) (log_file l) (file_handle l) z (request_counter l).

Definition set_request_counter (n : nat) (l : MoELogger) : MoELogger :=
  Build_MoELogger (enabled l) (log_file l) (file_handle l) (logged_layer l) n.

(** [open(path, "w", encoding="utf-8")]: the file is created or emptied. *)
Definition open_w (path : string) : M file_object :=
  io_call ≫= λ _,
  set_env (fun w => set_disk (<[path := ""]> (disk w)) w) ≫= λ _,
  mret (FileObject path "").

(** The chunk size of [io.TextIOWrapper]: as long as less text than this is
    pending, a write makes no call into the operating system. *)
Definition CHUNK_SIZE : N := 8192.

(** [self.file_handle.write(text)]: the text goes to the buffer.  While the
    buffered text stays shorter than the chunk size nothing else happens and
    the write cannot fail.  From there on the runtime hands buffered text to
    the operating system, a call that may fail; how much of the text is in
    the file before the next flush then depends on the Python version and on
    the block size of the file system.  The model keeps the text in the
    buffer until the flush, so what it says of the file between two flushes
    holds for a buffer short of the chunk size; after a successful flush the
    file holds all the text in either case. *)
Definition fh_write (text : string) : M unit :=
  l ← get_self;
  match file_handle l with
  | None => raise AttributeError
  | Some h =>
      let buffer := f_buffer h ++ text in
      (if (N.of_nat (String.length buffer) <? CHUNK_SIZE)%N then mret tt
       else io_call) ≫= λ _,
      set_self (set_file_handle (Some (FileObject (f_name h) buffer)))
  end.

(** [self.file_handle.flush()]: the buffer is appended to the file. *)
Definition fh_flush : M unit :=
  l ← get_self;
  match file_handle l with
  | None => raise AttributeError
  | Some h =>
      io_call ≫= λ _,
      set_env (fun w =>
        set_disk (<[f_name h := default "" (disk w !! f_name h) ++ f_buffer h]>
                    (disk w)) w) ≫= λ _,
      set_self (set_file_handle (Some (FileObject (f_name h) "")))
  end.

(** [self.file_handle.close()]: a last flush. *)
Definition fh_close : M unit := fh_flush.

(** The white space [int()] skips around a number: the ASCII white space
    of C (U+0009..U+000D and the space) and, past ASCII, the Unicode spaces,
    of which U+0085 and U+00A0 lie below 256.  Unlike [str.isspace] this
    leaves out U+001C..U+001F. *)
Definition int_space (c : ascii) : bool :=
  let n := N_of_ascii c in
  ((9 <=? n) && (n <=? 13) || (n =? 32) || (n =? 133) || (n =? 160))%N.

Fixpoint int_lstrip (s : string) : string :=
  match s with
  | "" => ""
  | String c s' => if int_space c then int_lstrip s' else s
  end.

Fixpoint int_rstrip (s : string) : string :=
  match s with
  | "" => ""
  | String c s' =>
      match int_rstrip s' with
      | "" => if int_space c then "" else String c ""
      | r => String c r
      end
  end.

(** The number of digits beyond which [int()] and [str()] refuse to convert
    ([sys.int_info.default_max_str_digits], CPython 3.11 and the security
    releases of 3.7 to 3.10). *)
Definition INT_MAX_STR_DIGITS : N := 4300.

(** [int(s)] for a text in base ten: surrounding whitespace, an optional
    sign, digits, single underscores between digits; the digits, leading
    zeros included, may not be more than [INT_MAX_STR_DIGITS]. *)
Fixpoint int_digits (s : string) (after_digit : bool) : option string :=
  match s with
  | "" => if after_digit then Some "" else None
  | String c s' =>
      if PyStr.is_digit c then
        match int_digits s' true with
        | Some ds => Some (String c ds)
        | None => None
        end
      else if Ascii.eqb c "_" && after_digit then int_digits s' false
      else None
  end.

Definition py_int (s : string) : result Z :=
  let t := int_rstrip (int_lstrip s) in
  let '(neg, body) :=
    match t with
    | String c r =>
        if Ascii.eqb c "-" then (true, r)
        else if Ascii.eqb c "+" then (false, r)
        else (false, t)
    | "" => (false, t)
    end in
  match int_digits body false with
  | Some ds =>
      if (INT_MAX_STR_DIGITS <? N.of_nat (String.length ds))%N then Raise ValueError
      else
        let m := Z.of_N (PyStr.N_of_digits ds) in
        Ok (if neg then (- m)%Z else m)
  | None => Raise ValueError
  end.

(** [MoELogger.__init__] *)
Definition __init__ : M unit :=
  set_self (fun _ => Build_MoELogger false None None 0 0) ≫= λ _,
  w ← get_env;
  let log_path := default "" (environ w !! "VLLM_LOG_MOE") in
  if String.eqb log_path "" then mret tt
  else
    try_except
      (set_self (set_log_file (Some log_path)) ≫= λ _,
       h ← open_w log_path;
       set_self (set_file_handle (Some h)) ≫= λ _,
       set_self (set_enabled true) ≫= λ _,
       let layer_str := default "0" (environ w !! "VLLM_LOG_MOE_LAYER") in
       match py_int layer_str with
       | Ok z => set_self (set_logged_layer z)
       | Raise ValueError =>
           emit WARNING "Invalid VLLM_LOG_MOE_LAYER value. Using default layer 0."
                None ≫= λ _,
           set_self (set_logged_layer 0)
       | Raise e => raise e
       end ≫= λ _,
       emit INFO "MoE logging enabled." None)
      (fun e =>
         emit ERROR "Failed to initialize MoE logger" (Some e) ≫= λ _,
         set_self (set_enabled false)).

(** The [meta] dict of [write_meta_header]. *)
Definition meta_record (l : MoELogger) (w : world)
    (model_id : string) (top_k num_experts : Z) (device : string)
    (seed : option Z) : json :=
  JObj [ ("type", JStr "meta");
         ("model_id", JStr model_id);
         ("vllm_version", JStr (default "unknown" (vllm_version w)));
         ("torch_version", JStr (default "unknown" (torch_version w)));
         ("device", JStr device);
         ("seed", match seed with Some z => JInt z | None => JNull end);
         ("layers_logged", JList [JInt (logged_layer l)]);
         ("top_k", JInt top_k);
         ("num_experts", JInt num_experts) ].

Definition is_none {A} (o : option A) : bool :=
  match o with None => true | Some _ => false end.

Definition newline : string := String NEWLINE "".

(** The statements of [write_meta_header] under its last [try]. *)
Definition write_meta_header_body (meta : json) : M unit :=
  fh_write (dumps meta ++ newline) ≫= λ _, fh_flush.

(** [MoELogger.write_meta_header] *)
Definition write_meta_header (model_id : string) (top_k num_experts : Z)
    (device : string) (seed : option Z) : M unit :=
  l ← get_self;
  if negb (enabled l) || is_none (file_handle l) then mret tt
  else
    w ← get_env;
    let meta := meta_record l w model_id top_k num_experts device seed in
    try_except
      (write_meta_header_body meta)
      (fun e => emit ERROR "Failed to write MoE meta header" (Some e)).

(** The [record] dict of [log_routing] for one token. *)
Definition route_record (req_id : string) (token_idx : nat) (layer_idx : Z)
    (ids : json) (weights : list json) : json :=
  JObj [ ("type", JStr "route");
         ("req_id", JStr req_id);
         ("token_idx", JInt (Z.of_nat token_idx));
         ("layer", JInt layer_idx);
         ("topk_ids", ids);
         ("topk_weights", JList weights) ].

(** The body of the [for token_idx in range(num_tokens)] loop. *)
Definition log_token (req_id : string) (layer_idx : Z)
    (topk_ids_cpu : nested Z) (topk_weights_cpu : nested Q)
    (token_idx : nat) : M unit :=
  ids ← lift (py_getitem topk_ids_cpu token_idx);
  row ← lift (py_getitem topk_weights_cpu token_idx);
  items ← lift (py_iter row);
  weights ← lift (round_all items);
  fh_write (dumps (route_record req_id token_idx layer_idx (ids_to_json ids) weights)
            ++ newline).

(** The statements of [log_routing] under its [try]. *)
Definition log_routing_body (l : MoELogger) (layer_idx : Z) (topk_ids : tensor Z)
    (topk_weights : tensor Q) (req_id : option string) : M unit :=
  topk_ids_cpu ← lift (tolist topk_ids);
  topk_weights_cpu ← lift (tolist topk_weights);
  req_id ←
    match req_id with
    | Some r => mret r
    | None =>
        set_self (set_request_counter (S (request_counter l))) ≫= λ _,
        mret ("r" ++ PyStr.str_of_nat (request_counter l))
    end;
  num_tokens ← lift (py_len topk_ids_cpu);
  for_each (seq 0 num_tokens)
           (log_token req_id layer_idx topk_ids_cpu topk_weights_cpu) ≫= λ _,
  fh_flush.

(** [MoELogger.log_routing] *)
Definition log_routing (layer_idx : Z) (topk_ids : tensor Z)
    (topk_weights : tensor Q) (req_id : option string) : M unit :=
  l ← get_self;
  if negb (enabled l) || is_none (file_handle l) then mret tt
  else if negb (layer_idx =? logged_layer l)%Z then mret tt
  else
    try_except
      (log_routing_body l layer_idx topk_ids topk_weights req_id)
      (fun e => emit ERROR "Failed to log MoE routing" (Some e)).

(** [MoELogger.close] *)
Definition close : M unit :=
  l ← get_self;
  if is_none (file_handle l) then mret tt
  else
    fun s =>
      let '(r, s1) :=
        try_except fh_close
          (fun e => emit ERROR "Failed to close MoE log file" (Some e)) s in
      (r, State (set_enabled false (set_file_handle None (self s1))) (env s1)).

(** ** The offline analysis: [plot_expert_hist.py] *)

(** [record[key]] on a decoded JSON value: only a dict can be indexed by a
    string, and the key must be there. *)
Definition py_subscript (record : json) (key : string) : result json :=
  match record with
  | JObj d =>
      match dict_get key d with
      | Some v => Ok v
      | None => Raise KeyError
      end
  | _ => Raise TypeError
  end.

(** [v == s] for a string literal [s] *)
Definition eq_str (v : json) (s : string) : bool :=
  match v with
  | JStr x => String.eqb x s
  | _ => false
  end.

(** The [for line in f] loop of [read_moe_log]. *)
Fixpoint read_loop (lines : list string) (meta : option json) (routes : list json)
  : result (option json * list json) :=
  match lines with
  | [] => Ok (meta, routes)
  | line :: rest =>
      match loads (PyStr.strip line) with
      | None => Raise JSONDecodeError
      | Some record =>
          match py_subscript record "type" with
          | Raise e => Raise e
          | Ok tag =>
              if eq_str tag "meta" then read_loop rest (Some record) routes
              else if eq_str tag "route" then read_loop rest meta (routes ++ [record])
              else read_loop rest meta routes
          end
      end
  end.

(** [read_moe_log(filepath)]: [meta] is [None] (Python's [None]) when no
    line set it. *)
Definition read_moe_log (d : gmap string string) (filepath : string)
  : result (option json * list json) :=
  match d !! filepath with
  | None => Raise OSError
  | Some text => read_loop (PyStr.iter_lines text) None []
  end.

(** The expert ids of one route, [route["topk_ids"]].  The model covers
    lists of ints, which is what the logger writes; any other value is taken
    to raise [TypeError]. *)
Fixpoint ints_of (l : list json) : result (list Z) :=
  match l with
  | [] => Ok []
  | JInt z :: l' =>
      match ints_of l' with
      | Ok zs => Ok (z :: zs)
      | Raise e => Raise e
      end
  | _ :: _ => Raise TypeError
  end.

Definition route_ids (route : json) : result (list Z) :=
  match py_subscript route "topk_ids" with
  | Raise e => Raise e
  | Ok (JList l) => ints_of l
  | Ok _ => Raise TypeError
  end.

(** [for route in routes: all_expert_ids.extend(route["topk_ids"])] *)
Fixpoint collect_ids (routes : list json) (all_expert_ids : list Z)
  : result (list Z) :=
  match routes with
  | [] => Ok all_expert_ids
  | route :: rest =>
      match route_ids route with
      | Raise e => Raise e
      | Ok ids => collect_ids rest (all_expert_ids ++ ids)
      end
  end.

(** [collections.Counter(l)] *)
Definition Counter (l : list Z) : gmap Z nat :=
  fold_left (fun m x => <[x := S (default 0 (m !! x))]> m) l ∅.

(** [max(l)] for a list starting with [x]. *)
Definition py_max (x : Z) (l : list Z) : Z := fold_left Z.max l x.

(** [analyze_expert_usage(routes)]: the dense usage array and the counter. *)
Definition analyze_expert_usage (routes : list json)
  : result (list nat * gmap Z nat) :=
  match collect_ids routes [] with
  | Raise e => Raise e
  | Ok all_expert_ids =>
      let expert_counts := Counter all_expert_ids in
      let num_experts :=
        match all_expert_ids with
        | [] => 0%Z
        | x :: l => (py_max x l + 1)%Z
        end in
      let expert_usage :=
        map (fun i => default 0 (expert_counts !! Z.of_nat i))
            (seq 0 (Z.to_nat num_experts)) in
      Ok (expert_usage, expert_counts)
  end.

(** The floating-point operations [calculate_metrics] takes from [numpy] and
    [scipy]; [F] stands for [float]. *)
Class FloatOps (F : Type) : Type := {
  true_divide : nat -> nat -> F;    (* an entry of [expert_usage / total_selections] *)
  is_positive : F -> bool;          (* [p > 0] *)
  entropy2 : list F -> F;           (* [scipy.stats.entropy(pk, base=2)] *)
  log2 : nat -> F;                  (* [np.log2(n)] *)
  fdiv : F -> F -> F;               (* [x / y] *)
  of_int : Z -> F                   (* [float(n)] *)
}.

(** [np.argsort(a)] with the default [kind]: the indices of [a] arranged so
    that the values ascend.  That is all numpy promises: the default sort is
    not stable, and which algorithm runs (an insertion sort on short arrays,
    a vectorised sort where the processor has one) depends on the build, so
    the order among equal values is not fixed.  [calculate_metrics] is
    modelled over any function that meets this contract. *)
Class ArgSort : Type := {
  argsort : list nat -> list nat;
  argsort_perm : forall a, Permutation (argsort a) (seq 0 (length a));
  argsort_sorts :
    forall a, StronglySorted (fun i j => default 0 (a !! i) <= default 0 (a !! j))
                             (argsort a)
}.

(** One such function: the insertion sort numpy runs on arrays of at most 16
    entries where no vectorised sort is available; it leaves equal values in
    index order. *)
Fixpoint insert_index (a : list nat) (i : nat) (sorted : list nat) : list nat :=
  match sorted with
  | [] => [i]
  | j :: rest =>
      if (default 0 (a !! i) <? default 0 (a !! j))%nat then i :: sorted
      else j :: insert_index a i rest
  end.

Definition insertion_argsort (a : list nat) : list nat :=
  fold_left (fun sorted i => insert_index a i sorted) (seq 0 (length a)) [].

(** Another: the same sort with an index moved in front of the equal values
    it meets, which leaves equal values in reverse index order. *)
Fixpoint insert_index_front (a : list nat) (i : nat) (sorted : list nat) : list nat :=
  match sorted with
  | [] => [i]
  | j :: rest =>
      if (default 0 (a !! i) <=? default 0 (a !! j))%nat then i :: sorted
      else j :: insert_index_front a i rest
  end.

Definition reverse_argsort (a : list nat) : list nat :=
  fold_left (fun sorted i => insert_index_front a i sorted) (seq 0 (length a)) [].

(** [l[-n:]] *)
Definition last_n {A} (n : nat) (l : list A) : list A := drop (length l - n) l.

(** [np.argsort(expert_usage)[-3:][::-1]] *)
Definition top_3_indices `{sorter : ArgSort} (expert_usage : list nat) : list nat :=
  rev (last_n 3 (argsort expert_usage)).

(** The values of the [metrics] dict. *)
Inductive mval (F : Type) : Type :=
| MInt (z : Z)
| MFloat (x : F)
| MTop (l : list (nat * nat * F)).
Arguments MInt {F} z.
Arguments MFloat {F} x.
Arguments MTop {F} l.

(** [metrics.get(key)] *)
Fixpoint metrics_get {F} (key : string) (metrics : list (string * mval F))
  : option (mval F) :=
  match metrics with
  | [] => None
  | (k, v) :: rest => if String.eqb key k then Some v else metrics_get key rest
  end.

(** [calculate_metrics(expert_usage)]: the metrics dict and the probability
    array. *)
Definition calculate_metrics {F} `{FloatOps F} `{sorter : ArgSort} (expert_usage : list nat)
  : list (string * mval F) * list F :=
  let total_selections := list_sum expert_usage in
  if (total_selections =? 0)%nat then ([], [])
  else
    let prob_dist := map (fun c => true_divide c total_selections) expert_usage in
    let top_3_experts :=
      map (fun idx => (idx, default 0 (expert_usage !! idx),
                       default (of_int 0) (prob_dist !! idx)))
          (top_3_indices expert_usage) in
    let nonzero_probs := filter (fun p => is_positive p = true) prob_dist in
    let shannon_entropy := entropy2 nonzero_probs in
    let num_experts := length expert_usage in
    let max_entropy := log2 num_experts in
    let normalized_entropy :=
      if is_positive max_entropy then fdiv shannon_entropy max_entropy
      else of_int 0 in
    ([ ("top_3_experts", MTop top_3_experts);
       ("shannon_entropy_bits", MFloat shannon_entropy);
       ("max_entropy_bits", MFloat max_entropy);
       ("normalized_entropy", MFloat normalized_entropy);
       ("total_selections", MInt (Z.of_nat total_selections));
       ("num_experts", MInt (Z.of_nat num_experts)) ],
     prob_dist).

(** Floats left uninterpreted: an instance of [FloatOps] that records which
    operation produced a value, to run [calculate_metrics] on examples. *)
#[warnings="-register-all"]
Inductive fexpr : Type :=
| FRatio (n m : nat)
| FEntropy (l : list fexpr)
| FLog2 (n : nat)
| FDiv (a b : fexpr)
| FOfInt (z : Z).

#[global] Instance symbolic_floats : FloatOps fexpr := {
  true_divide := FRatio;
  is_positive x :=
    match x with
    | FRatio n m => (0 <? n)%nat && (0 <? m)%nat
    | FLog2 n => (1 <? n)%nat
    | FOfInt z => (0 <? z)%Z
    | _ => false
    end;
  entropy2 := FEntropy;
  log2 := FLog2;
  fdiv := FDiv;
  of_int := FOfInt
}.

(** ** Vocabulary of the statements *)

(** A tensor of shape [[num_tokens, top_k]] given by its rows, and what
    [tolist()] returns for it. *)
Definition rows2 {A} (rows : list (list A)) : nested A :=
  Nested (map (fun row => Nested (map Scalar row)) rows).

Definition tensor2 {A} (rows : list (list A)) : tensor A := Tensor (rows2 rows).

(** The route records a reader expects of one batch, rows numbered from
    [start]: for every row a dict of six entries, in this order, the weights
    rounded to six decimal places. *)
Fixpoint batch_records (req_id : string) (layer_idx : Z) (start : nat)
    (ids : list (list Z)) (weights : list (list Q)) : list json :=
  match ids, weights with
  | row_ids :: ids', row_w :: weights' =>
      JObj [ ("type", JStr "route");
             ("req_id", JStr req_id);
             ("token_idx", JInt (Z.of_nat start));
             ("layer", JInt layer_idx);
             ("topk_ids", JList (map JInt row_ids));
             ("topk_weights", JList (map (fun w => JFloat (round6 w)) row_w)) ]
      :: batch_records req_id layer_idx (S start) ids' weights'
  | _, _ => []
  end.

(** The text of a sequence of records, one per line. *)
Definition jsonl (records : list json) : string :=
  fold_right (fun r text => dumps r ++ newline ++ text) "" records.

(** Whether a decoded line carries the given [type] tag. *)
Definition has_tag (tag : string) (record : json) : bool :=
  match py_subscript record "type" with
  | Ok v => eq_str v tag
  | Raise _ => false
  end.

(** Objects with distinct keys at every level: the values a Python [dict]
    can hold. *)
Fixpoint wf_json (v : json) : Prop :=
  match v with
  | JList l => fold_right (fun x acc => wf_json x /\ acc) True l
  | JObj kv =>
      NoDup (map fst kv) /\
      fold_right (fun p acc => wf_json (snd p) /\ acc) True kv
  | _ => True
  end.

(** An int [str] converts to text: CPython refuses an int of more than 4300
    digits. *)
Definition convertible (z : Z) : Prop := (Z.abs z < 10 ^ 4300)%Z.

(** A weight the model writes as Python does: of size at most [10^9], so
    that its rounding has no more than 15 significant digits, and not a
    negative number that rounds to zero, which Python writes [-0.0]. *)
Definition weight_in_range (w : Q) : Prop :=
  (Qabs w <= 1000000000)%Q /\ ((0 <= w)%Q \/ round6 w <> 0%Z).

(** A text between double quotes. *)
Definition quoted (s : string) : string := String DQUOTE (s ++ String DQUOTE "").

(** A field of a route record, as an integer or a string. *)
Definition int_field (key : string) (record : json) : option Z :=
  match py_subscript record key with
  | Ok (JInt z) => Some z
  | _ => None
  end.

Definition str_field (key : string) (record : json) : option string :=
  match py_subscript record key with
  | Ok (JStr x) => Some x
  | _ => None
  end.

(** ** Notions used by the statements and their proofs *)

(** Every character of the string satisfies the test. *)
Fixpoint all_chars (p : ascii -> bool) (s : string) : bool :=
  match s with
  | "" => true
  | String c s' => p c && all_chars p s'
  end.

(** The first character, if any, fails the test. *)
Definition head_not (p : ascii -> bool) (s : string) : Prop :=
  match s with
  | "" => True
  | String c _ => p c = false
  end.

(** What may follow a number literal without being taken for part of it. *)
Definition num_char (c : ascii) : bool :=
  PyStr.is_digit c || Ascii.eqb c "." || Ascii.eqb c "e" || Ascii.eqb c "E".

Definition num_safe (rest : string) : Prop := head_not num_char rest.

(** A digit string as [int] literals have it: not empty, and no zero in
    front of another digit. *)
Definition canonical (ds : string) : Prop :=
  all_chars PyStr.is_digit ds = true /\
  exists c r, ds = String c r /\ (Ascii.eqb c "0" = true -> r = "").

Definition digit_string (ds : string) : Prop :=
  all_chars PyStr.is_digit ds = true /\ ds <> "".

Definition sign_text (neg : bool) : string := if neg then "-" else "".

Definition frac_text (fp : option string) : string :=
  match fp with Some ds => String "." ds | None => "" end.

Definition exp_text (ep : option (bool * string)) : string :=
  match ep with
  | Some (eneg, ds) => String "e" (sign_text eneg ++ ds)
  | None => ""
  end.

Definition exp_value (ep : option (bool * string)) : option Z :=
  match ep with
  | Some (eneg, ds) =>
      let e := Z.of_N (PyStr.N_of_digits ds) in
      Some (if eneg then (- e)%Z else e)
  | None => None
  end.

(** The characters a JSON text can begin with, as [dumps] writes it. *)
Definition value_start (c : ascii) : bool :=
  Ascii.eqb c DQUOTE || Ascii.eqb c "{" || Ascii.eqb c "[" || Ascii.eqb c "n"
  || Ascii.eqb c "t" || Ascii.eqb c "f" || Ascii.eqb c "-" || PyStr.is_digit c.

Definition number_start (c : ascii) : bool :=
  Ascii.eqb c "-" || PyStr.is_digit c.

Definition starts_with (p : ascii -> bool) (s : string) : Prop :=
  exists c r, s = String c r /\ p c = true.

(** Fuel that suffices to scan the text of a value. *)
Fixpoint jsize (v : json) : nat :=
  match v with
  | JList l => S (fold_right (fun x acc => S (jsize x + acc)) 0 l)
  | JObj kv => S (fold_right (fun p acc => S (jsize (snd p) + acc)) 0 kv)
  | _ => 1
  end.

Definition member_text (p : string * json) : string :=
  encode_str (fst p) ++ ": " ++ dumps (snd p).

(** Induction on JSON values, with the hypothesis available for every
    element of a list and every member of an object. *)
Section json_induction.
Variable P : json -> Prop.
Hypothesis Hnull : P JNull.
Hypothesis Hbool : forall b, P (JBool b).
Hypothesis Hint : forall z, P (JInt z).
Hypothesis Hfloat : forall k, P (JFloat k).
Hypothesis Hstr : forall s, P (JStr s).
Hypothesis Hlist : forall l, Forall P l -> P (JList l).
Hypothesis Hobj : forall kv, Forall (fun p => P (snd p)) kv -> P (JObj kv).

Fixpoint json_nested_ind (v : json) : P v :=
  match v with
  | JNull => Hnull
  | JBool b => Hbool b
  | JInt z => Hint z
  | JFloat k => Hfloat k
  | JStr s => Hstr s
  | JList l =>
      Hlist l
        ((fix go (l : list json) : Forall P l :=
            match l with
            | [] => List.Forall_nil P
            | x :: l' => @List.Forall_cons _ P x l' (json_nested_ind x) (go l')
            end) l)
  | JObj kv =>
      Hobj kv
        ((fix go (kv : list (string * json)) : Forall (fun p => P (snd p)) kv :=
            match kv with
            | [] => List.Forall_nil _
            | p :: kv' =>
                @List.Forall_cons _ (fun p => P (snd p)) p kv'
                                  (json_nested_ind (snd p)) (go kv')
            end) kv)
  end.
End json_induction.

(** A line the reader accepts: it decodes, and the record has a [type]. *)
Definition decodes_to (line : string) (record : json) : Prop :=
  loads (PyStr.strip line) = Some record /\
  exists tag, py_subscript record "type" = Ok tag.

(** What the reader needs of one line, and of all lines in order; the first
    failure is the one that surfaces. *)
Definition decode_line (line : string) : result json :=
  match loads (PyStr.strip line) with
  | None => Raise JSONDecodeError
  | Some record =>
      match py_subscript record "type" with
      | Raise e => Raise e
      | Ok _ => Ok record
      end
  end.

Fixpoint decode_lines (lines : list string) : result (list json) :=
  match lines with
  | [] => Ok []
  | line :: rest =>
      match decode_line line with
      | Raise e => Raise e
      | Ok record =>
          match decode_lines rest with
          | Raise e => Raise e
          | Ok records => Ok (record :: records)
          end
      end
  end.

(** The records that count: those tagged [meta] or [route]. *)
Definition relevant (records : list json) : list json :=
  List.filter (fun r => has_tag "meta" r || has_tag "route" r) records.

Definition sample_meta : json :=
  meta_record (Build_MoELogger true None None 0 0) (World ∅ ∅ None None [] [])
              "model" 2 8 "cuda" None.

Definition sample_route (i : nat) : json :=
  route_record "r0" i 0 (JList [JInt 2; JInt 0]) [JFloat 700000; JFloat 300000].

Definition sample_trace : string :=
  jsonl [sample_route 0; JObj [("type", JStr "note")]; sample_meta;
         sample_route 1; JObj [("type", JInt 7)]; sample_meta].

(** The value at an index, and the order the insertion sort produces:
    ascending by value, equal values by index. *)
Definition count_at (a : list nat) (i : nat) : nat := default 0 (a !! i).

Definition before (a : list nat) (i j : nat) : Prop :=
  count_at a i < count_at a j \/ (count_at a i = count_at a j /\ i < j).

(** The insertion sort after its first [n] insertions. *)
Definition sort_prefix (a : list nat) (n : nat) : list nat :=
  fold_left (fun sorted i => insert_index a i sorted) (seq 0 n) [].

(** The order the other sort produces: ascending by value, equal values by
    descending index. *)
Definition before_reversed (a : list nat) (i j : nat) : Prop :=
  count_at a i < count_at a j \/ (count_at a i = count_at a j /\ j < i).

Definition sample_routes : list json :=
  map (fun ids => route_record "r0" 0 0 (JList (map JInt ids)) [])
      [[0; 1]; [1; 2]; [0; 0]]%Z.

(** The ranking the spec words describe: among equal counts, the lower id
    comes first. *)
Definition lower_id_first (usage : list nat) (ids : list nat) : Prop :=
  forall k i j,
    ids !! k = Some i -> ids !! S k = Some j ->
    default 0 (usage !! i) = default 0 (usage !! j) -> i < j.

(** Both tensor arguments convert to lists. *)
Definition converts {A B} (t : tensor A) (u : tensor B) : bool :=
  match t, u with
  | Tensor _, Tensor _ => true
  | _, _ => false
  end.

(** The characters of a text [int()] can accept: a digit, a sign, an
    underscore, or white space that [int()] skips (U+0009 to U+000D, the
    space, U+0085, U+00A0). *)
Definition int_text_char (c : ascii) : bool :=
  let n := N_of_ascii c in
  PyStr.is_digit c || Ascii.eqb c "+" || Ascii.eqb c "-" || Ascii.eqb c "_"
  || ((9 <=? n) && (n <=? 13) || (n =? 32) || (n =? 133) || (n =? 160))%N.

(** The guards of the two capture operations. *)
Definition capturing (l : MoELogger) : bool :=
  enabled l && negb (is_none (file_handle l)).

(** Sample states. *)
Definition sample_world (plan : list bool) : world :=
  World {[ "moe_routes.jsonl" := "" ]} {[ "VLLM_LOG_MOE" := "moe_routes.jsonl" ]}
        (Some "2.4.0") (Some "0.6.3") [] plan.

Definition sample_logger : MoELogger :=
  Build_MoELogger true (Some "moe_routes.jsonl")
                  (Some (FileObject "moe_routes.jsonl" "")) 0 0.

Definition blank_state : state :=
  State (Build_MoELogger false None None 0 0) (World ∅ ∅ None None [] []).

(** The state after appending [text] to the buffer of the open file. *)
Definition buffered (text : string) (s : state) : state :=
  match file_handle (self s) with
  | Some h =>
      State (set_file_handle (Some (FileObject (f_name h) (f_buffer h ++ text)))
                             (self s))
            (env s)
  | None => s
  end.

(** The request id a call uses, and the counter it leaves. *)
Definition next_req_id (rid : option string) (l : MoELogger) : string :=
  match rid with
  | Some r => r
  | None => "r" ++ PyStr.str_of_nat (request_counter l)
  end.

Definition next_counter (rid : option string) (l : MoELogger) : nat :=
  match rid with
  | Some _ => request_counter l
  | None => S (request_counter l)
  end.

(** The text of the file at [path]. *)
Definition file_text (s : state) (path : string) : string :=
  default "" (disk (env s) !! path).

(** The state after a batch has been written and flushed. *)
Definition flushed_batch (rid : option string) (records : list json) (h : file_object)
    (s : state) : state :=
  State (Build_MoELogger (enabled (self s)) (log_file (self s))
           (Some (FileObject (f_name h) ""))
           (logged_layer (self s)) (next_counter rid (self s)))
        (set_disk (<[f_name h := file_text s (f_name h) ++ f_buffer h ++ jsonl records]>
                     (disk (env s)))
                  (env s)).

Definition two_rows_ids : list (list Z) := [[2; 0]; [1; 3]]%Z.

Definition two_rows_weights : list (list Q) :=
  [[(7#10)%Q; (3#10)%Q]; [(6#10)%Q; (4#10)%Q]].

(** Token indices that never go down along the records of one request. *)
Definition token_idx_monotone (routes : list json) : Prop :=
  forall i j ri rj zi zj,
    i < j -> routes !! i = Some ri -> routes !! j = Some rj ->
    str_field "req_id" ri = str_field "req_id" rj ->
    int_field "token_idx" ri = Some zi -> int_field "token_idx" rj = Some zj ->
    (zi <= zj)%Z.

Definition same_request_twice : state :=
  let batch :=
    log_routing 0 (tensor2 two_rows_ids) (tensor2 two_rows_weights) (Some "a") in
  snd (batch (snd (batch (State sample_logger (sample_world []))))).

(** One call of [log_routing] with a tensor pair of shape
    [[num_tokens, top_k]]. *)
Record call : Type := Call {
  c_layer : Z;
  c_ids : list (list Z);
  c_weights : list (list Q);
  c_req_id : option string
}.

Definition replay (calls : list call) : M unit :=
  for_each calls
    (fun c => log_routing (c_layer c) (tensor2 (c_ids c)) (tensor2 (c_weights c))
                          (c_req_id c)).

(** The route records a sequence of calls stands for, given the logged
    layer and the value of the request counter. *)
Fixpoint expected_routes (layer : Z) (counter : nat) (calls : list call)
  : list json :=
  match calls with
  | [] => []
  | c :: rest =>
      if (c_layer c =? layer)%Z then
        match c_req_id c with
        | Some r =>
            batch_records r layer 0 (c_ids c) (c_weights c)
            ++ expected_routes layer counter rest
        | None =>
            batch_records ("r" ++ PyStr.str_of_nat counter) layer 0
                          (c_ids c) (c_weights c)
            ++ expected_routes layer (S counter) rest
        end
      else expected_routes layer counter rest
  end.

Definition configured_state : state :=
  State (Build_MoELogger false None None 0 0)
        (World ∅ {[ "VLLM_LOG_MOE" := "moe_routes.jsonl" ]}
               (Some "2.4.0") (Some "0.6.3") [] []).

Definition sample_calls : list call :=
  [ Call 0 two_rows_ids two_rows_weights None;
    Call 1 [[5; 6]]%Z [[(1#2)%Q; (1#2)%Q]] None;
    Call 0 [[4; 7]]%Z [[(1#3)%Q; (2#3)%Q]] (Some "req-7");
    Call 0 [[0; 1]]%Z [[(9#10)%Q; (1#10)%Q]] None ].

(** ** The rest of the capture logger *)

(** [MoELogger.__del__] *)
Definition __del__ : M unit := close.

(** The class attributes [_instance] and [_initialized] of [MoELogger],
    next to the world. *)
Record class_state : Type := ClassState {
  _instance : option MoELogger;
  _initialized : bool;
  outside : world
}.

(** [MoELogger.get_instance()].  An instance that gets replaced is left to
    the garbage collector; its finaliser is not run here. *)
Definition get_instance (c : class_state) : result MoELogger * class_state :=
  if is_none (_instance c) || negb (_initialized c) then
    match __init__ (State (Build_MoELogger false None None 0 0) (outside c)) with
    | (Ok _, s) => (Ok (self s), ClassState (Some (self s)) true (env s))
    | (Raise e, s) => (Raise e, ClassState (_instance c) (_initialized c) (env s))
    end
  else
    match _instance c with
    | Some l => (Ok l, c)
    | None => (Raise AttributeError, c)
    end.

(** ** What a capture call may change *)

(** The name of the file the logger holds open, if any. *)
Definition open_name (l : MoELogger) : option string :=
  match file_handle l with
  | Some h => Some (f_name h)
  | None => None
  end.

(** From [s] to [s']: the switches of the logger, its layer and its file are
    the same, the counter did not go down, the environment is the same,
    diagnostics were only added, every file only grew, and no file other
    than the log was touched. *)
Record frame (s s' : state) : Prop := Frame {
  frame_enabled : enabled (self s') = enabled (self s);
  frame_log_file : log_file (self s') = log_file (self s);
  frame_layer : logged_layer (self s') = logged_layer (self s);
  frame_counter : request_counter (self s) <= request_counter (self s');
  frame_handle : open_name (self s') = open_name (self s);
  frame_environ : environ (env s') = environ (env s);
  frame_torch : torch_version (env s') = torch_version (env s);
  frame_vllm : vllm_version (env s') = vllm_version (env s);
  frame_diagnostics :
    exists added, diagnostics (env s') = (diagnostics (env s) ++ added)%list;
  frame_grows :
    forall p, exists added, file_text s' p = file_text s p ++ added;
  frame_others :
    forall p, open_name (self s) <> Some p ->
              disk (env s') !! p = disk (env s) !! p
}.

(** A computation all of whose runs are related by [R]. *)
Definition keeps (R : state -> state -> Prop) {A} (m : M A) : Prop :=
  forall s, R s (snd (m s)).

(** The counter is left as it is. *)
Definition same_counter (s s' : state) : Prop :=
  request_counter (self s') = request_counter (self s).

(** Whether the next call into the operating system fails. *)
Definition next_io_fails (w : world) : bool :=
  match io_plan w with
  | true :: _ => true
  | _ => false
  end.

(** The singleton exists and is marked initialised. *)
Definition initialised (c : class_state) : Prop :=
  _initialized c = true /\ exists l, _instance c = Some l.

(** ** The analysis script: [plot_histogram] and [main] of
    [plot_expert_hist.py]

    What the script prints is kept as the sequence of its [print] calls,
    each with the values it formats; what it saves is kept by content, the
    figure by the data drawn and the metrics file by the dict dumped.  The
    drawing calls of [matplotlib] are taken to succeed; [savefig], [open]
    and the write of [json.dump] are I/O calls that may fail. *)

(** [x > c] for a float [x] and a decimal constant [c]. *)
Class FloatCompare (F : Type) : Type := {
  exceeds : F -> Q -> bool
}.

(** One [print] call of the script. *)
Inductive printed (F : Type) : Type :=
| Reading                          (* Reading MoE routing log... *)
| NoRoutes                         (* ERROR: No routing records found ... *)
| Loaded (n : nat)                 (* Loaded metadata and n routing records *)
| ModelLine (v : json)             (* Model: ... *)
| LayersLine (v : json)            (* Layers logged: ... *)
| TopKLine (v : json)              (* Top-k: ... *)
| Analyzing                        (* Analyzing expert usage... *)
| Rule                             (* sixty equals signs *)
| Title                            (* EXPERT USAGE ANALYSIS *)
| TotalLine (v : mval F)           (* Total expert selections: ... *)
| ExpertsLine (v : mval F)         (* Number of experts: ... *)
| TokensLine (n : nat)             (* Tokens processed: n *)
| Top3Title                        (* Top-3 Experts: *)
| Top3Line (rank : nat) (e : nat * nat * F)
| MetricsTitle                     (* Distribution Metrics: *)
| EntropyLine (v : mval F)         (* Shannon Entropy: ... bits *)
| MaxEntropyLine (v : mval F)      (* Max Entropy: ... bits *)
| NormalizedLine (v : mval F)      (* Normalized: ... (load balance) *)
| Interpretation (text : string)   (* Interpretation: ... *)
| Generating                       (* Generating histogram... *)
| SavedHistogram (file : string)   (* Saved histogram to ... *)
| SavedMetrics.                    (* Saved metrics to expert_metrics.json *)
Arguments Reading {F}.
Arguments NoRoutes {F}.
Arguments Loaded {F} n.
Arguments ModelLine {F} v.
Arguments LayersLine {F} v.
Arguments TopKLine {F} v.
Arguments Analyzing {F}.
Arguments Rule {F}.
Arguments Title {F}.
Arguments TotalLine {F} v.
Arguments ExpertsLine {F} v.
Arguments TokensLine {F} n.
Arguments Top3Title {F}.
Arguments Top3Line {F} rank e.
Arguments MetricsTitle {F}.
Arguments EntropyLine {F} v.
Arguments MaxEntropyLine {F} v.
Arguments NormalizedLine {F} v.
Arguments Interpretation {F} text.
Arguments Generating {F}.
Arguments SavedHistogram {F} file.
Arguments SavedMetrics {F}.

(** A file the script has written: just opened, a figure (the title, the
    bars of both plots, the highlighted bars, the top-3 box and the three
    numbers of the entropy box), or the metrics dict. *)
Inductive artifact (F : Type) : Type :=
| Blank
| Histogram (model : json) (counts : list nat) (highlight : list (nat * nat))
            (top_3 : list (nat * nat * F)) (probabilities : list (mval F))
            (entropies : mval F * mval F * mval F)
| MetricsFile (metrics : list (string * mval F)).
Arguments Blank {F}.
Arguments Histogram {F} model counts highlight top_3 probabilities entropies.
Arguments MetricsFile {F} metrics.

(** The surroundings of a run of the script: the text files it can read,
    what it has printed and saved, and the fate of its I/O calls. *)
Record session (F : Type) : Type := Session {
  files : gmap string string;
  stdout : list (printed F);
  saved : gmap string (artifact F);
  faults : list bool
}.
Arguments Session {F} files stdout saved faults.
Arguments files {F} s.
Arguments stdout {F} s.
Arguments saved {F} s.
Arguments faults {F} s.

Definition Run (F A : Type) : Type := session F -> result A * session F.

#[global] Instance Run_ret {F} : MRet (Run F) := fun A a s => (Ok a, s).

#[global] Instance Run_bind {F} : MBind (Run F) :=
  fun A B k m s =>
    match m s with
    | (Ok a, s') => k a s'
    | (Raise e, s') => (Raise e, s')
    end.

Definition run_lift {F A} (r : result A) : Run F A := fun s => (r, s).

Definition run_session {F} : Run F (session F) := fun s => (Ok s, s).

(** [print(...)] *)
Definition print {F} (line : printed F) : Run F unit :=
  fun s => (Ok tt, Session (files s) (stdout s ++ [line]) (saved s) (faults s)).

(** One call into the operating system. *)
Definition run_io {F} : Run F unit :=
  fun s =>
    match faults s with
    | true :: plan => (Raise OSError, Session (files s) (stdout s) (saved s) plan)
    | false :: plan => (Ok tt, Session (files s) (stdout s) (saved s) plan)
    | [] => (Ok tt, s)
    end.

(** The content of a written file is set. *)
Definition save {F} (file : string) (a : artifact F) : Run F unit :=
  fun s => (Ok tt, Session (files s) (stdout s) (<[file := a]> (saved s)) (faults s)).

Fixpoint run_each {F A} (l : list A) (body : A -> Run F unit) : Run F unit :=
  match l with
  | [] => mret tt
  | x :: l' => body x ≫= λ _, run_each l' body
  end.

(** [meta.get(key, fallback)]: [meta] has the method when it is a dict. *)
Definition py_get (meta : option json) (key : string) (fallback : json) : result json :=
  match meta with
  | Some (JObj d) => Ok (default fallback (dict_get key d))
  | _ => Raise AttributeError
  end.

(** [metrics[key]] *)
Definition metrics_item {F} (metrics : list (string * mval F)) (key : string)
  : result (mval F) :=
  match metrics_get key metrics with
  | Some v => Ok v
  | None => Raise KeyError
  end.

(** The items a loop over [metrics["top_3_experts"]] goes through. *)
Definition top_items {F} (v : mval F) : result (list (nat * nat * F)) :=
  match v with
  | MTop l => Ok l
  | _ => Raise TypeError
  end.

(** A value under a float format such as [:.4f]: a number goes through, a
    list does not. *)
Definition as_number {F} (v : mval F) : result (mval F) :=
  match v with
  | MTop _ => Raise TypeError
  | _ => Ok v
  end.

(** [v > c] *)
Definition py_gt {F} `{FloatCompare F} (v : mval F) (c : Q) : result bool :=
  match v with
  | MFloat x => Ok (exceeds x c)
  | MInt z => Ok (negb (Qle_bool (inject_Z z) c))
  | MTop _ => Raise TypeError
  end.

(** [expert_usage[i]] on the array *)
Definition usage_item (expert_usage : list nat) (i : nat) : result nat :=
  match expert_usage !! i with
  | Some c => Ok c
  | None => Raise IndexError
  end.

Fixpoint usage_items (expert_usage : list nat) (ids : list nat)
  : result (list (nat * nat)) :=
  match ids with
  | [] => Ok []
  | i :: ids' =>
      match usage_item expert_usage i with
      | Raise e => Raise e
      | Ok c =>
          match usage_items expert_usage ids' with
          | Raise e => Raise e
          | Ok rest => Ok ((i, c) :: rest)
          end
      end
  end.

(** [plot_histogram(expert_usage, meta, metrics, output_file)]; the figure
    is returned. *)
Definition plot_histogram {F} `{FloatOps F} (expert_usage : list nat)
    (meta : option json) (metrics : list (string * mval F)) (output_file : string)
  : Run F (artifact F) :=
  model ← run_lift (py_get meta "model_id" (JStr "Unknown Model"));
  top ← run_lift (metrics_item metrics "top_3_experts");
  top ← run_lift (top_items top);
  let top_3_ids := map (fun e => fst (fst e)) top in
  highlight ← run_lift (usage_items expert_usage top_3_ids);
  let prob_dist :=
    if (0 <? list_sum expert_usage)%nat
    then map (fun c => MFloat (true_divide c (list_sum expert_usage))) expert_usage
    else map (fun c => MInt (Z.of_nat c)) expert_usage in
  e1 ← run_lift (metrics_item metrics "shannon_entropy_bits");
  e1 ← run_lift (as_number e1);
  e2 ← run_lift (metrics_item metrics "max_entropy_bits");
  e2 ← run_lift (as_number e2);
  e3 ← run_lift (metrics_item metrics "normalized_entropy");
  e3 ← run_lift (as_number e3);
  let fig := Histogram model expert_usage highlight top prob_dist (e1, e2, e3) in
  run_io ≫= λ _,
  save output_file fig ≫= λ _,
  print (SavedHistogram output_file) ≫= λ _,
  mret fig.

(** The [if]/[elif] chain on [metrics['normalized_entropy']]. *)
Definition interpretation {F} `{FloatCompare F} (metrics : list (string * mval F))
  : result string :=
  match metrics_item metrics "normalized_entropy" with
  | Raise e => Raise e
  | Ok v =>
      match py_gt v (9 # 10) with
      | Raise e => Raise e
      | Ok true => Ok "near-perfect load balance across experts"
      | Ok false =>
          match py_gt v (7 # 10) with
          | Raise e => Raise e
          | Ok true => Ok "fairly balanced, with moderate specialization"
          | Ok false =>
              match py_gt v (5 # 10) with
              | Raise e => Raise e
              | Ok true => Ok "moderate imbalance, some experts are preferred"
              | Ok false =>
                  Ok "high specialization, routing heavily favors specific experts"
              end
          end
      end
  end.

(** [enumerate(l, start)] *)
Fixpoint enumerate {A} (start : nat) (l : list A) : list (nat * A) :=
  match l with
  | [] => []
  | x :: l' => (start, x) :: enumerate (S start) l'
  end.

(** The part of [main] after the check for routes. *)
Definition report {F} `{FloatOps F} `{FloatCompare F} `{sorter : ArgSort}
    (meta : option json)
    (routes : list json) : Run F unit :=
  print (Loaded (length routes)) ≫= λ _,
  v ← run_lift (py_get meta "model_id" (JStr "Unknown"));
  print (ModelLine v) ≫= λ _,
  v ← run_lift (py_get meta "layers_logged" (JList []));
  print (LayersLine v) ≫= λ _,
  v ← run_lift (py_get meta "top_k" (JStr "Unknown"));
  print (TopKLine v) ≫= λ _,
  print Analyzing ≫= λ _,
  analysis ← run_lift (analyze_expert_usage routes);
  let expert_usage := fst analysis in
  let metrics := fst (calculate_metrics expert_usage) in
  print Rule ≫= λ _,
  print Title ≫= λ _,
  print Rule ≫= λ _,
  v ← run_lift (metrics_item metrics "total_selections");
  print (TotalLine v) ≫= λ _,
  v ← run_lift (metrics_item metrics "num_experts");
  print (ExpertsLine v) ≫= λ _,
  print (TokensLine (length routes)) ≫= λ _,
  print Top3Title ≫= λ _,
  top ← run_lift (metrics_item metrics "top_3_experts");
  top ← run_lift (top_items top);
  run_each (enumerate 1 top) (fun re => print (Top3Line (fst re) (snd re))) ≫= λ _,
  print MetricsTitle ≫= λ _,
  v ← run_lift (metrics_item metrics "shannon_entropy_bits");
  v ← run_lift (as_number v);
  print (EntropyLine v) ≫= λ _,
  v ← run_lift (metrics_item metrics "max_entropy_bits");
  v ← run_lift (as_number v);
  print (MaxEntropyLine v) ≫= λ _,
  v ← run_lift (metrics_item metrics "normalized_entropy");
  v ← run_lift (as_number v);
  print (NormalizedLine v) ≫= λ _,
  text ← run_lift (interpretation metrics);
  print (Interpretation text) ≫= λ _,
  print Rule ≫= λ _,
  print Generating ≫= λ _,
  plot_histogram expert_usage meta metrics "expert_hist.png" ≫= λ _,
  run_io ≫= λ _,
  save "expert_metrics.json" Blank ≫= λ _,
  run_io ≫= λ _,
  save "expert_metrics.json" (MetricsFile metrics) ≫= λ _,
  print SavedMetrics.

(** [main()] *)
Definition main {F} `{FloatOps F} `{FloatCompare F} `{sorter : ArgSort} : Run F unit :=
  print Reading ≫= λ _,
  s ← run_session;
  log ← run_lift (read_moe_log (files s) "moe_routes.jsonl");
  match snd log with
  | [] => print NoRoutes
  | _ :: _ => report (fst log) (snd log)
  end.

(** The counts [c] of a list of ratios [c / m] over the denominator [m]. *)
Fixpoint ratio_counts (m : nat) (l : list fexpr) : option (list Z) :=
  match l with
  | [] => Some []
  | FRatio c m' :: l' =>
      if (m' =? m)%nat then
        match ratio_counts m l' with
        | Some cs => Some (Z.of_nat c :: cs)
        | None => None
        end
      else None
  | _ :: _ => None
  end.

(** [H / log2(n) > c] for the entropy [H], in bits, of the distribution
    with the weights [cs], decided on the real numbers: with [S] the sum of
    the weights and [c = a / b], it says
    [S^(b S) > n^(a S) * prod cs^(b cs)]. *)
Definition entropy_ratio_exceeds (cs : list Z) (n : Z) (c : Q) : bool :=
  let a := Qnum c in
  let b := Z.pos (Qden c) in
  let S := fold_right Z.add 0%Z cs in
  (1 <? n)%Z && (0 <? S)%Z
  && ((a <? 0)%Z
      || (n ^ (a * S) * fold_right (fun x acc => x ^ (b * x) * acc) 1 cs
          <? S ^ (b * S))%Z).

(** Comparison on the uninterpreted floats, where the value is known: an
    integer, a ratio, and the normalized entropy of [calculate_metrics],
    which is compared as a real number (a float that lies on the boundary
    may fall on either side of it). *)
#[global] Instance symbolic_compare : FloatCompare fexpr := {
  exceeds x c :=
    match x with
    | FRatio n m =>
        (0 <? m)%nat && negb (Qle_bool (Z.of_nat n # Pos.of_nat m) c)
    | FOfInt z => negb (Qle_bool (inject_Z z) c)
    | FDiv (FEntropy (FRatio k m :: l)) (FLog2 n) =>
        match ratio_counts m (FRatio k m :: l) with
        | Some cs => entropy_ratio_exceeds cs (Z.of_nat n) c
        | None => false
        end
    | _ => false
    end
}.

(** From [s] to [s']: the text files are the same, lines were only added to
    what was printed, and no saved file outside [names] was touched. *)
Definition only_outputs {F} (names : list string) (s s' : session F) : Prop :=
  files s' = files s /\
  (exists added, stdout s' = (stdout s ++ added)%list) /\
  (forall p, p ∉ names -> saved s' !! p = saved s !! p).

(** A run of the script all of whose effects are related by [R]. *)
Definition run_keeps {F} (R : session F -> session F -> Prop) {A} (m : Run F A)
  : Prop :=
  forall s, R s (snd (m s)).

(** ** The prompt file: [make_prompts.py] and [run_generate.py] *)

(** The separator written between two prompts: two newlines, three dashes
    and two newlines. *)
Definition SEPARATOR : string :=
  String NEWLINE (String NEWLINE ("---" ++ String NEWLINE (String NEWLINE ""))).

(** What [f.write] puts in a file opened in text mode: every newline becomes
    the line separator of the platform, [os.linesep]. *)
Fixpoint translate_out (linesep : string) (s : string) : string :=
  match s with
  | "" => ""
  | String c s' =>
      if Ascii.eqb c NEWLINE then linesep ++ translate_out linesep s'
      else String c (translate_out linesep s')
  end.

(** What [f.read] returns of a file opened in text mode: a carriage return,
    with the newline that follows it if there is one, is read as a newline. *)
Fixpoint universal_newlines (s : string) : string :=
  match s with
  | "" => ""
  | String c s' =>
      if Ascii.eqb c CRETURN then
        match s' with
        | String c' s'' =>
            if Ascii.eqb c' NEWLINE then String NEWLINE (universal_newlines s'')
            else String NEWLINE (universal_newlines s')
        | "" => String NEWLINE ""
        end
      else String c (universal_newlines s')
  end.

(** The text before the leftmost occurrence of [sep] in [s] and the text
    after it, [s.partition(sep)] when [sep] occurs. *)
Fixpoint str_partition (sep s : string) : option (string * string) :=
  match strip_prefix sep s with
  | Some rest => Some ("", rest)
  | None =>
      match s with
      | "" => None
      | String c s' =>
          match str_partition sep s' with
          | Some (a, b) => Some (String c a, b)
          | None => None
          end
      end
  end.

Fixpoint split_fuel (fuel : nat) (sep s : string) : list string :=
  match fuel with
  | O => [s]
  | S n =>
      match str_partition sep s with
      | None => [s]
      | Some (a, b) => a :: split_fuel n sep b
      end
  end.

(** [s.split(sep)]: an empty separator is refused; otherwise the text is cut
    at the occurrences of [sep] found from left to right.  Every cut removes
    at least one character, so the length of [s] bounds their number. *)
Definition str_split (sep s : string) : result (list string) :=
  if String.eqb sep "" then Raise ValueError
  else Ok (split_fuel (String.length s) sep s).

(** [make_prompts.py]: the first 25 questions of the dataset, joined by the
    separator, are written to [prompts.txt]; [ds.select(range(25))] raises
    [IndexError] on a dataset with fewer rows. *)
Definition make_prompts (linesep : string) (questions : list string)
    (d : gmap string string) : result unit * gmap string string :=
  if (length questions <? 25)%nat then (Raise IndexError, d)
  else
    let prompts := take 25 questions in
    (Ok tt, <["prompts.txt" := translate_out linesep (join SEPARATOR prompts)]> d).

(** The prompts [run_generate.py] loads from [prompts.txt]. *)
Definition load_prompts (d : gmap string string) : result (list string) :=
  match d !! "prompts.txt" with
  | None => Raise OSError
  | Some text => str_split SEPARATOR (universal_newlines text)
  end.

(** A text without an empty line inside: no two newlines in a row. *)
Fixpoint no_blank_line (s : string) : bool :=
  match s with
  | String c s' =>
      match s' with
      | String c' _ =>
          negb (Ascii.eqb c NEWLINE && Ascii.eqb c' NEWLINE) && no_blank_line s'
      | "" => true
      end
  | "" => true
  end.

(** A prompt the file format can carry: no carriage return and no empty
    line. *)
Definition plain_prompt (p : string) : Prop :=
  all_chars (fun c => negb (Ascii.eqb c CRETURN)) p = true /\
  no_blank_line p = true.

(** ** Vocabulary for the analysis *)

(** The text of a sequence of records with the line ending of another
    platform: a carriage return and a newline after each record. *)
Definition jsonl_crlf (records : list json) : string :=
  fold_right (fun r text => dumps r ++ String CRETURN newline ++ text) "" records.


(** [x >= 0] on expert ids. *)
Definition nonneg (x : Z) : bool := (0 <=? x)%Z.

(** The rows of expert ids the calls hand to the logger at the given layer,
    in order; a row counts when the weight tensor has a row for it. *)
Definition logged_rows (layer : Z) (calls : list call) : list (list Z) :=
  concat (map (fun c =>
                 if (c_layer c =? layer)%Z
                 then take (length (c_weights c)) (c_ids c)
                 else [])
              calls).

(** ** Two sorts that meet the contract of [np.argsort]

    The insertion sort and its mirror image are shown to return the indices
    in an order along which the values ascend, which makes each of them an
    [ArgSort]. *)

Lemma StronglySorted_impl {A} (R R' : A -> A -> Prop) l :
  (forall x y, R x y -> R' x y) -> StronglySorted R l -> StronglySorted R' l.
Proof.
  intros HR. induction 1 as [|x l Hs IH Hx]; constructor; [done|].
  eapply Forall_impl; [exact Hx|]. auto.
Qed.

Lemma StronglySorted_NoDup {A} (R : A -> A -> Prop) l :
  (forall x, ~ R x x) -> StronglySorted R l -> NoDup l.
Proof.
  intros Hirr. induction 1 as [|x l Hs IH Hx]; constructor; [|done].
  intros Hin. rewrite Forall_forall in Hx. exact (Hirr x (Hx x Hin)).
Qed.

(** *** The insertion sort *)

Lemma insert_index_elem a i l x :
  x ∈ insert_index a i l <-> x = i \/ x ∈ l.
Proof.
  induction l as [|j l IH]; simpl.
  - rewrite list_elem_of_singleton. split; [auto|].
    intros [H|H]; [done|]. by apply elem_of_nil in H.
  - destruct (_ <? _)%nat.
    + rewrite elem_of_cons. tauto.
    + rewrite !elem_of_cons, IH. tauto.
Qed.

Lemma insert_index_length a i l : length (insert_index a i l) = S (length l).
Proof.
  induction l as [|j l IH]; simpl; [done|].
  destruct (_ <? _)%nat; simpl; lia.
Qed.

Lemma insert_index_sorted a i l :
  StronglySorted (before a) l ->
  Forall (fun j => j < i) l ->
  StronglySorted (before a) (insert_index a i l).
Proof.
  induction 1 as [|j l Hs IH Hj]; intros Hlt; simpl.
  - repeat constructor.
  - apply Forall_cons in Hlt as [Hji Hlt].
    fold (count_at a i) (count_at a j).
    destruct (Nat.ltb_spec (count_at a i) (count_at a j)) as [Hk|Hk].
    + constructor; [by constructor|].
      constructor; [by left|].
      eapply Forall_impl; [exact Hj|].
      intros x [Hx|[Hx Hx']]; left; lia.
    + constructor; [by apply IH|].
      apply Forall_forall. intros x Hx.
      apply insert_index_elem in Hx as [->|Hx].
      * unfold before. lia.
      * rewrite Forall_forall in Hj. by apply Hj.
Qed.

Lemma insertion_prefix a n :
  StronglySorted (before a) (sort_prefix a n) /\
  (forall x, x ∈ sort_prefix a n <-> x < n) /\ length (sort_prefix a n) = n.
Proof.
  induction n as [|n IH].
  - split; [constructor|]. split; [|done]. intros x.
    split; [intros H; by apply elem_of_nil in H|lia].
  - unfold sort_prefix in *. rewrite seq_S, fold_left_app. simpl.
    destruct IH as (Hs & Hm & Hl).
    split; [|split].
    + apply insert_index_sorted; [done|].
      apply Forall_forall. intros x Hx. by apply Hm.
    + intros x. rewrite insert_index_elem, Hm. lia.
    + by rewrite insert_index_length, Hl.
Qed.

Lemma insertion_sorted a : StronglySorted (before a) (insertion_argsort a).
Proof. apply (insertion_prefix a (length a)). Qed.

Lemma insertion_perm a : Permutation (insertion_argsort a) (seq 0 (length a)).
Proof.
  apply NoDup_Permutation.
  - apply (StronglySorted_NoDup (before a)); [|apply insertion_sorted].
    intros x [Hx|[_ Hx]]; lia.
  - apply NoDup_seq.
  - intros x. rewrite elem_of_seq.
    pose proof (proj1 (proj2 (insertion_prefix a (length a))) x) as Hx.
    unfold sort_prefix in Hx. unfold insertion_argsort. rewrite Hx. lia.
Qed.

Lemma insertion_sorts a :
  StronglySorted (fun i j => default 0 (a !! i) <= default 0 (a !! j))
                 (insertion_argsort a).
Proof.
  eapply StronglySorted_impl; [|apply insertion_sorted].
  intros x y [Hxy|[Hxy _]]; unfold count_at in *; lia.
Qed.

#[global] Instance insertion_sort : ArgSort :=
  Build_ArgSort insertion_argsort insertion_perm insertion_sorts.

(** *** The sort that reverses equal values *)

Lemma insert_index_front_elem a i l x :
  x ∈ insert_index_front a i l <-> x = i \/ x ∈ l.
Proof.
  induction l as [|j l IH]; simpl.
  - rewrite list_elem_of_singleton. split; [auto|].
    intros [H|H]; [done|]. by apply elem_of_nil in H.
  - destruct (_ <=? _)%nat.
    + rewrite elem_of_cons. tauto.
    + rewrite !elem_of_cons, IH. tauto.
Qed.

Lemma insert_index_front_sorted a i l :
  StronglySorted (before_reversed a) l ->
  Forall (fun j => j < i) l ->
  StronglySorted (before_reversed a) (insert_index_front a i l).
Proof.
  induction 1 as [|j l Hs IH Hj]; intros Hlt; simpl.
  - repeat constructor.
  - apply Forall_cons in Hlt as [Hji Hlt].
    fold (count_at a i) (count_at a j).
    destruct (Nat.leb_spec (count_at a i) (count_at a j)) as [Hk|Hk].
    + constructor; [by constructor|].
      constructor; [unfold before_reversed; lia|].
      rewrite Forall_forall in Hj, Hlt. apply Forall_forall. intros x Hx.
      specialize (Hj x Hx). specialize (Hlt x Hx).
      unfold before_reversed in *. lia.
    + constructor; [by apply IH|].
      apply Forall_forall. intros x Hx.
      apply insert_index_front_elem in Hx as [->|Hx].
      * unfold before_reversed. lia.
      * rewrite Forall_forall in Hj. by apply Hj.
Qed.

Lemma reverse_prefix a n :
  let sorted := fold_left (fun sorted i => insert_index_front a i sorted) (seq 0 n) [] in
  StronglySorted (before_reversed a) sorted /\ (forall x, x ∈ sorted <-> x < n).
Proof.
  induction n as [|n IH]; cbv zeta in *.
  - split; [constructor|]. intros x.
    split; [intros H; by apply elem_of_nil in H|lia].
  - rewrite seq_S, fold_left_app. simpl.
    destruct IH as (Hs & Hm).
    split.
    + apply insert_index_front_sorted; [done|].
      apply Forall_forall. intros x Hx. by apply Hm.
    + intros x. rewrite insert_index_front_elem, Hm. lia.
Qed.

Lemma reverse_perm a : Permutation (reverse_argsort a) (seq 0 (length a)).
Proof.
  destruct (reverse_prefix a (length a)) as [Hs Hm].
  apply NoDup_Permutation.
  - apply (StronglySorted_NoDup (before_reversed a)); [|exact Hs].
    intros x [Hx|[_ Hx]]; lia.
  - apply NoDup_seq.
  - intros x. rewrite elem_of_seq. unfold reverse_argsort. rewrite Hm. lia.
Qed.

Lemma reverse_sorts a :
  StronglySorted (fun i j => default 0 (a !! i) <= default 0 (a !! j))
                 (reverse_argsort a).
Proof.
  eapply StronglySorted_impl; [|apply (reverse_prefix a (length a))].
  intros x y [Hxy|[Hxy _]]; unfold count_at in *; lia.
Qed.

Definition reverse_sort : ArgSort :=
  Build_ArgSort reverse_argsort reverse_perm reverse_sorts.

(** * Results *)

#[local] Arguments String.append !_ _ : simpl nomatch.

(** ** Text *)

Example strip_sample :
  PyStr.strip (String HTAB (" a b " ++ String CRETURN (String NEWLINE ""))) = "a b".
Proof. reflexivity. Qed.

Example iter_lines_sample :
  PyStr.iter_lines
    ("ab" ++ String CRETURN
       (String NEWLINE ("c" ++ String CRETURN ("d" ++ String NEWLINE "e"))))
  = ["ab" ++ newline; "c" ++ newline; "d" ++ newline; "e"].
Proof. reflexivity. Qed.

Example dumps_sample_weights :
  dumps (JList [JFloat 700000; JFloat 12; JFloat (-1500000); JFloat 30; JFloat 100;
                JFloat 333333; JFloat 0; JInt (-42)])
  = "[0.7, 1.2e-05, -1.5, 3e-05, 0.0001, 0.333333, 0.0, -42]".
Proof. vm_compute. reflexivity. Qed.

Example dumps_sample_escape :
  dumps (JStr (String DQUOTE ("a\b" ++ String NEWLINE (String "233" ""))))
  = String DQUOTE ("\" ++ String DQUOTE ("a\\b\n\u00e9" ++ String DQUOTE "")).
Proof. vm_compute. reflexivity. Qed.

Example loads_sample :
  loads " [1, 2.50, 1e-3, -0.0,  {} , true, null] " =
  Some (JList [JInt 1; JFloat 2500000; JFloat 1000; JFloat 0; JObj []; JBool true; JNull]).
Proof. vm_compute. reflexivity. Qed.

Example loads_rejects :
  loads "[1, 2" = None /\ loads "01" = None /\ loads "[1,]" = None /\
  loads "" = None /\ loads "1 2" = None.
Proof. vm_compute. auto. Qed.

Lemma append_assoc (a b c : string) : (a ++ b) ++ c = a ++ (b ++ c).
Proof. induction a as [|x a IH]; simpl; [done|]. by rewrite IH. Qed.

Lemma append_nil_r (a : string) : a ++ "" = a.
Proof. induction a as [|x a IH]; simpl; [done|]. by rewrite IH. Qed.

Lemma all_chars_app p a b :
  all_chars p (a ++ b) = all_chars p a && all_chars p b.
Proof. induction a as [|x a IH]; simpl; [done|]. by rewrite IH, andb_assoc. Qed.

Lemma all_chars_impl (p q : ascii -> bool) s :
  (forall c, p c = true -> q c = true) ->
  all_chars p s = true -> all_chars q s = true.
Proof.
  intros Hpq. induction s as [|c s IH]; simpl; [done|].
  rewrite !andb_true_iff. intros [H1 H2]. auto.
Qed.

Lemma span_digits_app ds rest :
  all_chars PyStr.is_digit ds = true ->
  head_not PyStr.is_digit rest ->
  PyStr.span_digits (ds ++ rest) = (ds, rest).
Proof.
  intros Hd Hr. induction ds as [|c ds IH]; simpl in *.
  - destruct rest as [|c r]; [done|]. simpl in Hr. simpl. by rewrite Hr.
  - apply andb_true_iff in Hd as [Hc Hd]. by rewrite Hc, IH.
Qed.

Lemma digits_value_app acc a b :
  PyStr.digits_value acc (a ++ b) = PyStr.digits_value (PyStr.digits_value acc a) b.
Proof. revert acc. induction a as [|c a IH]; intros acc; simpl; [done|]. by rewrite IH. Qed.

Lemma digits_value_acc acc s :
  PyStr.digits_value acc s
  = (acc * 10 ^ N.of_nat (String.length s) + PyStr.digits_value 0 s)%N.
Proof.
  revert acc. induction s as [|c s IH]; intros acc.
  - simpl. lia.
  - cbn [PyStr.digits_value String.length].
    rewrite IH, (IH (10 * 0 + _)%N), Nat2N.inj_succ, N.pow_succ_r'. lia.
Qed.

Lemma N_of_digits_app a b :
  PyStr.N_of_digits (a ++ b)
  = (PyStr.N_of_digits a * 10 ^ N.of_nat (String.length b) + PyStr.N_of_digits b)%N.
Proof. unfold PyStr.N_of_digits. by rewrite digits_value_app, digits_value_acc. Qed.

(** The digits the Standard Library prints. *)
Lemma string_of_uint_digits d :
  all_chars PyStr.is_digit (NilEmpty.string_of_uint d) = true.
Proof. induction d; simpl; auto. Qed.

Lemma digits_value_of_uint_acc d acc :
  PyStr.digits_value (N.pos acc) (NilEmpty.string_of_uint d)
  = N.pos (Pos.of_uint_acc d acc).
Proof.
  revert acc. induction d; intros acc; simpl; try done;
    rewrite <- IHd; f_equal; lia.
Qed.

Lemma digits_value_of_uint d :
  PyStr.digits_value 0 (NilEmpty.string_of_uint d) = Pos.of_uint d.
Proof.
  induction d; simpl; try done;
    rewrite <- digits_value_of_uint_acc; f_equal; lia.
Qed.

(** ** Number literals *)

Lemma is_digit_not_special c :
  PyStr.is_digit c = true ->
  Ascii.eqb c "-" = false /\ Ascii.eqb c "+" = false /\
  Ascii.eqb c "." = false /\ Ascii.eqb c "e" = false /\ Ascii.eqb c "E" = false.
Proof.
  destruct c as [[] [] [] [] [] [] [] []]; vm_compute; intros; try done.
Qed.

Lemma span_digits_nonempty ds rest :
  digit_string ds -> head_not PyStr.is_digit rest ->
  exists c r, ds = String c r /\
    PyStr.span_digits (ds ++ rest) = (String c r, rest).
Proof.
  intros [Hd Hne] Hr. destruct ds as [|c r]; [done|].
  exists c, r. split; [done|]. by apply span_digits_app.
Qed.

Lemma num_safe_digit rest : num_safe rest -> head_not PyStr.is_digit rest.
Proof.
  destruct rest as [|c r]; [done|]. unfold num_safe, num_char. simpl.
  intros H. by destruct (PyStr.is_digit c).
Qed.

Lemma scan_number_parts (neg : bool) (ip : string) (fp : option string)
    (ep : option (bool * string)) (rest : string) :
  canonical ip ->
  (forall ds, fp = Some ds -> digit_string ds) ->
  (forall eneg ds, ep = Some (eneg, ds) -> digit_string ds) ->
  num_safe rest ->
  scan_number (sign_text neg ++ ip ++ frac_text fp ++ exp_text ep ++ rest) =
    match fp, exp_value ep with
    | None, None =>
        let m := Z.of_N (PyStr.N_of_digits ip) in
        Some (JInt (if neg then (- m)%Z else m), rest)
    | _, _ =>
        let fd := match fp with Some ds => ds | None => "" end in
        let e := match exp_value ep with Some e => e | None => 0%Z end in
        match micro_of neg (ip ++ fd) (e - Z.of_nat (String.length fd)) with
        | Some k => Some (JFloat k, rest)
        | None => None
        end
    end.
Proof.
  intros [Hid (c & r & -> & Hz)] Hfp Hep Hrest.
  simpl in Hid. apply andb_true_iff in Hid as [Hc Hr].
  destruct (is_digit_not_special c Hc) as (Hm & Hp & Hdot & He & HE).
  assert (Hrd := num_safe_digit _ Hrest).
  (* the text after the integer part *)
  set (tail := frac_text fp ++ exp_text ep ++ rest).
  assert (Htail : head_not PyStr.is_digit tail).
  { subst tail. destruct fp as [ds|]; [done|]. simpl.
    destruct ep as [[eneg ds]|]; [done|]. by simpl. }
  (* sign and integer part *)
  unfold scan_number.
  assert (Hsign :
    (match sign_text neg ++ String c r ++ tail with
     | String c0 r0 =>
         if Ascii.eqb c0 "-" then (true, r0)
         else (false, sign_text neg ++ String c r ++ tail)
     | "" => (false, sign_text neg ++ String c r ++ tail)
     end) = (neg, String c r ++ tail)).
  { destruct neg; simpl; [done|]. by rewrite Hm. }
  fold tail. rewrite Hsign. clear Hsign. simpl. rewrite Hc. simpl.
  assert (Hip :
    (if Ascii.eqb c "0" then ("0", r ++ tail)
     else let '(ds, r0) := PyStr.span_digits (r ++ tail) in (String c ds, r0))
    = (String c r, tail)).
  { destruct (Ascii.eqb c "0") eqn:E0.
    - rewrite (Hz eq_refl). simpl. apply Ascii.eqb_eq in E0. by subst.
    - by rewrite (span_digits_app r tail Hr Htail). }
  rewrite Hip. clear Hip.
  (* fraction *)
  set (etail := exp_text ep ++ rest).
  assert (Hetail : head_not PyStr.is_digit etail /\ head_not (fun c => Ascii.eqb c ".") etail).
  { subst etail. destruct ep as [[eneg ds]|]; [done|]. simpl.
    destruct rest as [|c0 r0]; [done|]. unfold num_safe, num_char in Hrest. simpl in *.
    destruct (PyStr.is_digit c0), (Ascii.eqb c0 "."); done. }
  assert (Hfrac :
    (match tail with
     | String c1 r1' =>
         if Ascii.eqb c1 "." then
           match PyStr.span_digits r1' with
           | ("", _) => (None, tail)
           | (ds, r') => (Some ds, r')
           end
         else (None, tail)
     | "" => (None, tail)
     end) = (fp, etail)).
  { subst tail. fold etail. destruct fp as [ds|]; simpl.
    - destruct (span_digits_nonempty ds etail (Hfp _ eq_refl) (proj1 Hetail))
        as (c1 & r1 & -> & ->). done.
    - destruct etail as [|c1 r1]; [done|]. destruct Hetail as [_ H]. simpl in H.
      by rewrite H. }
  rewrite Hfrac. clear Hfrac.
  (* exponent *)
  assert (Hexp :
    (match etail with
     | String c2 r2' =>
         if Ascii.eqb c2 "e" || Ascii.eqb c2 "E" then
           let '(eneg, r2'') :=
             match r2' with
             | String c3 r3' =>
                 if Ascii.eqb c3 "-" then (true, r3')
                 else if Ascii.eqb c3 "+" then (false, r3')
                 else (false, r2')
             | "" => (false, r2')
             end in
           match PyStr.span_digits r2'' with
           | ("", _) => (None, etail)
           | (ds, r') =>
               (Some (if eneg then (- Z.of_N (PyStr.N_of_digits ds))%Z
                      else Z.of_N (PyStr.N_of_digits ds)), r')
           end
         else (None, etail)
     | "" => (None, etail)
     end) = (exp_value ep, rest)).
  { subst etail. destruct ep as [[eneg ds]|].
    - destruct (span_digits_nonempty ds rest (Hep _ _ eq_refl) Hrd)
        as (c1 & r1 & -> & Hs).
      destruct (Hep _ _ eq_refl) as [Hd _]. simpl in Hd.
      apply andb_true_iff in Hd as [Hc1 _].
      destruct (is_digit_not_special c1 Hc1) as (Hm1 & Hp1 & _).
      destruct eneg; cbn [exp_text sign_text exp_value].
      + change (String "e" ("-" ++ String c1 r1) ++ rest)
          with (String "e" (String "-" (String c1 r1 ++ rest))).
        cbv iota beta. change (Ascii.eqb "e" "e") with true.
        change (Ascii.eqb "-" "-") with true. cbv iota beta.
        cbn [orb]. by rewrite Hs.
      + change (String "e" ("" ++ String c1 r1) ++ rest)
          with (String "e" (String c1 (r1 ++ rest))).
        cbv iota beta. change (Ascii.eqb "e" "e") with true.
        cbn [orb]. rewrite Hm1, Hp1.
        change (String c1 (r1 ++ rest)) with (String c1 r1 ++ rest).
        by rewrite Hs.
    - simpl. destruct rest as [|c0 r0]; [done|]. unfold num_safe, num_char in Hrest.
      simpl in *. destruct (PyStr.is_digit c0), (Ascii.eqb c0 "."), (Ascii.eqb c0 "e"),
        (Ascii.eqb c0 "E"); done. }
  rewrite Hexp. clear Hexp.
  destruct fp, (exp_value ep); done.
Qed.

Lemma to_uint_fixed p : Decimal.unorm (Pos.to_uint p) = Pos.to_uint p.
Proof.
  rewrite <- (DecimalPos.Unsigned.to_of (Pos.to_uint p)).
  by rewrite DecimalPos.Unsigned.of_to.
Qed.

Lemma to_uint_head p :
  exists c r, NilEmpty.string_of_uint (Pos.to_uint p) = String c r /\
              Ascii.eqb c "0" = false.
Proof.
  pose proof (to_uint_fixed p) as Hf.
  pose proof (DecimalPos.Unsigned.to_uint_nonzero p) as Hnz.
  pose proof (DecimalPos.Unsigned.to_uint_nonnil p) as Hnn.
  destruct (Pos.to_uint p) as [|d|d|d|d|d|d|d|d|d|d]; try done;
    try (eexists _, _; split; [reflexivity|reflexivity]).
  exfalso. rewrite unorm_D0 in Hf.
  assert (Hd : d <> Decimal.Nil) by (intros ->; done).
  pose proof (nb_digits_unorm d Hd) as Hle. rewrite Hf in Hle. simpl in Hle. lia.
Qed.

Lemma str_of_Z_spec z :
  exists ds, PyStr.str_of_Z z = sign_text (z <? 0)%Z ++ ds /\ canonical ds /\
             PyStr.N_of_digits ds = Z.abs_N z.
Proof.
  unfold PyStr.str_of_Z, canonical, PyStr.N_of_digits.
  destruct z as [|p|p]; simpl.
  - exists "0". repeat split; eauto.
  - destruct (to_uint_head p) as (c & r & Hs & Hc).
    exists (NilEmpty.string_of_uint (Pos.to_uint p)).
    assert (NilZero.string_of_uint (Pos.to_uint p)
            = NilEmpty.string_of_uint (Pos.to_uint p)) as ->.
    { pose proof (DecimalPos.Unsigned.to_uint_nonnil p).
      by destruct (Pos.to_uint p). }
    split; [done|]. split; [split|].
    + apply string_of_uint_digits.
    + exists c, r. split; [done|]. by rewrite Hc.
    + by rewrite digits_value_of_uint, DecimalPos.Unsigned.of_to.
  - destruct (to_uint_head p) as (c & r & Hs & Hc).
    exists (NilEmpty.string_of_uint (Pos.to_uint p)).
    assert (NilZero.string_of_uint (Pos.to_uint p)
            = NilEmpty.string_of_uint (Pos.to_uint p)) as ->.
    { pose proof (DecimalPos.Unsigned.to_uint_nonnil p).
      by destruct (Pos.to_uint p). }
    split; [done|]. split; [split|].
    + apply string_of_uint_digits.
    + exists c, r. split; [done|]. by rewrite Hc.
    + by rewrite digits_value_of_uint, DecimalPos.Unsigned.of_to.
Qed.

Lemma signed_abs (z : Z) :
  (if (z <? 0)%Z then (- Z.of_N (Z.abs_N z))%Z else Z.of_N (Z.abs_N z)) = z.
Proof. destruct (Z.ltb_spec z 0); lia. Qed.

Lemma scan_number_int z rest :
  num_safe rest ->
  scan_number (PyStr.str_of_Z z ++ rest) = Some (JInt z, rest).
Proof.
  intros Hrest. destruct (str_of_Z_spec z) as (ds & -> & Hc & Hv).
  rewrite append_assoc.
  pose proof (scan_number_parts (z <? 0)%Z ds None None rest Hc) as H.
  simpl in H. rewrite H; [|done..].
  by rewrite Hv, signed_abs.
Qed.

(** Floats *)

Lemma digit_char_spec d :
  (d < 10)%N ->
  PyStr.is_digit (digit_char d) = true /\
  (N_of_ascii (digit_char d) - 48 = d)%N /\
  (Ascii.eqb (digit_char d) "0" = (d =? 0)%N).
Proof.
  intros Hd. unfold digit_char.
  assert (d = 0 \/ d = 1 \/ d = 2 \/ d = 3 \/ d = 4 \/ d = 5 \/ d = 6 \/ d = 7
          \/ d = 8 \/ d = 9)%N as H by lia.
  repeat (destruct H as [->|H]; [by vm_compute|]). subst. by vm_compute.
Qed.

Lemma frac_digits_spec n f :
  (f < 10 ^ N.of_nat n)%N ->
  all_chars PyStr.is_digit (frac_digits n f) = true /\
  String.length (frac_digits n f) <= n /\
  (PyStr.N_of_digits (frac_digits n f)
   * 10 ^ N.of_nat (n - String.length (frac_digits n f)) = f)%N /\
  (frac_digits n f = "" -> f = 0%N).
Proof.
  revert f. induction n as [|n IH]; intros f Hf.
  - change (10 ^ N.of_nat 0)%N with 1%N in Hf.
    unfold PyStr.N_of_digits. simpl. repeat split; try done; lia.
  - cbn [frac_digits]. destruct (N.eqb_spec f 0) as [->|Hnz].
    + unfold PyStr.N_of_digits. simpl. repeat split; try done; lia.
    + rewrite Nat2N.inj_succ, N.pow_succ_r' in Hf.
      set (p := (10 ^ N.of_nat n)%N) in *.
      assert (Hp : (0 < p)%N) by (apply N.neq_0_lt_0, N.pow_nonzero; lia).
      assert (Hq : (f / p < 10)%N) by (apply N.Div0.div_lt_upper_bound; lia).
      assert (Hm : (f mod p < p)%N) by (apply N.mod_lt; lia).
      destruct (IH (f mod p)%N Hm) as (Hd & Hl & Hv & _).
      destruct (digit_char_spec _ Hq) as (Hdc & Hdv & _).
      set (s := frac_digits n (f mod p)) in *.
      split; [|split; [|split]].
      * simpl. by rewrite Hdc, Hd.
      * simpl. lia.
      * unfold PyStr.N_of_digits in *. cbn [PyStr.digits_value String.length].
        rewrite digits_value_acc, Hdv.
        replace (S n - S (String.length s)) with (n - String.length s) by lia.
        rewrite N.mul_add_distr_r, Hv.
        rewrite <- N.mul_assoc, <- N.pow_add_r.
        replace (N.of_nat (String.length s) + N.of_nat (n - String.length s))%N
          with (N.of_nat n) by lia.
        fold p. pose proof (N.div_mod f p). lia.
      * done.
Qed.

#[local] Arguments micro_of : simpl never.

#[local] Arguments PyStr.N_of_digits : simpl never.

Lemma micro_of_nonneg neg ds scale :
  (0 <= scale + 6)%Z ->
  micro_of neg ds scale =
    Some (let x := (Z.of_N (PyStr.N_of_digits ds) * 10 ^ (scale + 6))%Z in
          if neg then (- x)%Z else x).
Proof.
  intros H. unfold micro_of.
  destruct (Z.leb_spec 0 (scale + 6)); [done|lia].
Qed.

Lemma N_of_digits_single d :
  (d < 10)%N -> PyStr.N_of_digits (String (digit_char d) "") = d.
Proof.
  intros Hd. unfold PyStr.N_of_digits. simpl.
  destruct (digit_char_spec d Hd) as (_ & -> & _). lia.
Qed.

Lemma canonical_single d : (d < 10)%N -> canonical (String (digit_char d) "").
Proof.
  intros Hd. destruct (digit_char_spec d Hd) as (H & _). split.
  - simpl. by rewrite H.
  - eauto.
Qed.

Lemma digit_string_single d : (d < 10)%N -> digit_string (String (digit_char d) "").
Proof.
  intros Hd. destruct (digit_char_spec d Hd) as (H & _). split; [|done].
  simpl. by rewrite H.
Qed.

(** Recognise the text of a literal as sign, integer part, fraction and
    exponent, and scan it. *)
Ltac scan_parts neg ip fp ep rest :=
  transitivity
    (scan_number (sign_text neg ++ ip ++ frac_text fp ++ exp_text ep ++ rest));
  [ f_equal; rewrite ?append_assoc; reflexivity
  | rewrite scan_number_parts; cbn [exp_value]; cbv iota beta ].

Lemma scan_number_float k rest :
  num_safe rest ->
  scan_number (repr_micro k ++ rest) = Some (JFloat k, rest).
Proof.
  intros Hrest. unfold repr_micro.
  change (if (k <? 0)%Z then "-" else "") with (sign_text (k <? 0)%Z).
  set (neg := (k <? 0)%Z). set (a := Z.abs_N k).
  assert (Hk : (if neg then (- Z.of_N a)%Z else Z.of_N a) = k) by apply signed_abs.
  unfold repr_micro_abs.
  destruct (N.eqb_spec a 0) as [Ha0|Ha0].
  { (* zero *)
    scan_parts neg "0" (Some "0") (@None (bool * string)) rest; try done.
    - rewrite micro_of_nonneg by (simpl; lia).
      rewrite <- Hk, Ha0. by destruct neg.
    - split; [done|]. eauto.
    - by intros ds [= <-]. }
  destruct (N.ltb_spec a 10) as [Ha10|Ha10].
  { (* one significant digit, exponent -6 *)
    scan_parts neg (String (digit_char a) "") (@None string) (Some (true, "06")) rest;
      try done.
    - rewrite micro_of_nonneg by (simpl; lia).
      rewrite append_nil_r, N_of_digits_single by done.
      rewrite <- Hk. do 3 f_equal. cbv zeta.
      change (PyStr.N_of_digits "06") with 6%N.
      change (PyStr.N_of_digits "05") with 5%N.
      cbn [String.length].
      change (N.of_nat 1) with 1%N. change (Z.of_nat 1) with 1%Z.
      change (Z.of_nat 0) with 0%Z.
      rewrite ?N.pow_1_r.
      replace (- Z.of_N 6 - 0 + 6)%Z with 0%Z by lia.
      replace (- Z.of_N 5 - 0 + 6)%Z with 1%Z by lia.
      replace (- Z.of_N 5 - 1 + 6)%Z with 0%Z by lia.
      rewrite ?Z.pow_0_r, ?Z.pow_1_r.
      destruct neg; lia.
    - by apply canonical_single.
    - by intros eneg ds [= <- <-]. }
  assert (Hdiv : (a = 10 * (a / 10) + a mod 10)%N) by apply N.div_mod'.
  assert (Hmod : (a mod 10 < 10)%N) by (apply N.mod_lt; lia).
  destruct (N.ltb_spec a 100) as [Ha100|Ha100].
  { (* two significant digits, exponent -5 *)
    assert (Hq : (a / 10 < 10)%N) by (apply N.Div0.div_lt_upper_bound; lia).
    destruct (N.eqb_spec (a mod 10) 0) as [Hm0|Hm0].
    - scan_parts neg (String (digit_char (a / 10)) "") (@None string)
                 (Some (true, "05")) rest; try done.
      + rewrite micro_of_nonneg by (simpl; lia).
        rewrite append_nil_r, N_of_digits_single by done.
        rewrite <- Hk. do 3 f_equal. cbv zeta.
      change (PyStr.N_of_digits "06") with 6%N.
      change (PyStr.N_of_digits "05") with 5%N.
      cbn [String.length].
      change (N.of_nat 1) with 1%N. change (Z.of_nat 1) with 1%Z.
      change (Z.of_nat 0) with 0%Z.
      rewrite ?N.pow_1_r.
      replace (- Z.of_N 6 - 0 + 6)%Z with 0%Z by lia.
      replace (- Z.of_N 5 - 0 + 6)%Z with 1%Z by lia.
      replace (- Z.of_N 5 - 1 + 6)%Z with 0%Z by lia.
      rewrite ?Z.pow_0_r, ?Z.pow_1_r.
      destruct neg; lia.
      + by apply canonical_single.
      + by intros eneg ds [= <- <-].
    - scan_parts neg (String (digit_char (a / 10)) "")
                 (Some (String (digit_char (a mod 10)) ""))
                 (Some (true, "05")) rest; try done.
      + rewrite micro_of_nonneg by (simpl; lia).
        rewrite N_of_digits_app, !N_of_digits_single by done.
        rewrite <- Hk. do 3 f_equal. cbv zeta.
      change (PyStr.N_of_digits "06") with 6%N.
      change (PyStr.N_of_digits "05") with 5%N.
      cbn [String.length].
      change (N.of_nat 1) with 1%N. change (Z.of_nat 1) with 1%Z.
      change (Z.of_nat 0) with 0%Z.
      rewrite ?N.pow_1_r.
      replace (- Z.of_N 6 - 0 + 6)%Z with 0%Z by lia.
      replace (- Z.of_N 5 - 0 + 6)%Z with 1%Z by lia.
      replace (- Z.of_N 5 - 1 + 6)%Z with 0%Z by lia.
      rewrite ?Z.pow_0_r, ?Z.pow_1_r.
      destruct neg; lia.
      + by apply canonical_single.
      + intros ds [= <-]. by apply digit_string_single.
      + by intros eneg ds [= <- <-]. }
  (* positional notation *)
  destruct (str_of_Z_spec (Z.of_N (a / 1000000))) as (ip & Hip & Hc & Hv).
  assert ((Z.of_N (a / 1000000) <? 0)%Z = false) as Hs
    by (apply Z.ltb_ge, N2Z.is_nonneg).
  rewrite Hs in Hip. simpl in Hip. rewrite Hip. clear Hs Hip.
  rewrite Zabs2N.id in Hv.
  assert (Hlt : (a mod 1000000 < 10 ^ N.of_nat 6)%N).
  { change (10 ^ N.of_nat 6)%N with 1000000%N. apply N.mod_lt. lia. }
  destruct (frac_digits_spec 6 (a mod 1000000) Hlt) as (Hfd & Hfl & Hfv & Hfe).
  set (fd := match frac_digits 6 (a mod 1000000) with "" => "0" | ds => ds end).
  assert (Hfd' : digit_string fd /\ String.length fd <= 6 /\
            (PyStr.N_of_digits fd * 10 ^ N.of_nat (6 - String.length fd)
             = a mod 1000000)%N).
  { subst fd. destruct (frac_digits 6 (a mod 1000000)) as [|c r] eqn:E.
    - rewrite (Hfe eq_refl). repeat split; try done. simpl. lia.
    - repeat split; done. }
  destruct Hfd' as (Hds & Hlen & Hval).
  scan_parts neg ip (Some fd) (@None (bool * string)) rest; try done.
  - rewrite micro_of_nonneg by lia.
    rewrite N_of_digits_app, Hv. cbv zeta.
    replace (0 - Z.of_nat (String.length fd) + 6)%Z
      with (Z.of_N (N.of_nat (6 - String.length fd))) by lia.
    rewrite <- (N2Z.inj_pow 10), <- N2Z.inj_mul.
    replace ((a / 1000000 * 10 ^ N.of_nat (String.length fd) + PyStr.N_of_digits fd)
             * 10 ^ N.of_nat (6 - String.length fd))%N with a; [by rewrite Hk|].
    rewrite N.mul_add_distr_r, Hval, <- N.mul_assoc, <- N.pow_add_r.
    replace (N.of_nat (String.length fd) + N.of_nat (6 - String.length fd))%N
      with 6%N by lia.
    change (10 ^ 6)%N with 1000000%N. pose proof (N.div_mod' a 1000000). lia.
  - by intros ds [= <-].
Qed.

(** ** String literals *)

Lemma scanstring_escape_char (c : ascii) (t : string) :
  scanstring (escape_char c ++ t) =
    match scanstring t with
    | Some (str, r) => Some (String c str, r)
    | None => None
    end.
Proof. destruct c as [[] [] [] [] [] [] [] []]; reflexivity. Qed.

Lemma scanstring_escape (s rest : string) :
  scanstring (escape s ++ String DQUOTE rest) = Some (s, rest).
Proof.
  induction s as [|c s IH]; [reflexivity|].
  cbn [escape]. by rewrite append_assoc, scanstring_escape_char, IH.
Qed.

Lemma escape_char_printable (c : ascii) :
  all_chars is_printable (escape_char c) = true.
Proof. destruct c as [[] [] [] [] [] [] [] []]; reflexivity. Qed.

Lemma escape_printable (s : string) : all_chars is_printable (escape s) = true.
Proof.
  induction s as [|c s IH]; [done|].
  cbn [escape]. by rewrite all_chars_app, escape_char_printable, IH.
Qed.

Lemma encode_str_printable (s : string) :
  all_chars is_printable (encode_str s) = true.
Proof.
  unfold encode_str. cbn [all_chars].
  by rewrite all_chars_app, escape_printable.
Qed.

(** ** JSON values *)

Lemma value_start_spec c :
  value_start c = true ->
  is_ws c = false /\ Ascii.eqb c "]" = false /\ Ascii.eqb c "}" = false /\
  PyStr.isspace c = false /\ is_printable c = true.
Proof. destruct c as [[] [] [] [] [] [] [] []]; vm_compute; intros; done. Qed.

Lemma number_start_spec c :
  number_start c = true ->
  value_start c = true /\
  Ascii.eqb c DQUOTE = false /\ Ascii.eqb c "{" = false /\ Ascii.eqb c "[" = false /\
  Ascii.eqb c "n" = false /\ Ascii.eqb c "t" = false /\ Ascii.eqb c "f" = false.
Proof. destruct c as [[] [] [] [] [] [] [] []]; vm_compute; intros; done. Qed.

Lemma starts_with_sign p neg s :
  p "-"%char = true -> starts_with p s -> starts_with p (sign_text neg ++ s).
Proof. intros Hm Hs. destruct neg; [by eexists _, _|done]. Qed.

Lemma canonical_starts ds : canonical ds -> starts_with number_start ds.
Proof.
  intros [Hd (c & r & -> & _)]. exists c, r. split; [done|].
  simpl in Hd. apply andb_true_iff in Hd as [Hc _].
  unfold number_start. by rewrite Hc, orb_true_r.
Qed.

Lemma str_of_Z_starts z : starts_with number_start (PyStr.str_of_Z z).
Proof.
  destruct (str_of_Z_spec z) as (ds & -> & Hc & _).
  apply starts_with_sign; [done|]. by apply canonical_starts.
Qed.

Lemma digit_char_starts d r :
  (d < 10)%N -> starts_with number_start (String (digit_char d) r).
Proof.
  intros Hd. exists (digit_char d), r. split; [done|].
  destruct (digit_char_spec d Hd) as (H & _).
  unfold number_start. by rewrite H, orb_true_r.
Qed.

Lemma repr_micro_starts k : starts_with number_start (repr_micro k).
Proof.
  unfold repr_micro.
  change (if (k <? 0)%Z then "-" else "") with (sign_text (k <? 0)%Z).
  apply starts_with_sign; [done|].
  unfold repr_micro_abs. set (a := Z.abs_N k).
  destruct (N.eqb_spec a 0); [by eexists _, _|].
  destruct (N.ltb_spec a 10); [by apply digit_char_starts|].
  destruct (N.ltb_spec a 100).
  { apply digit_char_starts. apply N.Div0.div_lt_upper_bound; lia. }
  destruct (str_of_Z_spec (Z.of_N (a / 1000000))) as (ds & -> & Hc & _).
  assert ((Z.of_N (a / 1000000) <? 0)%Z = false) as -> by (apply Z.ltb_ge, N2Z.is_nonneg).
  destruct (canonical_starts _ Hc) as (c & r & -> & Hs). by eexists _, _.
Qed.

Lemma dumps_starts v : starts_with value_start (dumps v).
Proof.
  destruct v as [|[]| | | | |]; try (by eexists _, _).
  - destruct (str_of_Z_starts z) as (c & r & H & Hc).
    exists c, r. split; [done|]. by apply number_start_spec.
  - destruct (repr_micro_starts micro) as (c & r & H & Hc).
    exists c, r. split; [done|]. by apply number_start_spec.
Qed.

Lemma skip_ws_starts s rest :
  starts_with value_start s -> skip_ws (s ++ rest) = s ++ rest.
Proof.
  intros (c & r & -> & Hc). simpl.
  by destruct (value_start_spec c Hc) as (-> & _).
Qed.

Lemma skip_ws_space s : skip_ws (String " " s) = skip_ws s.
Proof. reflexivity. Qed.

Lemma scan_once_number fuel s rest :
  starts_with number_start s ->
  scan_once (S fuel) (s ++ rest) = scan_number (s ++ rest).
Proof.
  intros (c & r & -> & Hc).
  destruct (number_start_spec c Hc) as (_ & H1 & H2 & H3 & H4 & H5 & H6).
  cbn [scan_once String.append]. by rewrite H1, H2, H3, H4, H5, H6.
Qed.

(** Distinct keys survive [dict(pairs)] as they are. *)
Lemma dict_set_fresh k v d :
  k ∉ map fst d -> dict_set k v d = (d ++ [(k, v)])%list.
Proof.
  induction d as [|[k' v'] d IH]; simpl; [done|].
  intros Hk. apply not_elem_of_cons in Hk as [Hne Hk].
  destruct (String.eqb_spec k k'); [done|]. by rewrite IH.
Qed.

Lemma dict_of_pairs_NoDup ps : NoDup (map fst ps) -> dict_of_pairs ps = ps.
Proof.
  unfold dict_of_pairs.
  assert (H : forall acc, NoDup (map fst (acc ++ ps)%list) ->
            fold_left (fun d p => dict_set (fst p) (snd p) d) ps acc = (acc ++ ps)%list).
  { induction ps as [|[k v] ps IH]; intros acc Hnd; simpl.
    - by rewrite app_nil_r.
    - rewrite dict_set_fresh.
      + rewrite IH; rewrite <- app_assoc; done.
      + rewrite map_app in Hnd. simpl in Hnd.
        apply NoDup_app in Hnd as (_ & Hd & _).
        intros Hin. apply (Hd k Hin). by left. }
  intros Hnd. by apply (H []).
Qed.

Lemma dumps_list l :
  dumps (JList l) = String "[" (join ", " (map dumps l) ++ "]").
Proof. reflexivity. Qed.

Lemma dumps_obj kv :
  dumps (JObj kv) = String "{" (join ", " (map member_text kv) ++ "}").
Proof. reflexivity. Qed.

Lemma join_cons sep x y l : join sep (x :: y :: l) = x ++ sep ++ join sep (y :: l).
Proof. reflexivity. Qed.

Lemma member_text_app k v t :
  member_text (k, v) ++ t
  = String DQUOTE (escape k ++ String DQUOTE (String ":" (String " " (dumps v ++ t)))).
Proof.
  unfold member_text, encode_str. cbn [fst snd].
  rewrite !append_assoc. cbn [String.append]. by rewrite !append_assoc.
Qed.

Lemma members_text k v kv t :
  join ", " (map member_text ((k, v) :: kv)) ++ t
  = String DQUOTE (escape k ++ String DQUOTE
      (String ":" (String " " (join ", " (dumps v :: map member_text kv) ++ t)))).
Proof.
  destruct kv as [|p kv]; cbn [map].
  - cbn [join]. apply member_text_app.
  - rewrite !join_cons, !append_assoc. apply member_text_app.
Qed.

Lemma scan_round_trip fuel :
  (forall v rest,
     wf_json v -> jsize v <= fuel -> num_safe rest ->
     scan_once fuel (dumps v ++ rest) = Some (v, rest)) /\
  (forall x l rest,
     wf_json (JList (x :: l)) -> jsize (JList (x :: l)) <= S fuel ->
     scan_elements fuel (join ", " (map dumps (x :: l)) ++ String "]" rest)
       = Some (x :: l, rest)) /\
  (forall k v kv rest,
     (wf_json v /\ fold_right (fun p acc => wf_json (snd p) /\ acc) True kv) ->
     jsize (JObj ((k, v) :: kv)) <= S fuel ->
     scan_members fuel
       (escape k ++ String DQUOTE
          (String ":" (String " " (join ", " (dumps v :: map member_text kv)
                                   ++ String "}" rest))))
       = Some ((k, v) :: kv, rest)).
Proof.
  induction fuel as [|fuel (IHv & IHl & IHm)].
  { split; [|split].
    - intros v rest _ Hs. destruct v; simpl in Hs; lia.
    - intros x l rest _ Hs. simpl in Hs. destruct x; simpl in Hs; lia.
    - intros k v kv rest _ Hs. simpl in Hs. destruct v; simpl in Hs; lia. }
  split; [|split].
  - (* a value *)
    intros v rest Hwf Hs Hrest.
    destruct v as [|[]|z|k|s|l|kv]; try reflexivity.
    + rewrite scan_once_number by apply str_of_Z_starts.
      by apply scan_number_int.
    + rewrite scan_once_number by apply repr_micro_starts.
      by apply scan_number_float.
    + cbn [dumps encode_str String.append scan_once].
      change (Ascii.eqb DQUOTE DQUOTE) with true. cbv iota.
      rewrite append_assoc. cbn [String.append].
      by rewrite scanstring_escape.
    + rewrite dumps_list. cbn [String.append scan_once].
      change (Ascii.eqb "[" DQUOTE) with false.
      change (Ascii.eqb "[" "{") with false.
      change (Ascii.eqb "[" "[") with true. cbv iota.
      destruct l as [|x l]; [reflexivity|].
      rewrite append_assoc.
      assert (Hst : starts_with value_start (join ", " (map dumps (x :: l)))).
      { destruct (dumps_starts x) as (c & r & Hx & Hc).
        destruct l; simpl; rewrite Hx; by eexists _, _. }
      rewrite ?skip_ws_space, skip_ws_starts by done.
      destruct Hst as (c & r & Hx & Hc). rewrite Hx. cbn [String.append].
      destruct (value_start_spec c Hc) as (_ & -> & _).
      change (String c (r ++ String "]" rest)) with (String c r ++ String "]" rest).
      rewrite <- Hx. by rewrite IHl.
    + rewrite dumps_obj. cbn [String.append scan_once].
      change (Ascii.eqb "{" DQUOTE) with false.
      change (Ascii.eqb "{" "{") with true. cbv iota.
      destruct kv as [|[k v] kv]; [reflexivity|].
      destruct Hwf as [Hnd Hwf].
      rewrite append_assoc, members_text. cbn [String.append skip_ws].
      change (is_ws DQUOTE) with false. cbv iota.
      change (Ascii.eqb DQUOTE "}") with false.
      change (Ascii.eqb DQUOTE DQUOTE) with true. cbv iota.
      rewrite IHm; [|done|done].
      by rewrite dict_of_pairs_NoDup.
  - (* the elements of a list *)
    intros x l rest Hwf Hs.
    destruct Hwf as [Hx Hl]. cbn [jsize fold_right] in Hs.
    cbn [scan_elements].
    destruct l as [|y l].
    + cbn [map join]. rewrite IHv; [|done|lia|done]. reflexivity.
    + cbn [map]. rewrite join_cons, !append_assoc.
      rewrite IHv; [|done|lia|done].
      cbn [String.append skip_ws].
      change (is_ws ",") with false. cbv iota.
      change (Ascii.eqb "," "]") with false.
      change (Ascii.eqb "," ",") with true. cbv iota.
      change (is_ws " ") with true. cbv iota.
      change (dumps y :: map dumps l) with (map dumps (y :: l)).
      assert (Hst : starts_with value_start (join ", " (map dumps (y :: l)))).
      { destruct (dumps_starts y) as (c & r & Hy & Hc).
        destruct l; simpl; rewrite Hy; by eexists _, _. }
      rewrite ?skip_ws_space, skip_ws_starts by done.
      rewrite IHl; [done|done|]. cbn [jsize fold_right] in Hs |- *. lia.
  - (* the members of an object *)
    intros k v kv rest [Hv Hkv] Hs.
    cbn [jsize fold_right snd] in Hs.
    cbn [scan_members]. rewrite scanstring_escape.
    cbn [String.append skip_ws].
    change (is_ws ":") with false. cbv iota.
    change (Ascii.eqb ":" ":") with true. cbv iota.
    change (is_ws " ") with true. cbv iota.
    destruct kv as [|[k' v'] kv].
    + cbn [map join].
      rewrite ?skip_ws_space, skip_ws_starts by apply dumps_starts.
      rewrite IHv; [|done|lia|done]. reflexivity.
    + cbn [map]. rewrite join_cons, !append_assoc.
      rewrite ?skip_ws_space, skip_ws_starts by apply dumps_starts.
      rewrite IHv; [|done|lia|done].
      cbn [String.append skip_ws].
      change (is_ws ",") with false. cbv iota.
      change (Ascii.eqb "," "}") with false.
      change (Ascii.eqb "," ",") with true. cbv iota.
      change (is_ws " ") with true. cbv iota.
      change (member_text (k', v') :: map member_text kv)
        with (map member_text ((k', v') :: kv)).
      rewrite members_text, skip_ws_space. cbn [skip_ws].
      change (is_ws DQUOTE) with false. cbv iota.
      change (Ascii.eqb DQUOTE DQUOTE) with true. cbv iota.
      destruct Hkv as [Hv' Hkv].
      rewrite IHm; [done|done|]. cbn [jsize fold_right snd] in Hs |- *. lia.
Qed.

Lemma length_append a b :
  String.length (a ++ b) = String.length a + String.length b.
Proof. induction a as [|c a IH]; simpl; [done|]. by rewrite IH. Qed.

Lemma dumps_nonempty v : 1 <= String.length (dumps v).
Proof. destruct (dumps_starts v) as (c & r & -> & _). simpl. lia. Qed.

Lemma jsize_le_length v : jsize v <= String.length (dumps v).
Proof.
  induction v as [| | | | |l IH|kv IH] using json_nested_ind;
    try apply dumps_nonempty.
  - rewrite dumps_list. cbn [jsize String.length]. rewrite length_append. simpl.
    enough (fold_right (fun x acc => S (jsize x + acc)) 0 l
            <= String.length (join ", " (map dumps l)) + 1) by lia.
    induction IH as [|x l Hx _ IHl]; [simpl; lia|].
    destruct l as [|y l]; [cbn [fold_right map join]; lia|].
    cbn [map]. rewrite join_cons, !length_append.
    cbn [fold_right map] in *. cbn [String.length]. lia.
  - rewrite dumps_obj. cbn [jsize String.length]. rewrite length_append. simpl.
    enough (fold_right (fun p acc => S (jsize (snd p) + acc)) 0 kv
            <= String.length (join ", " (map member_text kv)) + 1) by lia.
    assert (Hm : forall p, String.length (dumps (snd p)) <= String.length (member_text p)).
    { intros p. unfold member_text. rewrite !length_append. lia. }
    induction IH as [|p kv Hp _ IHkv]; [simpl; lia|].
    pose proof (Hm p).
    destruct kv as [|q kv]; [cbn [fold_right map join]; lia|].
    cbn [map]. rewrite join_cons, !length_append.
    cbn [fold_right map] in *. cbn [String.length]. lia.
Qed.

(** [json.loads(json.dumps(v)) == v] *)
Lemma loads_dumps v : wf_json v -> loads (dumps v) = Some v.
Proof.
  intros Hwf. unfold loads.
  rewrite <- (append_nil_r (dumps v)) at 2.
  rewrite skip_ws_starts by apply dumps_starts.
  destruct (scan_round_trip (S (String.length (dumps v)))) as (H & _).
  rewrite H; [done|done| |done].
  pose proof (jsize_le_length v). lia.
Qed.

(** ** Lines of a trace *)

Lemma digit_printable c : PyStr.is_digit c = true -> is_printable c = true.
Proof. destruct c as [[] [] [] [] [] [] [] []]; vm_compute; intros; done. Qed.

Lemma printable_not_newline c :
  is_printable c = true ->
  Ascii.eqb c NEWLINE = false /\ Ascii.eqb c CRETURN = false.
Proof. destruct c as [[] [] [] [] [] [] [] []]; vm_compute; intros; done. Qed.

Lemma digits_printable ds :
  all_chars PyStr.is_digit ds = true -> all_chars is_printable ds = true.
Proof. apply all_chars_impl, digit_printable. Qed.

Lemma sign_text_printable neg : all_chars is_printable (sign_text neg) = true.
Proof. by destruct neg. Qed.

Lemma str_of_Z_printable z : all_chars is_printable (PyStr.str_of_Z z) = true.
Proof.
  destruct (str_of_Z_spec z) as (ds & -> & [Hd _] & _).
  by rewrite all_chars_app, sign_text_printable, digits_printable.
Qed.

Lemma digit_char_printable d : (d < 10)%N -> is_printable (digit_char d) = true.
Proof. intros Hd. apply digit_printable. by apply digit_char_spec. Qed.

Lemma repr_micro_printable k : all_chars is_printable (repr_micro k) = true.
Proof.
  unfold repr_micro.
  change (if (k <? 0)%Z then "-" else "") with (sign_text (k <? 0)%Z).
  rewrite all_chars_app, sign_text_printable. cbn [andb].
  unfold repr_micro_abs. set (a := Z.abs_N k).
  destruct (N.eqb_spec a 0); [done|].
  destruct (N.ltb_spec a 10).
  { cbn [all_chars]. by rewrite digit_char_printable. }
  assert (Hmod : (a mod 10 < 10)%N) by (apply N.mod_lt; lia).
  destruct (N.ltb_spec a 100).
  { assert (Hq : (a / 10 < 10)%N) by (apply N.Div0.div_lt_upper_bound; lia).
    cbn [all_chars]. rewrite digit_char_printable by done.
    rewrite all_chars_app. destruct (N.eqb_spec (a mod 10) 0); [done|].
    cbn [all_chars]. by rewrite digit_char_printable. }
  rewrite all_chars_app, str_of_Z_printable. cbn [all_chars andb].
  change (is_printable ".") with true. cbn [andb].
  assert (Hlt : (a mod 1000000 < 10 ^ N.of_nat 6)%N).
  { change (10 ^ N.of_nat 6)%N with 1000000%N. apply N.mod_lt. lia. }
  destruct (frac_digits_spec 6 (a mod 1000000) Hlt) as (Hfd & _).
  destruct (frac_digits 6 (a mod 1000000)); [done|].
  by apply digits_printable.
Qed.

Lemma join_printable l :
  Forall (fun s => all_chars is_printable s = true) l ->
  all_chars is_printable (join ", " l) = true.
Proof.
  induction 1 as [|x l Hx _ IH]; [done|].
  destruct l as [|y l]; [done|].
  rewrite join_cons, !all_chars_app, Hx, IH. done.
Qed.

Lemma dumps_printable v : all_chars is_printable (dumps v) = true.
Proof.
  induction v as [|[]| | | |l IH|kv IH] using json_nested_ind; try done.
  - apply str_of_Z_printable.
  - apply repr_micro_printable.
  - apply encode_str_printable.
  - rewrite dumps_list. cbn [all_chars].
    rewrite all_chars_app, join_printable; [done|].
    by apply Forall_fmap.
  - rewrite dumps_obj. cbn [all_chars].
    rewrite all_chars_app, join_printable; [done|].
    apply Forall_fmap. eapply Forall_impl; [exact IH|].
    intros p Hp. unfold compose, member_text.
    by rewrite !all_chars_app, encode_str_printable, Hp.
Qed.

(** A line of text [s] followed by its terminator is read as one line. *)
Lemma iter_lines_line s t :
  all_chars is_printable s = true ->
  PyStr.iter_lines (s ++ newline ++ t) = (s ++ newline) :: PyStr.iter_lines t.
Proof.
  induction s as [|c s IH]; intros Hs.
  - reflexivity.
  - cbn [all_chars] in Hs. apply andb_true_iff in Hs as [Hc Hs].
    destruct (printable_not_newline c Hc) as [Hn Hr].
    cbn [String.append PyStr.iter_lines]. rewrite Hn, Hr.
    change (String NEWLINE (String.append "" t)) with (newline ++ t).
    by rewrite (IH Hs).
Qed.

Lemma iter_lines_jsonl records :
  PyStr.iter_lines (jsonl records) = map (fun r => dumps r ++ newline) records.
Proof.
  induction records as [|r records IH]; [done|].
  cbn [jsonl fold_right map]. fold (jsonl records).
  rewrite iter_lines_line by apply dumps_printable. by rewrite IH.
Qed.

Lemma rstrip_spaces ws : all_chars PyStr.isspace ws = true -> PyStr.rstrip ws = "".
Proof.
  induction ws as [|c ws IH]; [done|]. cbn [all_chars PyStr.rstrip].
  intros [Hc Hw]%andb_true_iff. by rewrite IH, Hc.
Qed.

Lemma rstrip_app a c ws :
  PyStr.isspace c = false -> all_chars PyStr.isspace ws = true ->
  PyStr.rstrip (a ++ String c ws) = a ++ String c "".
Proof.
  intros Hc Hws. induction a as [|x a IH].
  - cbn [String.append PyStr.rstrip]. by rewrite rstrip_spaces, Hc.
  - cbn [String.append PyStr.rstrip]. rewrite IH.
    by destruct a.
Qed.

(** What the reader decodes from a line the logger wrote. *)
Lemma strip_record_line kv :
  PyStr.strip (dumps (JObj kv) ++ newline) = dumps (JObj kv).
Proof.
  rewrite dumps_obj. unfold PyStr.strip, newline.
  cbn [String.append PyStr.lstrip]. change (PyStr.isspace "{") with false. cbv iota.
  rewrite append_assoc.
  change (String "{" (join ", " (map member_text kv) ++ "}" ++ String NEWLINE ""))
    with (String "{" (join ", " (map member_text kv))
          ++ String "}" (String NEWLINE "")).
  by rewrite rstrip_app.
Qed.

Lemma decode_record_line kv :
  wf_json (JObj kv) ->
  loads (PyStr.strip (dumps (JObj kv) ++ newline)) = Some (JObj kv).
Proof. intros Hwf. rewrite strip_record_line. by apply loads_dumps. Qed.

(** ** The trace reader *)

Lemma eq_str_meta_route tag :
  eq_str tag "meta" = true -> eq_str tag "route" = false.
Proof.
  destruct tag; try done. simpl. intros H. apply String.eqb_eq in H. by subst.
Qed.

Lemma read_loop_decode lines meta routes :
  read_loop lines meta routes =
    match decode_lines lines with
    | Raise e => Raise e
    | Ok recs =>
        Ok (match last (List.filter (has_tag "meta") recs) with
            | Some m => Some m
            | None => meta
            end,
            (routes ++ List.filter (has_tag "route") recs)%list)
    end.
Proof.
  revert meta routes. induction lines as [|line lines IH]; intros meta routes.
  - simpl. by rewrite app_nil_r.
  - cbn [read_loop decode_lines]. unfold decode_line.
    destruct (loads (PyStr.strip line)) as [rec|]; [|done].
    destruct (py_subscript rec "type") as [tag|e] eqn:Ht; [|done].
    assert (Hm : has_tag "meta" rec = eq_str tag "meta") by (unfold has_tag; by rewrite Ht).
    assert (Hr : has_tag "route" rec = eq_str tag "route") by (unfold has_tag; by rewrite Ht).
    destruct (eq_str tag "meta") eqn:Em.
    + rewrite IH. destruct (decode_lines lines) as [recs|e]; [|done].
      cbn [List.filter]. rewrite Hm, Hr, (eq_str_meta_route _ Em), last_cons.
      by destruct (last _).
    + destruct (eq_str tag "route") eqn:Er; rewrite IH;
        (destruct (decode_lines lines) as [recs|e]; [|done]);
        cbn [List.filter]; rewrite Hm, Hr; [|done].
      by rewrite <- app_assoc.
Qed.

Lemma decode_lines_Forall2 lines recs :
  Forall2 decodes_to lines recs -> decode_lines lines = Ok recs.
Proof.
  induction 1 as [|line rec lines recs [Hl [tag Ht]] _ IH]; [done|].
  cbn [decode_lines]. unfold decode_line. by rewrite Hl, Ht, IH.
Qed.

Lemma read_loop_spec lines recs meta routes :
  Forall2 decodes_to lines recs ->
  read_loop lines meta routes =
    Ok (match last (List.filter (has_tag "meta") recs) with
        | Some m => Some m
        | None => meta
        end,
        (routes ++ List.filter (has_tag "route") recs)%list).
Proof.
  intros H. by rewrite read_loop_decode, (decode_lines_Forall2 _ _ H).
Qed.

Lemma read_moe_log_spec (d : gmap string string) (path text : string)
    (recs : list json) :
  d !! path = Some text ->
  Forall2 decodes_to (PyStr.iter_lines text) recs ->
  read_moe_log d path =
    Ok (last (List.filter (has_tag "meta") recs),
        List.filter (has_tag "route") recs).
Proof.
  intros Hd H. unfold read_moe_log. rewrite Hd.
  rewrite (read_loop_spec _ _ _ _ H). cbn [app].
  by destruct (last _).
Qed.

Lemma filter_none {A} (f : A -> bool) l :
  Forall (fun x => f x = false) l -> List.filter f l = [].
Proof. induction 1 as [|x l Hx _ IH]; [done|]. cbn [List.filter]. by rewrite Hx. Qed.

Lemma filter_relevant tag records :
  tag = "meta" \/ tag = "route" ->
  List.filter (has_tag tag) (relevant records) = List.filter (has_tag tag) records.
Proof.
  intros Htag. unfold relevant. induction records as [|r records IH]; [done|].
  cbn [List.filter].
  destruct (has_tag "meta" r) eqn:Em, (has_tag "route" r) eqn:Er;
    cbn [orb List.filter]; rewrite IH; destruct Htag as [-> | ->];
    by rewrite ?Em, ?Er.
Qed.

(** Decoding the lines of a sample trace one by one. *)
Ltac decode_lines :=
  rewrite iter_lines_jsonl; cbn [map];
  repeat first
    [ apply Forall2_nil_2
    | apply Forall2_cons_2;
      [ split; [vm_compute; reflexivity | eexists; vm_compute; reflexivity] | ] ].

(** C10.  What [read_moe_log] returns for a file every line of which decodes
    to a record with a [type]: as routes the records tagged [route], in file
    order, and as meta the last record tagged [meta] ([None] if there is
    none).  Records with any other tag do not matter: two files with the
    same [meta] and [route] records, in the same order, give the same
    result, whatever other records they hold and wherever.  (A line that
    does not decode to a record with a [type] makes the reader raise; see
    [read_moe_log_blank_line] and [read_moe_log_untyped_line].) *)
Theorem read_moe_log_result (d : gmap string string) (path text : string)
    (recs : list json) :
  d !! path = Some text ->
  Forall2 decodes_to (PyStr.iter_lines text) recs ->
  read_moe_log d path =
    Ok (last (List.filter (has_tag "meta") recs),
        List.filter (has_tag "route") recs) /\
  (forall r, r ∈ recs -> has_tag "meta" r = false -> has_tag "route" r = false ->
             (r ∉ List.filter (has_tag "route") recs) /\
             (last (List.filter (has_tag "meta") recs) <> Some r)) /\
  forall d' path' text' recs',
    d' !! path' = Some text' ->
    Forall2 decodes_to (PyStr.iter_lines text') recs' ->
    relevant recs' = relevant recs ->
    read_moe_log d' path' = read_moe_log d path.
Proof.
  intros Hd H. split; [by apply (read_moe_log_spec d path text)|]. split.
  - intros r _ Hm Hr. split.
    + intros Hin. apply list_elem_of_In, filter_In in Hin as [_ Hin]. congruence.
    + intros Hl. apply last_Some in Hl as [l' Hl].
      assert (Hin : r ∈ List.filter (has_tag "meta") recs).
      { rewrite Hl. apply elem_of_app. right. by left. }
      apply list_elem_of_In, filter_In in Hin as [_ Hin]. congruence.
  - intros d' path' text' recs' Hd' H' Hrel.
    rewrite (read_moe_log_spec d path text recs Hd H).
    rewrite (read_moe_log_spec d' path' text' recs' Hd' H').
    rewrite <- (filter_relevant "meta" recs), <- (filter_relevant "route" recs) by auto.
    rewrite <- (filter_relevant "meta" recs'), <- (filter_relevant "route" recs') by auto.
    by rewrite Hrel.
Qed.

Lemma read_moe_log_result_witness :
  read_moe_log {[ "moe_routes.jsonl" := sample_trace ]} "moe_routes.jsonl"
  = Ok (Some sample_meta, [sample_route 0; sample_route 1]).
Proof.
  refine (proj1 (read_moe_log_result {[ "moe_routes.jsonl" := sample_trace ]}
                   "moe_routes.jsonl" sample_trace
                   [sample_route 0; JObj [("type", JStr "note")]; sample_meta;
                    sample_route 1; JObj [("type", JInt 7)]; sample_meta] _ _)).
  - apply lookup_singleton_eq.
  - unfold sample_trace. decode_lines.
Defined.

(** C8, as the code has it.  A missing meta record is no error: when every
    line decodes to a record with a [type], [read_moe_log] returns
    [meta = None] and the route records in file order if no record is tagged
    [meta]; and if one is, wherever it stands, it returns the last record
    tagged [meta] with the same routes. *)
Theorem read_moe_log_missing_header (d : gmap string string) (path text : string)
    (recs : list json) :
  d !! path = Some text ->
  Forall2 decodes_to (PyStr.iter_lines text) recs ->
  (Forall (fun r => has_tag "meta" r = false) recs ->
   read_moe_log d path = Ok (None, List.filter (has_tag "route") recs)) /\
  (forall m, m ∈ recs -> has_tag "meta" m = true ->
   exists m',
     read_moe_log d path = Ok (Some m', List.filter (has_tag "route") recs) /\
     last (List.filter (has_tag "meta") recs) = Some m' /\
     m' ∈ recs /\ has_tag "meta" m' = true).
Proof.
  intros Hd H. rewrite (read_moe_log_spec _ _ _ _ Hd H). split.
  - intros Hno. by rewrite (filter_none _ _ Hno).
  - intros m Hm Ht.
    assert (Hin : m ∈ List.filter (has_tag "meta") recs).
    { apply list_elem_of_In, filter_In. split; [by apply list_elem_of_In|done]. }
    destruct (last (List.filter (has_tag "meta") recs)) as [m'|] eqn:El.
    + exists m'. split; [done|]. split; [done|].
      apply last_Some in El as [l' El].
      assert (Hm' : m' ∈ List.filter (has_tag "meta") recs).
      { rewrite El. apply elem_of_app. right. by left. }
      apply list_elem_of_In, filter_In in Hm' as [Hm' Ht'].
      split; [by apply list_elem_of_In|done].
    + apply last_None in El. rewrite El in Hin. by apply elem_of_nil in Hin.
Qed.

Lemma read_moe_log_missing_header_witness :
  read_moe_log {[ "moe_routes.jsonl" := jsonl [sample_route 0; sample_route 1] ]}
               "moe_routes.jsonl"
  = Ok (None, [sample_route 0; sample_route 1]).
Proof.
  refine (proj1 (read_moe_log_missing_header _ _
            (jsonl [sample_route 0; sample_route 1])
            [sample_route 0; sample_route 1] _ _) _).
  - apply lookup_singleton_eq.
  - decode_lines.
  - repeat constructor.
Defined.

(** C8, as stated, fails: a file holding the single route line of
    [sample_route 0] and no meta line is read without error, with
    [meta = None]. *)
Lemma read_moe_log_no_meta_returns :
  let d : gmap string string := {[ "moe_routes.jsonl" := jsonl [sample_route 0] ]} in
  read_moe_log d "moe_routes.jsonl" = Ok (None, [sample_route 0]) /\
  ~ (exists e, read_moe_log d "moe_routes.jsonl" = Raise e).
Proof.
  assert (H : read_moe_log {[ "moe_routes.jsonl" := jsonl [sample_route 0] ]}
                "moe_routes.jsonl" = Ok (None, [sample_route 0])) by by vm_compute.
  cbv zeta. split; [exact H|]. intros [e He]. rewrite H in He. discriminate.
Qed.

(** ** The ranking of experts *)

Lemma StronglySorted_app_inv_r {A} (R : A -> A -> Prop) l1 l2 :
  StronglySorted R (l1 ++ l2) -> StronglySorted R l2.
Proof.
  induction l1 as [|x l1 IH]; simpl; [done|].
  intros H. apply StronglySorted_inv in H as [H _]. auto.
Qed.

Lemma StronglySorted_snoc {A} (R : A -> A -> Prop) l x :
  StronglySorted R l -> Forall (fun y => R y x) l -> StronglySorted R (l ++ [x]).
Proof.
  induction 1 as [|y l Hs IH Hy]; intros Hx; simpl.
  - repeat constructor.
  - apply Forall_cons in Hx as [Hyx Hx].
    constructor; [auto|]. apply Forall_app. split; [done|]. by constructor.
Qed.

Lemma elem_of_rev_iff {A} (x : A) l : x ∈ rev l <-> x ∈ l.
Proof. rewrite !list_elem_of_In. symmetry. apply in_rev. Qed.

Lemma StronglySorted_rev {A} (R : A -> A -> Prop) l :
  StronglySorted R l -> StronglySorted (fun x y => R y x) (rev l).
Proof.
  induction 1 as [|x l Hs IH Hx]; simpl; [constructor|].
  apply StronglySorted_snoc; [done|].
  apply Forall_forall. intros y Hy.
  rewrite Forall_forall in Hx. apply Hx. by apply elem_of_rev_iff.
Qed.

(** What holds of the ranking whatever sort [np.argsort] runs. *)
Section any_argsort.
Context `{sorter : ArgSort}.

Lemma argsort_length a : length (argsort a) = length a.
Proof. by rewrite (Permutation_length (argsort_perm a)), length_seq. Qed.

Lemma argsort_elem a x : x ∈ argsort a <-> x < length a.
Proof. rewrite (argsort_perm a), elem_of_seq. lia. Qed.

Lemma argsort_NoDup a : NoDup (argsort a).
Proof. rewrite (argsort_perm a). apply NoDup_seq. Qed.

Lemma top_3_length a : length (top_3_indices a) = min 3 (length a).
Proof.
  unfold top_3_indices, last_n.
  rewrite length_rev, length_drop, argsort_length. lia.
Qed.

Lemma top_3_elem a i : i ∈ top_3_indices a -> i < length a.
Proof.
  unfold top_3_indices, last_n. intros H.
  apply argsort_elem.
  rewrite elem_of_rev_iff in H.
  by apply (subseteq_drop _ _ _ H).
Qed.

Lemma top_3_NoDup a : NoDup (top_3_indices a).
Proof.
  unfold top_3_indices, last_n. rewrite <- Permutation_rev.
  pose proof (argsort_NoDup a) as Hn.
  rewrite <- (take_drop (length (argsort a) - 3) (argsort a)) in Hn.
  by apply NoDup_app in Hn as (_ & _ & Hn).
Qed.

(** Counts never go up along the list. *)
Lemma top_3_descending a :
  StronglySorted (fun i j => count_at a j <= count_at a i) (top_3_indices a).
Proof.
  unfold top_3_indices, last_n.
  apply (StronglySorted_rev (fun i j => count_at a i <= count_at a j)).
  apply (StronglySorted_app_inv_r _ (take (length (argsort a) - 3) (argsort a))).
  rewrite take_drop. apply argsort_sorts.
Qed.

(** No expert left out has a larger count than an expert listed. *)
Lemma top_3_dominates a i j :
  i ∈ top_3_indices a -> j < length a -> j ∉ top_3_indices a ->
  count_at a j <= count_at a i.
Proof.
  unfold top_3_indices, last_n. intros Hi Hj Hnj.
  pose proof (argsort_sorts a) as Hs.
  apply argsort_elem in Hj.
  rewrite <- (take_drop (length (argsort a) - 3) (argsort a)) in Hs, Hj.
  set (pre := take _ _) in *. set (suf := drop _ _) in *.
  assert (Hi' : i ∈ suf) by by rewrite elem_of_rev_iff in Hi.
  assert (Hj' : j ∈ pre).
  { apply elem_of_app in Hj as [|Hj]; [done|].
    exfalso. apply Hnj. by apply elem_of_rev_iff. }
  clear -Hs Hi' Hj'.
  induction pre as [|x pre IH]; [by apply elem_of_nil in Hj'|].
  simpl in Hs. apply StronglySorted_inv in Hs as [Hs Hx].
  apply elem_of_cons in Hj' as [->|Hj']; [|auto].
  rewrite Forall_forall in Hx.
  apply (Hx i). apply elem_of_app. by right.
Qed.

(** The counts [[5, 5, 3]]: experts 0 and 1 in either order, then expert 2. *)
Lemma top_3_of_5_5_3 :
  top_3_indices [5; 5; 3] = [0; 1; 2] \/ top_3_indices [5; 5; 3] = [1; 0; 2].
Proof.
  pose proof (top_3_length [5; 5; 3]) as Hl.
  pose proof (top_3_NoDup [5; 5; 3]) as Hn.
  pose proof (top_3_descending [5; 5; 3]) as Hs.
  pose proof (top_3_elem [5; 5; 3]) as He.
  destruct (top_3_indices [5; 5; 3]) as [|x [|y [|z [|? ?]]]]; try discriminate Hl.
  assert (Hx : x < 3) by (apply He; set_solver).
  assert (Hy : y < 3) by (apply He; set_solver).
  assert (Hz : z < 3) by (apply He; set_solver).
  clear He Hl.
  apply NoDup_cons in Hn as [Hxy Hn]. apply NoDup_cons in Hn as [Hyz _].
  apply StronglySorted_inv in Hs as [Hs Hx'].
  apply StronglySorted_inv in Hs as [_ Hy'].
  apply Forall_cons in Hx' as [Hxy' Hx']. apply Forall_cons in Hx' as [Hxz' _].
  apply Forall_cons in Hy' as [Hyz' _].
  rewrite !not_elem_of_cons in Hxy. rewrite not_elem_of_cons in Hyz.
  destruct x as [|[|[|?]]]; [| | |lia];
    destruct y as [|[|[|?]]]; try lia; try (by destruct Hxy);
    destruct z as [|[|[|?]]]; try lia;
    unfold count_at in *; simpl in *; try lia;
    try (by destruct Hxy as (_ & ? & _)); try (by destruct Hyz); auto.
Qed.
End any_argsort.

(** ** The histogram *)

Lemma Counter_fold (l : list Z) (m : gmap Z nat) (x : Z) :
  default 0 (fold_left (fun m x => <[x := S (default 0 (m !! x))]> m) l m !! x)
  = default 0 (m !! x) + count_occ Z.eq_dec l x.
Proof.
  revert m. induction l as [|y l IH]; intros m; simpl; [lia|].
  rewrite IH. destruct (Z.eq_dec y x) as [->|Hne].
  - rewrite lookup_insert_eq. simpl. lia.
  - by rewrite lookup_insert_ne.
Qed.

Lemma Counter_count (l : list Z) (x : Z) :
  default 0 (Counter l !! x) = count_occ Z.eq_dec l x.
Proof. unfold Counter. by rewrite Counter_fold, lookup_empty. Qed.

Lemma py_max_ge x l : (x <= py_max x l)%Z.
Proof.
  unfold py_max. revert x. induction l as [|y l IH]; intros x; simpl; [lia|].
  specialize (IH (Z.max x y)). lia.
Qed.

Lemma py_max_upper x l y : y ∈ x :: l -> (y <= py_max x l)%Z.
Proof.
  unfold py_max. revert x. induction l as [|z l IH]; intros x Hy; simpl.
  - apply list_elem_of_singleton in Hy. lia.
  - apply elem_of_cons in Hy as [->|Hy].
    + pose proof (py_max_ge (Z.max x z) l). unfold py_max in *. lia.
    + apply elem_of_cons in Hy as [->|Hy].
      * pose proof (py_max_ge (Z.max x z) l). unfold py_max in *. lia.
      * apply IH. by right.
Qed.

Lemma py_max_elem x l : py_max x l ∈ x :: l.
Proof.
  unfold py_max. revert x. induction l as [|z l IH]; intros x; simpl.
  - by left.
  - specialize (IH (Z.max x z)).
    apply elem_of_cons in IH as [->|IH].
    + destruct (Z.max_spec x z) as [[_ ->]|[_ ->]]; [right; by left|by left].
    + right. by right.
Qed.

Lemma collect_ids_ok routes idss acc :
  Forall2 (fun route ids => route_ids route = Ok ids) routes idss ->
  collect_ids routes acc = Ok (acc ++ concat idss)%list.
Proof.
  intros H. revert acc.
  induction H as [|r ids routes idss Hr _ IH]; intros acc; simpl.
  - by rewrite app_nil_r.
  - rewrite Hr, IH. by rewrite app_assoc.
Qed.

Lemma analyze_expert_usage_ok routes idss :
  Forall2 (fun route ids => route_ids route = Ok ids) routes idss ->
  analyze_expert_usage routes =
    Ok (map (fun i => count_occ Z.eq_dec (concat idss) (Z.of_nat i))
            (seq 0 (match concat idss with
                    | [] => 0
                    | x :: l => Z.to_nat (py_max x l + 1)
                    end)),
        Counter (concat idss)).
Proof.
  intros H. unfold analyze_expert_usage.
  rewrite (collect_ids_ok _ _ _ H). simpl.
  f_equal. f_equal.
  destruct (concat idss) as [|x l] eqn:E; [done|].
  apply map_ext. intros i. apply Counter_count.
Qed.

(** C4.  The histogram: for routes whose [topk_ids] are lists of ints,
    [analyze_expert_usage] returns a dense array whose length is the largest
    id plus one ([Z.to_nat], so the length is that number for the
    non-negative ids of experts), whose entry [i] counts the occurrences of
    [i] over all routes, together with the counter; no ids at all give the
    empty array; the ids [[0,1],[1,2],[0,0]] give [[3, 2, 1]]. *)
Theorem analyze_expert_usage_histogram (routes : list json) (idss : list (list Z)) :
  Forall2 (fun route ids => route_ids route = Ok ids) routes idss ->
  exists usage counts,
    analyze_expert_usage routes = Ok (usage, counts) /\
    (forall m, m ∈ concat idss -> (forall y, y ∈ concat idss -> (y <= m)%Z) ->
               length usage = Z.to_nat (m + 1)) /\
    (forall i, i < length usage ->
               usage !! i = Some (count_occ Z.eq_dec (concat idss) (Z.of_nat i))) /\
    (forall z, default 0 (counts !! z) = count_occ Z.eq_dec (concat idss) z) /\
    (concat idss = [] -> usage = []) /\
    (idss = [[0; 1]; [1; 2]; [0; 0]]%Z -> usage = [3; 2; 1]).
Proof.
  intros H. eexists _, _. split; [by apply analyze_expert_usage_ok|].
  split; [|split; [|split; [|split]]].
  - intros m Hm Hub. rewrite length_map, length_seq.
    destruct (concat idss) as [|x l]; [by apply elem_of_nil in Hm|].
    f_equal. f_equal. apply Z.le_antisymm.
    + apply Hub, py_max_elem.
    + by apply py_max_upper.
  - intros i Hi. rewrite length_map, length_seq in Hi.
    rewrite list_lookup_fmap, lookup_seq_lt by done. done.
  - apply Counter_count.
  - by intros ->.
  - by intros ->.
Qed.

Lemma analyze_expert_usage_histogram_witness :
  exists usage counts,
    analyze_expert_usage sample_routes = Ok (usage, counts) /\ usage = [3; 2; 1].
Proof.
  destruct (analyze_expert_usage_histogram sample_routes [[0; 1]; [1; 2]; [0; 0]]%Z)
    as (usage & counts & H & _ & _ & _ & _ & Hex).
  - repeat constructor.
  - exists usage, counts. split; [exact H|]. by apply Hex.
Defined.

Lemma analyze_empty : analyze_expert_usage [] = Ok ([], ∅).
Proof. reflexivity. Qed.

(** ** The metrics *)

Lemma calculate_metrics_empty {F} `{FloatOps F} `{sorter : ArgSort} (usage : list nat) :
  list_sum usage = 0 -> calculate_metrics usage = ([], []).
Proof. intros H0. unfold calculate_metrics. by rewrite H0. Qed.

(** C6, as the code has it.  When the counts sum to zero,
    [calculate_metrics] returns the empty dict and the empty array: no key
    at all is present, [total_selections] and [normalized_entropy]
    included. *)
Theorem calculate_metrics_no_data {F} `{FloatOps F} `{sorter : ArgSort} (usage : list nat) :
  list_sum usage = 0 ->
  calculate_metrics usage = ([], []) /\
  forall key, metrics_get key (fst (calculate_metrics usage)) = None.
Proof.
  intros H0. rewrite (calculate_metrics_empty usage H0). by split.
Qed.

Lemma calculate_metrics_no_data_witness :
  calculate_metrics (F := fexpr) [0; 0; 0] = ([], []) /\
  metrics_get "total_selections" (fst (calculate_metrics (F := fexpr) [0; 0; 0])) = None.
Proof.
  destruct (calculate_metrics_no_data (F := fexpr) [0; 0; 0] eq_refl) as [H1 H2].
  split; [exact H1|exact (H2 "total_selections")].
Defined.

(** C6, as stated, fails: on the empty histogram the metrics dict has no
    [total_selections] entry (and no [normalized_entropy] entry either). *)
Lemma calculate_metrics_empty_has_no_entries :
  ~ (metrics_get "total_selections" (fst (calculate_metrics (F := fexpr) []))
       = Some (MInt 0) /\
     metrics_get "normalized_entropy" (fst (calculate_metrics (F := fexpr) []))
       = Some (MFloat (of_int 0))).
Proof. intros [H _]. discriminate H. Qed.

Lemma calculate_metrics_top_3 {F} `{FloatOps F} `{sorter : ArgSort} (usage : list nat) :
  list_sum usage <> 0 ->
  metrics_get "top_3_experts" (fst (calculate_metrics usage)) =
    Some (MTop (map (fun idx =>
                       (idx, default 0 (usage !! idx),
                        default (of_int 0)
                          (map (fun c => true_divide c (list_sum usage)) usage !! idx)))
                    (top_3_indices usage))).
Proof.
  intros Hne. unfold calculate_metrics.
  destruct (Nat.eqb_spec (list_sum usage) 0); [done|]. reflexivity.
Qed.

(** C7, as the code has it.  Whatever sort [np.argsort] runs, the
    [top_3_experts] entry lists [min 3 n] different experts, each with its own
    count and its share of the total, in an order along which the counts
    never go up, and no expert left out has a larger count than an expert
    listed.  The order among experts of equal count is not fixed: for the
    counts [{0:5, 1:5, 2:3}] the list is experts 0 and 1, in one order or the
    other, followed by expert 2. *)
Theorem top_3_ranking {F} `{FloatOps F} `{sorter : ArgSort} (usage : list nat) :
  list_sum usage <> 0 ->
  exists top,
    metrics_get "top_3_experts" (fst (calculate_metrics usage)) = Some (MTop top) /\
    length top = min 3 (length usage) /\
    NoDup (map (fun e => fst (fst e)) top) /\
    Forall (fun e => usage !! fst (fst e) = Some (snd (fst e)) /\
                     snd e = true_divide (snd (fst e)) (list_sum usage)) top /\
    StronglySorted (fun e e' => snd (fst e') <= snd (fst e)) top /\
    (forall e j, e ∈ top -> j < length usage ->
                 j ∉ map (fun e => fst (fst e)) top ->
                 default 0 (usage !! j) <= snd (fst e)) /\
    (usage = [5; 5; 3] ->
     map (fun e => fst e) top = [(0, 5); (1, 5); (2, 3)] \/
     map (fun e => fst e) top = [(1, 5); (0, 5); (2, 3)]).
Proof.
  intros Hne. eexists. split; [by apply calculate_metrics_top_3|].
  set (entry := fun idx =>
         (idx, default 0 (usage !! idx),
          default (of_int 0)
            (map (fun c => true_divide c (list_sum usage)) usage !! idx))).
  assert (Hids : map (fun e => fst (fst e)) (map entry (top_3_indices usage))
                 = top_3_indices usage).
  { rewrite map_map. cbn [entry fst]. apply map_id. }
  split; [|split; [|split; [|split; [|split]]]].
  - rewrite length_map. apply top_3_length.
  - rewrite Hids. apply top_3_NoDup.
  - apply Forall_fmap, Forall_forall. intros i Hi. cbn [entry fst snd compose].
    apply top_3_elem in Hi. apply lookup_lt_is_Some in Hi as [c Hc].
    by rewrite list_lookup_fmap, Hc.
  - pose proof (top_3_descending usage) as Hs. clear Hids.
    induction Hs as [|i l Hs IH Hi]; [constructor|].
    cbn [map]. constructor; [exact IH|].
    apply Forall_fmap. eapply Forall_impl; [exact Hi|].
    intros j Hj. exact Hj.
  - intros e j He Hj Hnj. rewrite Hids in Hnj.
    apply list_elem_of_fmap in He as (i & -> & Hi). cbn [entry fst snd].
    by apply (top_3_dominates usage i j).
  - intros ->. rewrite map_map. cbn [entry fst].
    destruct top_3_of_5_5_3 as [-> | ->]; [left|right]; reflexivity.
Qed.

Lemma top_3_ranking_witness :
  exists top,
    metrics_get "top_3_experts" (fst (calculate_metrics (F := fexpr) [5; 5; 3]))
      = Some (MTop top) /\
    length top = 3 /\
    (map (fun e => fst e) top = [(0, 5); (1, 5); (2, 3)] \/
     map (fun e => fst e) top = [(1, 5); (0, 5); (2, 3)]).
Proof.
  destruct (top_3_ranking (F := fexpr) [5; 5; 3])
    as (top & H1 & H2 & _ & _ & _ & _ & H7).
  - discriminate.
  - exists top. split; [exact H1|]. split; [exact H2|]. by apply H7.
Defined.

(** C7, as stated, fails: the code does not settle ties by the lower id.
    With the counts [[5, 5, 3]] and the insertion sort numpy runs on so short
    an array where it has no vectorised sort, expert 1 is listed before
    expert 0; with another sort that meets the contract of [np.argsort] the
    order is 0, 1, 2. *)
Lemma top_3_tie_order_not_fixed :
  metrics_get "top_3_experts"
    (fst (calculate_metrics (F := fexpr) (sorter := insertion_sort) [5; 5; 3]))
    = Some (MTop [(1, 5, FRatio 5 13); (0, 5, FRatio 5 13); (2, 3, FRatio 3 13)]) /\
  ~ lower_id_first [5; 5; 3] [1; 0; 2] /\
  metrics_get "top_3_experts"
    (fst (calculate_metrics (F := fexpr) (sorter := reverse_sort) [5; 5; 3]))
    = Some (MTop [(0, 5, FRatio 5 13); (1, 5, FRatio 5 13); (2, 3, FRatio 3 13)]).
Proof.
  split; [reflexivity|]. split; [|reflexivity].
  intros H. specialize (H 0 1 0 eq_refl eq_refl eq_refl). lia.
Qed.

(** ** The capture logger *)

Ltac unfold_monad :=
  unfold mbind, mret, M_bind, M_ret, bind, ret, lift, raise, get_self, get_env,
    set_self, set_env in *.

Lemma emit_ok lv text e s :
  emit lv text e s
  = (Ok tt, State (self s)
              (set_diagnostics (diagnostics (env s) ++ [Diagnostic lv text e]) (env s))).
Proof. reflexivity. Qed.

Lemma try_except_emit_returns (m : M unit) lv text (s : state) :
  fst (try_except m (fun e => emit lv text (Some e)) s) = Ok tt.
Proof.
  unfold try_except. destruct (m s) as [[[]|e] s']; reflexivity.
Qed.

Lemma log_routing_unfold layer_idx ids ws rid s :
  log_routing layer_idx ids ws rid s =
    if capturing (self s) && (layer_idx =? logged_layer (self s))%Z then
      try_except (log_routing_body (self s) layer_idx ids ws rid)
                 (fun e => emit ERROR "Failed to log MoE routing" (Some e)) s
    else (Ok tt, s).
Proof.
  unfold log_routing, capturing. unfold_monad.
  destruct (enabled (self s)), (is_none (file_handle (self s))),
    (layer_idx =? logged_layer (self s))%Z; reflexivity.
Qed.

Lemma write_meta_header_unfold model_id top_k num_experts device seed s :
  write_meta_header model_id top_k num_experts device seed s =
    if capturing (self s) then
      try_except
        (write_meta_header_body
           (meta_record (self s) (env s) model_id top_k num_experts device seed))
        (fun e => emit ERROR "Failed to write MoE meta header" (Some e)) s
    else (Ok tt, s).
Proof.
  unfold write_meta_header, capturing. unfold_monad.
  destruct (enabled (self s)), (is_none (file_handle (self s))); reflexivity.
Qed.

(** C1.  Capture never raises: whatever the layer index, the id and weight
    tensors, the request id, the header fields, the state of the logger and
    the fate of the I/O calls ([io_plan]), [log_routing] and
    [write_meta_header] return normally.  Errors met under their [try]
    (a tensor that does not convert or has the wrong shape, a failing write
    or flush) are caught; see
    [log_routing_reports] and [write_meta_header_reports] for the diagnostic
    they leave. *)
Theorem capture_never_raises (s : state) (layer_idx : Z) (topk_ids : tensor Z)
    (topk_weights : tensor Q) (req_id : option string)
    (model_id : string) (top_k num_experts : Z) (device : string)
    (seed : option Z) :
  fst (log_routing layer_idx topk_ids topk_weights req_id s) = Ok tt /\
  fst (write_meta_header model_id top_k num_experts device seed s) = Ok tt.
Proof.
  rewrite log_routing_unfold, write_meta_header_unfold. split.
  - destruct (_ && _); [apply try_except_emit_returns|done].
  - destruct (capturing _); [apply try_except_emit_returns|done].
Qed.

(** An error under the [try] ends up on the diagnostic channel. *)
Lemma log_routing_reports layer_idx ids ws rid s e s' :
  capturing (self s) = true -> layer_idx = logged_layer (self s) ->
  log_routing_body (self s) layer_idx ids ws rid s = (Raise e, s') ->
  log_routing layer_idx ids ws rid s =
    (Ok tt, State (self s')
              (set_diagnostics
                 (diagnostics (env s')
                  ++ [Diagnostic ERROR "Failed to log MoE routing" (Some e)])
                 (env s'))).
Proof.
  intros Hc -> Hb. rewrite log_routing_unfold, Hc, Z.eqb_refl. simpl.
  unfold try_except. by rewrite Hb.
Qed.

Lemma write_meta_header_reports model_id top_k num_experts device seed s e s' :
  capturing (self s) = true ->
  write_meta_header_body
    (meta_record (self s) (env s) model_id top_k num_experts device seed) s
    = (Raise e, s') ->
  write_meta_header model_id top_k num_experts device seed s =
    (Ok tt, State (self s')
              (set_diagnostics
                 (diagnostics (env s')
                  ++ [Diagnostic ERROR "Failed to write MoE meta header" (Some e)])
                 (env s'))).
Proof.
  intros Hc Hb. rewrite write_meta_header_unfold, Hc.
  unfold try_except. by rewrite Hb.
Qed.

(** A weight tensor with fewer rows than the id tensor: the second token
    raises [IndexError] under the [try] and the call still returns. *)
Example log_routing_short_weights :
  let s := State sample_logger (sample_world []) in
  let ids := tensor2 [[2; 0]; [1; 3]]%Z in
  let ws := tensor2 [[(7#10)%Q; (3#10)%Q]] in
  fst (log_routing_body sample_logger 0 ids ws None s) = Raise IndexError /\
  fst (log_routing 0 ids ws None s) = Ok tt /\
  diagnostics (env (snd (log_routing 0 ids ws None s)))
  = [Diagnostic ERROR "Failed to log MoE routing" (Some IndexError)].
Proof. vm_compute. auto. Qed.

(** A flush that fails: [OSError] under the [try] of both operations. *)
Example capture_io_error :
  let s := State sample_logger (sample_world [true]) in
  fst (log_routing 0 (tensor2 [[2; 0]]%Z) (tensor2 [[(7#10)%Q; (3#10)%Q]]) None s)
    = Ok tt /\
  diagnostics
    (env (snd (log_routing 0 (tensor2 [[2; 0]]%Z) (tensor2 [[(7#10)%Q; (3#10)%Q]])
                           None s)))
    = [Diagnostic ERROR "Failed to log MoE routing" (Some OSError)] /\
  fst (write_meta_header "m" 2 8 "cuda" None s) = Ok tt /\
  diagnostics (env (snd (write_meta_header "m" 2 8 "cuda" None s)))
    = [Diagnostic ERROR "Failed to write MoE meta header" (Some OSError)].
Proof. vm_compute. auto. Qed.

Lemma init_without_target (s : state) :
  default "" (environ (env s) !! "VLLM_LOG_MOE") = "" ->
  __init__ s = (Ok tt, State (Build_MoELogger false None None 0 0) (env s)).
Proof.
  intros H. unfold __init__. unfold_monad. simpl. by rewrite H.
Qed.

Lemma disabled_noop (s : state) :
  enabled (self s) = false ->
  forall layer_idx ids ws rid model_id top_k num_experts device seed,
    log_routing layer_idx ids ws rid s = (Ok tt, s) /\
    write_meta_header model_id top_k num_experts device seed s = (Ok tt, s).
Proof.
  intros H *. rewrite log_routing_unfold, write_meta_header_unfold.
  unfold capturing. by rewrite H.
Qed.

(** C2.  No output target, no capture: when [VLLM_LOG_MOE] is absent or empty,
    [__init__] leaves [enabled = False] without touching the world, and from
    then on [log_routing] and [write_meta_header] return at once, for all
    arguments, with the state (logger, files, diagnostics) unchanged. *)
Theorem disabled_logger_is_inert (s : state) :
  default "" (environ (env s) !! "VLLM_LOG_MOE") = "" ->
  fst (__init__ s) = Ok tt /\
  enabled (self (snd (__init__ s))) = false /\
  env (snd (__init__ s)) = env s /\
  forall layer_idx ids ws rid model_id top_k num_experts device seed,
    log_routing layer_idx ids ws rid (snd (__init__ s)) = (Ok tt, snd (__init__ s)) /\
    write_meta_header model_id top_k num_experts device seed (snd (__init__ s))
      = (Ok tt, snd (__init__ s)).
Proof.
  intros H. rewrite (init_without_target s H). cbn [fst snd self env enabled].
  repeat split; try done; by apply disabled_noop.
Qed.

Lemma disabled_logger_is_inert_witness :
  enabled (self (snd (__init__ blank_state))) = false /\
  log_routing 0 (tensor2 [[2; 0]]%Z) (tensor2 [[(7#10)%Q; (3#10)%Q]]) None
              (snd (__init__ blank_state))
  = (Ok tt, snd (__init__ blank_state)).
Proof.
  destruct (disabled_logger_is_inert blank_state) as (_ & He & _ & Hn).
  - reflexivity.
  - split; [exact He|].
    exact (proj1 (Hn 0%Z (tensor2 [[2; 0]]%Z) (tensor2 [[(7#10)%Q; (3#10)%Q]]) None
                     "" 0%Z 0%Z "" None)).
Defined.

(** Batches of any other layer are dropped. *)
Lemma log_routing_other_layer layer_idx ids ws rid s :
  layer_idx <> logged_layer (self s) ->
  log_routing layer_idx ids ws rid s = (Ok tt, s).
Proof.
  intros Hne. rewrite log_routing_unfold.
  apply Z.eqb_neq in Hne. by rewrite Hne, andb_false_r.
Qed.

Lemma py_int_result text :
  (exists z, py_int text = Ok z) \/ py_int text = Raise ValueError.
Proof.
  unfold py_int. destruct (int_rstrip (int_lstrip text)) as [|c r].
  - destruct (int_digits "" false); [destruct (_ <? _)%N|]; eauto.
  - destruct (Ascii.eqb c "-"); [|destruct (Ascii.eqb c "+")];
      (destruct (int_digits _ false); [destruct (_ <? _)%N|]); eauto.
Qed.

(** With an output target and a file that opens, the logger starts enabled
    on an empty file, with the counter at zero. *)
Lemma init_with_target (s : state) (path : string) :
  environ (env s) !! "VLLM_LOG_MOE" = Some path -> path <> "" ->
  io_plan (env s) = [] ->
  fst (__init__ s) = Ok tt /\
  enabled (self (snd (__init__ s))) = true /\
  file_handle (self (snd (__init__ s))) = Some (FileObject path "") /\
  request_counter (self (snd (__init__ s))) = 0 /\
  disk (env (snd (__init__ s))) !! path = Some "" /\
  io_plan (env (snd (__init__ s))) = [].
Proof.
  intros Hp Hne Hplan. unfold __init__. unfold_monad. cbn [self env].
  rewrite Hp. cbn [default from_option id].
  destruct (String.eqb_spec path "") as [|_]; [done|].
  unfold try_except, open_w, io_call. unfold_monad. cbn [self env].
  rewrite Hplan.
  destruct (py_int_result (default "0" (environ (env s) !! "VLLM_LOG_MOE_LAYER")))
    as [[z ->]| ->]; cbn; rewrite ?lookup_insert_eq; by rewrite ?Hplan.
Qed.

(** ** A batch that goes through *)

Lemma ids_to_json_row (row : list Z) :
  ids_to_json (Nested (map Scalar row)) = JList (map JInt row).
Proof. cbn [ids_to_json]. by rewrite map_map. Qed.

Lemma round_all_row (row : list Q) :
  round_all (map Scalar row) = Ok (map (fun w => JFloat (round6 w)) row).
Proof.
  induction row as [|w row IH]; [done|]. cbn [map round_all py_round6].
  by rewrite IH.
Qed.

Lemma fh_write_ok text s h :
  file_handle (self s) = Some h -> io_plan (env s) = [] ->
  fh_write text s = (Ok tt, buffered text s).
Proof.
  intros Hh Hp. unfold fh_write, buffered, io_call. unfold_monad.
  rewrite Hh. cbv zeta. destruct (_ <? _)%N; by rewrite ?Hp.
Qed.

Lemma buffered_twice a b s :
  buffered b (buffered a s) = buffered (a ++ b) s.
Proof.
  unfold buffered. destruct (file_handle (self s)) as [h|] eqn:E; simpl.
  - by rewrite append_assoc.
  - by rewrite E.
Qed.

Lemma buffered_nil s h :
  file_handle (self s) = Some h -> buffered "" s = s.
Proof.
  intros Hh. unfold buffered. rewrite Hh, append_nil_r.
  destruct s as [[] ?]; simpl in *. by subst; destruct h.
Qed.

Lemma buffered_handle text s h :
  file_handle (self s) = Some h ->
  file_handle (self (buffered text s)) = Some (FileObject (f_name h) (f_buffer h ++ text))
  /\ env (buffered text s) = env s.
Proof. intros Hh. unfold buffered. by rewrite Hh. Qed.

Lemma log_tokens_ok req_id layer_idx (all_ids : list (list Z)) (all_ws : list (list Q)) :
  forall (ids : list (list Z)) (ws : list (list Q)) (start : nat) (s : state) h,
    file_handle (self s) = Some h -> io_plan (env s) = [] ->
    drop start all_ids = ids -> drop start all_ws = ws ->
    length ids <= length ws ->
    for_each (seq start (length ids))
             (log_token req_id layer_idx (rows2 all_ids) (rows2 all_ws)) s
    = (Ok tt, buffered (jsonl (batch_records req_id layer_idx start ids ws)) s).
Proof.
  induction ids as [|row ids IH]; intros ws start s h Hh Hp Hi Hw Hlen.
  - simpl. by rewrite (buffered_nil _ _ Hh).
  - destruct ws as [|wrow ws]; [simpl in Hlen; lia|].
    cbn [length seq for_each batch_records]. unfold_monad.
    assert (Hri : all_ids !! start = Some row).
    { rewrite <- (Nat.add_0_r start), <- lookup_drop, Hi. done. }
    assert (Hrw : all_ws !! start = Some wrow).
    { rewrite <- (Nat.add_0_r start), <- lookup_drop, Hw. done. }
    unfold log_token at 1. unfold_monad. unfold rows2 at 1 2.
    cbn [py_getitem]. rewrite !list_lookup_fmap, Hri, Hrw.
    cbn [fmap option_fmap option_map py_iter]. rewrite round_all_row, ids_to_json_row.
    rewrite (fh_write_ok _ _ _ Hh Hp).
    destruct (buffered_handle
                (dumps (route_record req_id start layer_idx (JList (map JInt row))
                          (map (fun w => JFloat (round6 w)) wrow)) ++ newline)
                s h Hh) as [Hh' He'].
    rewrite (IH ws (S start) _ _ Hh').
    + rewrite buffered_twice. cbn [jsonl fold_right]. by rewrite append_assoc.
    + by rewrite He'.
    + erewrite drop_S in Hi by done. by inversion Hi.
    + erewrite drop_S in Hw by done. by inversion Hw.
    + simpl in Hlen. lia.
Qed.

Lemma fh_flush_ok s h :
  file_handle (self s) = Some h -> io_plan (env s) = [] ->
  fh_flush s =
    (Ok tt, State (set_file_handle (Some (FileObject (f_name h) "")) (self s))
              (set_disk (<[f_name h := file_text s (f_name h) ++ f_buffer h]>
                           (disk (env s))) (env s))).
Proof.
  intros Hh Hp. unfold fh_flush, io_call, file_text. unfold_monad.
  by rewrite Hh, Hp.
Qed.

Lemma log_routing_ok (s : state) (h : file_object) (layer_idx : Z)
    (ids : list (list Z)) (ws : list (list Q)) (rid : option string) :
  enabled (self s) = true -> file_handle (self s) = Some h ->
  io_plan (env s) = [] -> layer_idx = logged_layer (self s) ->
  length ids <= length ws ->
  log_routing layer_idx (tensor2 ids) (tensor2 ws) rid s =
    (Ok tt,
     flushed_batch rid
       (batch_records (next_req_id rid (self s)) layer_idx 0 ids ws) h s).
Proof.
  intros He Hh Hp -> Hlen. rewrite log_routing_unfold.
  unfold capturing. rewrite He, Hh, Z.eqb_refl. cbn [is_none negb andb].
  unfold try_except, log_routing_body.
  set (s1 := State (set_request_counter (next_counter rid (self s)) (self s)) (env s)).
  assert (Hs1 :
    (match rid with
     | Some r => mret r
     | None =>
         set_self (set_request_counter (S (request_counter (self s)))) ≫= λ _,
         mret ("r" ++ PyStr.str_of_nat (request_counter (self s)))
     end) s = (Ok (next_req_id rid (self s)), s1)).
  { subst s1. destruct rid; unfold_monad; cbn [next_req_id next_counter]; [|done].
    destruct s as [[] ?]; reflexivity. }
  unfold tensor2. cbn [tolist].
  unfold mbind at 1 2, M_bind at 1 2, bind at 1 2, lift at 1 2.
  unfold mbind at 1, M_bind at 1, bind at 1. rewrite Hs1.
  unfold_monad. unfold rows2 at 1. cbn [py_len]. rewrite length_map.
  assert (Hh1 : file_handle (self s1) = Some h) by done.
  assert (Hp1 : io_plan (env s1) = []) by done.
  rewrite (log_tokens_ok _ _ ids ws ids ws 0 s1 h Hh1 Hp1 eq_refl eq_refl Hlen).
  destruct (buffered_handle
              (jsonl (batch_records (next_req_id rid (self s))
                        (logged_layer (self s)) 0 ids ws)) s1 h Hh1) as [Hh2 He2].
  rewrite (fh_flush_ok _ _ Hh2); [|by rewrite He2].
  f_equal. unfold flushed_batch, file_text. rewrite He2.
  unfold buffered. rewrite Hh1. reflexivity.
Qed.

Lemma write_meta_header_ok (s : state) (h : file_object) model_id top_k num_experts
    device seed :
  enabled (self s) = true -> file_handle (self s) = Some h ->
  io_plan (env s) = [] ->
  write_meta_header model_id top_k num_experts device seed s =
    (Ok tt,
     flushed_batch (Some "")
       [meta_record (self s) (env s) model_id top_k num_experts device seed] h s).
Proof.
  intros He Hh Hp. rewrite write_meta_header_unfold.
  unfold capturing. rewrite He, Hh. cbn [is_none negb andb].
  unfold try_except, write_meta_header_body. unfold_monad.
  rewrite (fh_write_ok _ _ _ Hh Hp).
  destruct (buffered_handle
              (dumps (meta_record (self s) (env s) model_id top_k num_experts
                        device seed) ++ newline) s h Hh) as [Hh2 He2].
  rewrite (fh_flush_ok _ _ Hh2); [|by rewrite He2].
  f_equal. unfold flushed_batch, file_text. rewrite He2.
  unfold buffered. rewrite Hh. cbn [jsonl fold_right].
  rewrite append_nil_r. destruct s as [[] ?]; reflexivity.
Qed.

(** ** Records of a batch *)

Lemma batch_records_length rid layer start ids ws :
  length ids <= length ws ->
  length (batch_records rid layer start ids ws) = length ids.
Proof.
  revert ws start. induction ids as [|row ids IH]; intros [|wrow ws] start Hl;
    simpl in *; try lia. rewrite IH; lia.
Qed.

Lemma batch_records_lookup rid layer start ids ws k r :
  batch_records rid layer start ids ws !! k = Some r ->
  exists row wrow,
    ids !! k = Some row /\ ws !! k = Some wrow /\
    r = route_record rid (start + k) layer (JList (map JInt row))
          (map (fun w => JFloat (round6 w)) wrow).
Proof.
  revert ws start k. induction ids as [|row ids IH]; intros [|wrow ws] start k;
    cbn [batch_records]; try done.
  destruct k as [|k]; simpl.
  - intros [= <-]. exists row, wrow. by rewrite Nat.add_0_r.
  - intros H. destruct (IH _ _ _ H) as (row' & wrow' & H1 & H2 & ->).
    exists row', wrow'. repeat split; try done. f_equal. lia.
Qed.

(** C9, as the code has it.  Within one call of [log_routing] that goes
    through, the records written carry the request id of the call and
    [token_idx = 0, 1, 2, ...], the row number in the batch. *)
Theorem token_idx_is_batch_row (s : state) (h : file_object) (layer_idx : Z)
    (ids : list (list Z)) (ws : list (list Q)) (rid : option string) :
  enabled (self s) = true -> file_handle (self s) = Some h ->
  io_plan (env s) = [] -> layer_idx = logged_layer (self s) ->
  length ids <= length ws ->
  exists records,
    fst (log_routing layer_idx (tensor2 ids) (tensor2 ws) rid s) = Ok tt /\
    file_text (snd (log_routing layer_idx (tensor2 ids) (tensor2 ws) rid s)) (f_name h)
      = file_text s (f_name h) ++ f_buffer h ++ jsonl records /\
    length records = length ids /\
    forall k r, records !! k = Some r ->
      int_field "token_idx" r = Some (Z.of_nat k) /\
      str_field "req_id" r = Some (next_req_id rid (self s)).
Proof.
  intros He Hh Hp Hl Hlen.
  exists (batch_records (next_req_id rid (self s)) layer_idx 0 ids ws).
  rewrite (log_routing_ok s h layer_idx ids ws rid He Hh Hp Hl Hlen).
  split; [done|]. split; [|split].
  - unfold file_text at 1, flushed_batch. cbn [snd env disk set_disk].
    by rewrite lookup_insert_eq.
  - by apply batch_records_length.
  - intros k r Hr.
    destruct (batch_records_lookup _ _ _ _ _ _ _ Hr) as (row & wrow & _ & _ & ->).
    done.
Qed.

Lemma token_idx_is_batch_row_witness :
  exists records,
    file_text (snd (log_routing 0 (tensor2 two_rows_ids) (tensor2 two_rows_weights)
                      (Some "a") (State sample_logger (sample_world []))))
              "moe_routes.jsonl" = jsonl records /\
    map (int_field "token_idx") records = [Some 0%Z; Some 1%Z].
Proof.
  destruct (token_idx_is_batch_row (State sample_logger (sample_world []))
              (FileObject "moe_routes.jsonl" "") 0 two_rows_ids two_rows_weights
              (Some "a") eq_refl eq_refl eq_refl eq_refl) as (records & _ & Ht & Hn & Hk).
  - simpl. lia.
  - exists records. split; [exact Ht|].
    destruct records as [|r0 [|r1 [|r2 records]]]; try discriminate Hn.
    cbn [map]. by rewrite (proj1 (Hk 0 r0 eq_refl)), (proj1 (Hk 1 r1 eq_refl)).
Defined.

(** C9, as stated, fails: two calls of [log_routing] at the logged layer, each
    with the two-row tensors [two_rows_ids] and [two_rows_weights] and the
    request id ["a"], leave four records of request ["a"] whose [token_idx]
    read 0, 1, 0, 1. *)
Lemma token_idx_restarts_per_call :
  exists routes,
    read_moe_log (disk (env same_request_twice)) "moe_routes.jsonl" = Ok (None, routes) /\
    map (str_field "req_id") routes = [Some "a"; Some "a"; Some "a"; Some "a"] /\
    map (int_field "token_idx") routes = [Some 0; Some 1; Some 0; Some 1]%Z /\
    ~ token_idx_monotone routes.
Proof.
  eexists. split; [vm_compute; reflexivity|].
  split; [reflexivity|]. split; [reflexivity|].
  intros H. specialize (H 1 2 _ _ 1%Z 0%Z ltac:(lia) eq_refl eq_refl eq_refl eq_refl eq_refl).
  lia.
Qed.

(** The records the logger writes are dicts with distinct keys. *)
Lemma wf_ints (row : list Z) : wf_json (JList (map JInt row)).
Proof. induction row; simpl; auto. Qed.

Lemma wf_floats (row : list Z) : wf_json (JList (map JFloat row)).
Proof. induction row; simpl; auto. Qed.

Lemma route_record_wf rid k layer (row : list Z) (weights : list Z) :
  wf_json (route_record rid k layer (JList (map JInt row)) (map JFloat weights)).
Proof.
  split; [by apply (bool_decide_unpack _)|].
  pose proof (wf_ints row). pose proof (wf_floats weights).
  cbn [fold_right snd]. cbn [wf_json] in *. tauto.
Qed.

Lemma meta_record_wf l w model_id top_k num_experts device seed :
  wf_json (meta_record l w model_id top_k num_experts device seed).
Proof.
  split; [by apply (bool_decide_unpack _)|].
  cbn [fold_right snd wf_json]. by destruct seed.
Qed.

(** The line of the first batch, character by character. *)
Lemma first_batch_text (z : Z) :
  dumps (JObj [ ("type", JStr "route"); ("req_id", JStr "r0"); ("token_idx", JInt 0);
           ("layer", JInt z);
           ("topk_ids", JList [JInt 2; JInt 0]);
           ("topk_weights", JList [JFloat 700000; JFloat 300000]) ]) ++ newline
  = "{" ++ quoted "type" ++ ": " ++ quoted "route" ++ ", "
          ++ quoted "req_id" ++ ": " ++ quoted "r0" ++ ", "
          ++ quoted "token_idx" ++ ": 0, "
          ++ quoted "layer" ++ ": " ++ PyStr.str_of_Z z ++ ", "
          ++ quoted "topk_ids" ++ ": [2, 0], "
          ++ quoted "topk_weights" ++ ": [0.7, 0.3]}" ++ newline.
Proof.
  rewrite dumps_obj. unfold member_text. cbn [map join fst snd dumps].
  generalize (PyStr.str_of_Z z). intros L.
  change (String "{" ?a) with ("{" ++ a).
  rewrite !append_assoc.
  vm_compute. reflexivity.
Qed.

(** C5.  The first batch: on an enabled logger with counter 0, an empty file
    and no I/O failure, [log_routing] at the logged layer with ids [[2,0]],
    weights [[0.7,0.3]] and no request id writes exactly one line, the text
    of a dict with [type = "route"], [req_id = "r0"], [token_idx = 0], the
    layer, [topk_ids = [2, 0]] and [topk_weights = [0.7, 0.3]], in this
    order; the file reads back as that one route record, and the counter is
    left at 1. *)
Theorem log_routing_first_batch (s : state) (h : file_object) :
  enabled (self s) = true -> file_handle (self s) = Some h ->
  io_plan (env s) = [] -> request_counter (self s) = 0 ->
  f_buffer h = "" -> disk (env s) !! f_name h = Some "" ->
  let out :=
    log_routing (logged_layer (self s)) (tensor2 [[2; 0]]%Z)
                (tensor2 [[(7#10)%Q; (3#10)%Q]]) None s in
  fst out = Ok tt /\
  request_counter (self (snd out)) = 1 /\
  disk (env (snd out)) !! f_name h =
    Some ("{" ++ quoted "type" ++ ": " ++ quoted "route" ++ ", "
          ++ quoted "req_id" ++ ": " ++ quoted "r0" ++ ", "
          ++ quoted "token_idx" ++ ": 0, "
          ++ quoted "layer" ++ ": " ++ PyStr.str_of_Z (logged_layer (self s)) ++ ", "
          ++ quoted "topk_ids" ++ ": [2, 0], "
          ++ quoted "topk_weights" ++ ": [0.7, 0.3]}" ++ newline) /\
  read_moe_log (disk (env (snd out))) (f_name h) =
    Ok (None,
        [JObj [ ("type", JStr "route");
                ("req_id", JStr "r0");
                ("token_idx", JInt 0);
                ("layer", JInt (logged_layer (self s)));
                ("topk_ids", JList [JInt 2; JInt 0]);
                ("topk_weights", JList [JFloat 700000; JFloat 300000]) ]]) /\
  forall p, p <> f_name h -> disk (env (snd out)) !! p = disk (env s) !! p.
Proof.
  intros He Hh Hp Hc Hb Hd out.
  set (record :=
    JObj [ ("type", JStr "route"); ("req_id", JStr "r0"); ("token_idx", JInt 0);
           ("layer", JInt (logged_layer (self s)));
           ("topk_ids", JList [JInt 2; JInt 0]);
           ("topk_weights", JList [JFloat 700000; JFloat 300000]) ]).
  assert (Hout : out = (Ok tt, flushed_batch None [record] h s)).
  { subst out record.
    rewrite (log_routing_ok s h _ [[2; 0]]%Z [[(7#10)%Q; (3#10)%Q]] None He Hh Hp eq_refl)
      by (simpl; lia).
    unfold next_req_id. by rewrite Hc. }
  rewrite Hout. unfold flushed_batch, file_text, next_counter.
  rewrite Hc, Hb, Hd.
  cbn [fst snd self env request_counter disk set_disk default from_option id
       String.append].
  rewrite lookup_insert_eq.
  split; [done|]. split; [done|]. split; [|split].
  - cbn [jsonl fold_right]. rewrite append_nil_r. f_equal.
    apply first_batch_text.
  - unfold read_moe_log. rewrite lookup_insert_eq.
    rewrite iter_lines_jsonl. cbn [map read_loop].
    subst record.
    change [JFloat 700000; JFloat 300000] with (map JFloat [700000; 300000]%Z).
    change [JInt 2; JInt 0] with (map JInt [2; 0]%Z).
    pose proof (route_record_wf "r0" 0 (logged_layer (self s)) [2; 0]%Z
                  [700000; 300000]%Z) as Hwf.
    unfold route_record in *. rewrite decode_record_line by exact Hwf.
    reflexivity.
  - intros p Hne. by rewrite lookup_insert_ne.
Qed.

Lemma log_routing_first_batch_witness :
  let s := State sample_logger (sample_world []) in
  let out :=
    log_routing 0 (tensor2 [[2; 0]]%Z) (tensor2 [[(7#10)%Q; (3#10)%Q]]) None s in
  request_counter (self (snd out)) = 1 /\
  disk (env (snd out)) !! "moe_routes.jsonl" =
    Some ("{" ++ quoted "type" ++ ": " ++ quoted "route" ++ ", "
          ++ quoted "req_id" ++ ": " ++ quoted "r0" ++ ", "
          ++ quoted "token_idx" ++ ": 0, " ++ quoted "layer" ++ ": 0, "
          ++ quoted "topk_ids" ++ ": [2, 0], "
          ++ quoted "topk_weights" ++ ": [0.7, 0.3]}" ++ newline).
Proof.
  destruct (log_routing_first_batch (State sample_logger (sample_world []))
              (FileObject "moe_routes.jsonl" "")
              eq_refl eq_refl eq_refl eq_refl eq_refl eq_refl) as (_ & Hc & Ht & _).
  split; [exact Hc|exact Ht].
Defined.

(** ** A whole trace *)

Lemma jsonl_app a b : jsonl (a ++ b) = jsonl a ++ jsonl b.
Proof.
  induction a as [|r a IH]; [done|].
  cbn [app jsonl fold_right]. fold (jsonl (a ++ b)) (jsonl a).
  by rewrite IH, !append_assoc.
Qed.

Lemma replay_ok (path : string) (calls : list call) :
  forall (s : state) (text : string),
    enabled (self s) = true ->
    file_handle (self s) = Some (FileObject path "") ->
    io_plan (env s) = [] ->
    disk (env s) !! path = Some text ->
    Forall (fun c => length (c_ids c) <= length (c_weights c)) calls ->
    exists s',
      replay calls s = (Ok tt, s') /\
      disk (env s') !! path =
        Some (text ++ jsonl (expected_routes (logged_layer (self s))
                               (request_counter (self s)) calls)).
Proof.
  induction calls as [|c calls IH]; intros s text He Hh Hp Hd Hs.
  - exists s. split; [done|]. simpl. by rewrite append_nil_r.
  - apply Forall_cons in Hs as [Hc Hs].
    unfold replay. cbn [for_each]. unfold mbind, M_bind, bind.
    cbn [expected_routes].
    destruct (Z.eqb_spec (c_layer c) (logged_layer (self s))) as [Hl|Hl].
    + rewrite (log_routing_ok s _ _ _ _ (c_req_id c) He Hh Hp Hl Hc).
      set (s1 := flushed_batch _ _ _ s).
      destruct (IH s1 (text ++ jsonl (batch_records (next_req_id (c_req_id c) (self s))
                                        (c_layer c) 0 (c_ids c) (c_weights c))))
        as (s' & Hr & Hd'); try done.
      { subst s1. unfold flushed_batch, file_text. cbn [env disk set_disk f_name f_buffer].
        rewrite lookup_insert_eq, Hd. done. }
      exists s'. split; [exact Hr|]. rewrite Hd'. f_equal.
      subst s1. cbn [flushed_batch self logged_layer request_counter].
      rewrite Hl. unfold next_req_id, next_counter.
      destruct (c_req_id c); by rewrite jsonl_app, append_assoc.
    + rewrite log_routing_unfold.
      assert ((c_layer c =? logged_layer (self s))%Z = false) as -> by by apply Z.eqb_neq.
      rewrite andb_false_r.
      destruct (IH s text) as (s' & Hr & Hd'); try done.
      exists s'. split; [exact Hr|]. by rewrite Hd'.
Qed.

Lemma batch_records_routes rid layer start ids ws :
  Forall (fun r => wf_json r /\ has_tag "route" r = true /\ has_tag "meta" r = false
                   /\ exists kv, r = JObj kv)
         (batch_records rid layer start ids ws).
Proof.
  revert ws start. induction ids as [|row ids IH]; intros [|wrow ws] start;
    cbn [batch_records]; try by constructor.
  constructor; [|apply IH].
  split; [|by eauto].
  rewrite <- (map_map round6 JFloat). apply route_record_wf.
Qed.

Lemma expected_routes_routes layer counter calls :
  Forall (fun r => wf_json r /\ has_tag "route" r = true /\ has_tag "meta" r = false
                   /\ exists kv, r = JObj kv)
         (expected_routes layer counter calls).
Proof.
  revert counter. induction calls as [|c calls IH]; intros counter; simpl;
    [by constructor|].
  destruct (_ =? _)%Z; [|done].
  destruct (c_req_id c); apply Forall_app; split; auto using batch_records_routes.
Qed.

Lemma routes_decode routes :
  Forall (fun r => wf_json r /\ has_tag "route" r = true /\ has_tag "meta" r = false
                   /\ exists kv, r = JObj kv) routes ->
  Forall2 decodes_to (map (fun r => dumps r ++ newline) routes) routes /\
  List.filter (has_tag "route") routes = routes /\
  List.filter (has_tag "meta") routes = [].
Proof.
  induction 1 as [|r routes (Hwf & Hr & Hm & kv & ->) _ (IH1 & IH2 & IH3)];
    [by repeat constructor|].
  split; [|split].
  - constructor; [|done]. split; [by apply decode_record_line|].
    unfold has_tag in Hr. destruct (py_subscript (JObj kv) "type"); [eauto|done].
  - cbn [List.filter]. by rewrite Hr, IH2.
  - cbn [List.filter]. by rewrite Hm.
Qed.

Lemma expected_routes_length layer counter calls :
  Forall (fun c => length (c_ids c) <= length (c_weights c)) calls ->
  length (expected_routes layer counter calls)
  = list_sum (map (fun c => if (c_layer c =? layer)%Z then length (c_ids c) else 0)
                  calls).
Proof.
  intros H. revert counter.
  induction H as [|c calls Hc _ IH]; intros counter; [done|].
  cbn [expected_routes map list_sum].
  destruct (c_layer c =? layer)%Z; [|by rewrite IH].
  destruct (c_req_id c); by rewrite length_app, batch_records_length, IH.
Qed.

(** C3.  Round trip.  On a logger that has just been enabled (file created
    empty, nothing buffered) and with no I/O failure, writing the header and
    then any sequence of batches of shape [[num_tokens, top_k]] leaves a file
    that [read_moe_log] parses back into the header, a dict with the nine
    entries [write_meta_header] was given or found, and the route records of
    the batches at the logged layer, one per row, in the order written: each
    with the request id of its call, the row number, the layer, the ids of
    the row and its weights rounded to six places (spelled out in
    [batch_records]).  The statement is made where the model of ints and
    floats is exact: ints of at most 4300 digits, which is what [str]
    converts, and weights of size at most [10^9] that do not round to a
    negative zero. *)
Theorem trace_round_trip (s : state) (path : string) (model_id : string)
    (top_k num_experts : Z) (device : string) (seed : option Z)
    (calls : list call) :
  enabled (self s) = true ->
  file_handle (self s) = Some (FileObject path "") ->
  disk (env s) !! path = Some "" ->
  io_plan (env s) = [] ->
  Forall (fun c => length (c_ids c) <= length (c_weights c)) calls ->
  Forall convertible
         (top_k :: num_experts :: logged_layer (self s)
          :: Z.of_nat (request_counter (self s) + length calls)
          :: match seed with Some z => [z] | None => [] end) ->
  Forall (fun c => Forall (Forall convertible) (c_ids c) /\
                   Forall (Forall weight_in_range) (c_weights c)) calls ->
  let s1 := snd (write_meta_header model_id top_k num_experts device seed s) in
  let s2 := snd (replay calls s1) in
  let routes :=
    expected_routes (logged_layer (self s)) (request_counter (self s)) calls in
  read_moe_log (disk (env s2)) path =
    Ok (Some (JObj [ ("type", JStr "meta");
                     ("model_id", JStr model_id);
                     ("vllm_version", JStr (default "unknown" (vllm_version (env s))));
                     ("torch_version", JStr (default "unknown" (torch_version (env s))));
                     ("device", JStr device);
                     ("seed", match seed with Some z => JInt z | None => JNull end);
                     ("layers_logged", JList [JInt (logged_layer (self s))]);
                     ("top_k", JInt top_k);
                     ("num_experts", JInt num_experts) ]),
        routes) /\
  length routes
  = list_sum (map (fun c => if (c_layer c =? logged_layer (self s))%Z
                            then length (c_ids c) else 0) calls).
Proof.
  intros He Hh Hd Hp Hs _ _ s1 s2 routes.
  split; [|by apply expected_routes_length].
  set (meta := meta_record (self s) (env s) model_id top_k num_experts device seed).
  change (read_moe_log (disk (env s2)) path = Ok (Some meta, routes)).
  assert (Hs1 : s1 = flushed_batch (Some "") [meta] (FileObject path "") s).
  { subst s1. by rewrite (write_meta_header_ok s _ _ _ _ _ _ He Hh Hp). }
  assert (He1 : enabled (self s1) = true) by by rewrite Hs1.
  assert (Hh1 : file_handle (self s1) = Some (FileObject path "")) by by rewrite Hs1.
  assert (Hp1 : io_plan (env s1) = []) by by rewrite Hs1.
  assert (Hd1 : disk (env s1) !! path = Some (jsonl [meta])).
  { rewrite Hs1. unfold flushed_batch, file_text.
    cbn [env disk set_disk f_name f_buffer].
    by rewrite lookup_insert_eq, Hd. }
  destruct (replay_ok path calls s1 (jsonl [meta]) He1 Hh1 Hp1 Hd1 Hs)
    as (s' & Hr & Hd').
  assert (s2 = s') as -> by (subst s2; by rewrite Hr).
  unfold read_moe_log. rewrite Hd'.
  replace (logged_layer (self s1)) with (logged_layer (self s)) by by rewrite Hs1.
  replace (request_counter (self s1)) with (request_counter (self s)) by by rewrite Hs1.
  fold routes. rewrite <- jsonl_app, iter_lines_jsonl.
  destruct (routes_decode routes (expected_routes_routes _ _ _)) as (Hdec & Hfr & Hfm).
  rewrite (read_loop_spec _ ([meta] ++ routes)).
  - cbn [app List.filter].
    change (has_tag "meta" meta) with true. change (has_tag "route" meta) with false.
    cbv iota. by rewrite Hfr, Hfm.
  - cbn [app map]. constructor; [|done].
    split; [|by eexists]. apply decode_record_line, meta_record_wf.
Qed.

Lemma trace_round_trip_witness :
  let s := snd (__init__ configured_state) in
  let s1 := snd (write_meta_header "Qwen/Qwen1.5-MoE-A2.7B-Chat" 4 60 "cuda"
                                   (Some 1234%Z) s) in
  let s2 := snd (replay sample_calls s1) in
  let route req_id token_idx ids weights :=
    JObj [ ("type", JStr "route"); ("req_id", JStr req_id);
           ("token_idx", JInt token_idx); ("layer", JInt 0);
           ("topk_ids", JList (map JInt ids));
           ("topk_weights", JList (map JFloat weights)) ] in
  read_moe_log (disk (env s2)) "moe_routes.jsonl" =
    Ok (Some (JObj [ ("type", JStr "meta");
                     ("model_id", JStr "Qwen/Qwen1.5-MoE-A2.7B-Chat");
                     ("vllm_version", JStr "0.6.3");
                     ("torch_version", JStr "2.4.0");
                     ("device", JStr "cuda");
                     ("seed", JInt 1234);
                     ("layers_logged", JList [JInt 0]);
                     ("top_k", JInt 4);
                     ("num_experts", JInt 60) ]),
        [ route "r0" 0 [2; 0] [700000; 300000];
          route "r0" 1 [1; 3] [600000; 400000];
          route "req-7" 0 [4; 7] [333333; 666667];
          route "r1" 0 [0; 1] [900000; 100000] ]%Z).
Proof.
  destruct (trace_round_trip (snd (__init__ configured_state)) "moe_routes.jsonl"
              "Qwen/Qwen1.5-MoE-A2.7B-Chat" 4 60 "cuda" (Some 1234%Z) sample_calls)
    as [Hr _].
  - reflexivity.
  - reflexivity.
  - vm_compute. reflexivity.
  - reflexivity.
  - repeat constructor.
  - repeat first [apply Forall_nil_2 | apply Forall_cons_2];
      unfold convertible; by vm_compute.
  - unfold sample_calls, two_rows_ids, two_rows_weights.
    repeat first [apply Forall_nil_2 | apply Forall_cons_2 | split];
      try (unfold convertible; by vm_compute); try by vm_compute.
    all: left; by vm_compute.
  - cbv zeta in Hr. cbv zeta. rewrite Hr. vm_compute. reflexivity.
Defined.

Example init_reads_layer :
  let s := State (Build_MoELogger false None None 0 0)
                 (World ∅ {[ "VLLM_LOG_MOE" := "out.jsonl";
                             "VLLM_LOG_MOE_LAYER" := " 1_2 " ]} None None [] []) in
  logged_layer (self (snd (__init__ s))) = 12%Z /\ enabled (self (snd (__init__ s))) = true.
Proof. vm_compute. auto. Qed.

Example init_open_fails :
  let s := State (Build_MoELogger false None None 0 0)
                 (World ∅ {[ "VLLM_LOG_MOE" := "out.jsonl" ]} None None [] [true]) in
  fst (__init__ s) = Ok tt /\ enabled (self (snd (__init__ s))) = false /\
  file_handle (self (snd (__init__ s))) = None /\
  diagnostics (env (snd (__init__ s)))
  = [Diagnostic ERROR "Failed to initialize MoE logger" (Some OSError)].
Proof. vm_compute. auto. Qed.

(** * Further results *)

(** ** What a capture call leaves alone *)

Lemma frame_refl s : frame s s.
Proof.
  split; try done.
  - exists []. by rewrite app_nil_r.
  - intros p. exists "". by rewrite append_nil_r.
Qed.

Lemma frame_trans s1 s2 s3 : frame s1 s2 -> frame s2 s3 -> frame s1 s3.
Proof.
  intros [E1 F1 L1 C1 H1 N1 T1 V1 [a Ha] G1 O1] [E2 F2 L2 C2 H2 N2 T2 V2 [b Hb] G2 O2].
  split; try congruence; try lia.
  - exists (a ++ b)%list. by rewrite Hb, Ha, app_assoc.
  - intros p. destruct (G1 p) as [x Hx], (G2 p) as [y Hy].
    exists (x ++ y). by rewrite Hy, Hx, append_assoc.
  - intros p Hp. rewrite O2, O1; congruence.
Qed.

Section keeps.
Variable R : state -> state -> Prop.
Hypothesis R_refl : forall s, R s s.
Hypothesis R_trans : forall s1 s2 s3, R s1 s2 -> R s2 s3 -> R s1 s3.

Lemma keeps_ret {A} (a : A) : keeps R (mret a).
Proof. intros s. apply R_refl. Qed.

Lemma keeps_lift {A} (r : result A) : keeps R (lift r).
Proof. intros s. apply R_refl. Qed.

Lemma keeps_bind {A B} (m : M A) (k : A -> M B) :
  keeps R m -> (forall a, keeps R (k a)) -> keeps R (m ≫= k).
Proof.
  intros Hm Hk s. unfold mbind, M_bind, bind.
  specialize (Hm s). destruct (m s) as [[a|e] s1]; [|done].
  eapply R_trans; [exact Hm|apply Hk].
Qed.

Lemma keeps_try_except (m : M unit) (h : exn -> M unit) :
  keeps R m -> (forall e, keeps R (h e)) -> keeps R (try_except m h).
Proof.
  intros Hm Hh s. unfold try_except.
  specialize (Hm s). destruct (m s) as [[a|e] s1]; [done|].
  eapply R_trans; [exact Hm|apply Hh].
Qed.

Lemma keeps_for_each {A} (l : list A) (body : A -> M unit) :
  (forall a, keeps R (body a)) -> keeps R (for_each l body).
Proof.
  intros Hb. induction l as [|x l IH]; [apply keeps_ret|].
  cbn [for_each]. apply keeps_bind; [apply Hb|]. by intros _.
Qed.
End keeps.

Lemma frame_emit lv text e : keeps frame (emit lv text e).
Proof.
  intros s. split; try done.
  - by eexists.
  - intros p. exists "". by rewrite append_nil_r.
Qed.

Lemma frame_io_call : keeps frame io_call.
Proof.
  intros s. unfold io_call.
  destruct (io_plan (env s)) as [|[] plan]; cbn [snd];
    try apply frame_refl;
    (split; try done;
     [ exists []; by rewrite app_nil_r
     | intros p; exists ""; by rewrite append_nil_r ]).
Qed.

Lemma frame_fh_write text : keeps frame (fh_write text).
Proof.
  intros s. unfold fh_write. unfold_monad.
  destruct (file_handle (self s)) as [h|] eqn:Hh; [|apply frame_refl].
  cbv zeta.
  set (g := if (_ <? _)%N then _ else _).
  assert (Hio : frame s (snd (g s))).
  { subst g. destruct (_ <? _)%N; [apply frame_refl|apply frame_io_call]. }
  destruct (g s) as [[[]|e] s1]; cbn [snd] in *; [|done].
  destruct Hio as [E1 F1 L1 C1 H1 N1 T1 V1 D1 G1 O1]. split; try done.
  cbn. unfold open_name in *. by rewrite Hh in *.
Qed.

Lemma frame_fh_flush : keeps frame fh_flush.
Proof.
  intros s. unfold fh_flush. unfold_monad.
  destruct (file_handle (self s)) as [h|] eqn:Hh; [|apply frame_refl].
  pose proof (frame_io_call s) as Hio.
  destruct (io_call s) as [[[]|e] s1]; cbn [snd] in *; [|done].
  destruct Hio as [E1 F1 L1 C1 H1 N1 T1 V1 D1 G1 O1]. split; try done.
  - cbn. unfold open_name in *. by rewrite Hh in *.
  - intros p. destruct (G1 p) as [a Ha].
    unfold file_text in *. cbn [env disk set_disk].
    destruct (decide (f_name h = p)) as [<-|Hne].
    + rewrite lookup_insert_eq. cbn. rewrite Ha. exists (a ++ f_buffer h).
      by rewrite append_assoc.
    + rewrite lookup_insert_ne by done. by exists a.
  - intros p Hp. cbn [env disk set_disk].
    rewrite lookup_insert_ne; [by apply O1|].
    unfold open_name in Hp. rewrite Hh in Hp. congruence.
Qed.

Lemma frame_set_counter n :
  keeps (fun s s' => request_counter (self s) <= n -> frame s s')
        (set_self (set_request_counter n)).
Proof.
  intros s Hn. split; try done.
  - exists []. by rewrite app_nil_r.
  - intros p. exists "". by rewrite append_nil_r.
Qed.

Lemma frame_log_token rid layer ids ws k : keeps frame (log_token rid layer ids ws k).
Proof.
  unfold log_token.
  repeat (apply (keeps_bind frame frame_trans);
          [apply keeps_lift, frame_refl|intros ?]).
  apply frame_fh_write.
Qed.

Lemma frame_log_routing_body l layer ids ws rid :
  keeps (fun s s' => request_counter (self s) <= request_counter l -> frame s s')
        (log_routing_body l layer ids ws rid).
Proof.
  intros s Hl. unfold log_routing_body.
  unfold mbind at 1, M_bind at 1, bind at 1, lift at 1.
  destruct (tolist ids) as [ids_cpu|e]; [|apply frame_refl].
  unfold mbind at 1, M_bind at 1, bind at 1, lift at 1.
  destruct (tolist ws) as [ws_cpu|e]; [|apply frame_refl].
  set (pick := match rid with Some r => _ | None => _ end).
  assert (Hpick : frame s (snd (pick s))).
  { subst pick. destruct rid; [apply frame_refl|].
    unfold_monad. cbn. apply (frame_set_counter _ s). lia. }
  unfold mbind at 1, M_bind at 1, bind at 1.
  destruct (pick s) as [[r|e] s1]; cbn [snd] in *; [|done].
  eapply frame_trans; [exact Hpick|].
  revert s1 Hpick. intros s1 _.
  apply (keeps_bind frame frame_trans); [apply keeps_lift, frame_refl|].
  intros n. apply (keeps_bind frame frame_trans).
  - apply keeps_for_each; [apply frame_refl|apply frame_trans|].
    intros k. apply frame_log_token.
  - intros _. apply frame_fh_flush.
Qed.

Lemma frame_log_routing layer ids ws rid : keeps frame (log_routing layer ids ws rid).
Proof.
  intros s. rewrite log_routing_unfold.
  destruct (_ && _); [|apply frame_refl].
  unfold try_except.
  pose proof (frame_log_routing_body (self s) layer ids ws rid s (Nat.le_refl _)) as Hb.
  destruct (log_routing_body _ _ _ _ _ s) as [[[]|e] s1]; cbn [snd] in *; [done|].
  eapply frame_trans; [exact Hb|apply frame_emit].
Qed.

Lemma frame_write_meta_header model_id top_k num_experts device seed :
  keeps frame (write_meta_header model_id top_k num_experts device seed).
Proof.
  intros s. rewrite write_meta_header_unfold.
  destruct (capturing _); [|apply frame_refl].
  apply (keeps_try_except frame frame_trans).
  - unfold write_meta_header_body.
    apply (keeps_bind frame frame_trans); [apply frame_fh_write|].
    intros _. apply frame_fh_flush.
  - intros e. apply frame_emit.
Qed.

(** X1.  Whatever the arguments, the state and the fate of the I/O calls,
    a call of [log_routing] or [write_meta_header] leaves the logger enabled
    or disabled as it was, on the same layer and the same open file; it
    changes no file but the log, and the log only grows: what was in it
    stays, in place.  The same holds of any sequence of batches. *)
Theorem capture_only_appends (s : state) (layer_idx : Z) (topk_ids : tensor Z)
    (topk_weights : tensor Q) (req_id : option string)
    (model_id : string) (top_k num_experts : Z) (device : string)
    (seed : option Z) (calls : list call) :
  frame s (snd (log_routing layer_idx topk_ids topk_weights req_id s)) /\
  frame s (snd (write_meta_header model_id top_k num_experts device seed s)) /\
  frame s (snd (replay calls s)).
Proof.
  split; [apply frame_log_routing|]. split; [apply frame_write_meta_header|].
  apply (keeps_for_each frame frame_refl frame_trans).
  intros c. apply frame_log_routing.
Qed.

(** ** Request numbers *)

Lemma same_counter_refl s : same_counter s s.
Proof. done. Qed.

Lemma same_counter_trans s1 s2 s3 :
  same_counter s1 s2 -> same_counter s2 s3 -> same_counter s1 s3.
Proof. unfold same_counter. congruence. Qed.

Lemma counter_io_call : keeps same_counter io_call.
Proof. intros s. unfold io_call. by destruct (io_plan (env s)) as [|[] ?]. Qed.

Lemma counter_fh_write text : keeps same_counter (fh_write text).
Proof.
  intros s. unfold fh_write. unfold_monad.
  destruct (file_handle (self s)); [|done]. cbv zeta.
  destruct (_ <? _)%N; [done|].
  pose proof (counter_io_call s) as H. by destruct (io_call s) as [[[]|e] s1].
Qed.

Lemma counter_fh_flush : keeps same_counter fh_flush.
Proof.
  intros s. unfold fh_flush. unfold_monad.
  destruct (file_handle (self s)); [|done].
  pose proof (counter_io_call s) as H. by destruct (io_call s) as [[[]|e] s1].
Qed.

Lemma counter_log_token rid layer ids ws k :
  keeps same_counter (log_token rid layer ids ws k).
Proof.
  unfold log_token.
  repeat (apply (keeps_bind same_counter same_counter_trans);
          [apply keeps_lift, same_counter_refl|intros ?]).
  apply counter_fh_write.
Qed.

Lemma counter_log_routing_body s layer ids ws rid :
  request_counter (self (snd (log_routing_body (self s) layer ids ws rid s)))
  = if converts ids ws then next_counter rid (self s) else request_counter (self s).
Proof.
  unfold log_routing_body.
  destruct ids as [ids|e]; [|done]. destruct ws as [ws|e]; [|done].
  cbn [converts tolist].
  unfold mbind at 1 2, M_bind at 1 2, bind at 1 2, lift at 1 2.
  set (pick := match rid with Some r => _ | None => _ end).
  assert (Hpick : request_counter (self (snd (pick s))) = next_counter rid (self s)
                  /\ exists r, fst (pick s) = Ok r).
  { subst pick. destruct rid; unfold_monad; cbn; eauto. }
  unfold mbind at 1, M_bind at 1, bind at 1.
  destruct (pick s) as [[r|e] s1]; cbn [fst snd] in *;
    [|by destruct Hpick as [_ [? ?]]].
  destruct Hpick as [<- _].
  apply (keeps_bind same_counter same_counter_trans);
    [apply keeps_lift, same_counter_refl|].
  intros n. apply (keeps_bind same_counter same_counter_trans).
  - apply keeps_for_each;
      [apply same_counter_refl|apply same_counter_trans|].
    intros k. apply counter_log_token.
  - intros _. apply counter_fh_flush.
Qed.

Lemma str_of_nat_inj m n : PyStr.str_of_nat m = PyStr.str_of_nat n -> m = n.
Proof.
  unfold PyStr.str_of_nat. intros H.
  apply DecimalNat.Unsigned.to_uint_inj.
  assert (Hs : forall k, NilZero.uint_of_string (NilZero.string_of_uint (Nat.to_uint k))
                         = Some (Nat.to_uint k)).
  { intros k. apply NilZero.usu.
    rewrite <- (DecimalNat.Unsigned.of_to k), DecimalNat.Unsigned.to_of.
    apply unorm_nonnil. }
  pose proof (Hs m) as Hm. rewrite H, Hs in Hm. congruence.
Qed.

(** X2.  Request numbers.  A call of [log_routing] that reaches the update
    of the counter (logger capturing, layer logged, both tensors converted)
    and was given no request id uses up exactly one request number, whether
    or not the batch could be written afterwards.  Every other call leaves
    the counter alone: one that returns at a guard, one whose tensor
    conversion raises, one with a request id; so does [write_meta_header].
    Different numbers give different generated ids. *)
Theorem request_numbers (s : state) (layer_idx : Z) (topk_ids : tensor Z)
    (topk_weights : tensor Q) (req_id : option string)
    (model_id : string) (top_k num_experts : Z) (device : string)
    (seed : option Z) :
  request_counter (self (snd (log_routing layer_idx topk_ids topk_weights req_id s)))
  = (if capturing (self s) && (layer_idx =? logged_layer (self s))%Z
        && converts topk_ids topk_weights
     then match req_id with
          | None => S (request_counter (self s))
          | Some _ => request_counter (self s)
          end
     else request_counter (self s)) /\
  request_counter (self (snd (write_meta_header model_id top_k num_experts device
                                                seed s)))
  = request_counter (self s) /\
  (forall m n, "r" ++ PyStr.str_of_nat m = "r" ++ PyStr.str_of_nat n -> m = n).
Proof.
  split; [|split].
  - rewrite log_routing_unfold. destruct (_ && _); [|done].
    unfold try_except. cbn [andb].
    pose proof (counter_log_routing_body s layer_idx topk_ids topk_weights req_id) as Hb.
    fold (next_counter req_id (self s)).
    destruct (log_routing_body _ _ _ _ _ s) as [[[]|e] s1]; exact Hb.
  - rewrite write_meta_header_unfold. destruct (capturing _); [|done].
    apply (keeps_try_except same_counter same_counter_trans); [|done].
    unfold write_meta_header_body.
    apply (keeps_bind same_counter same_counter_trans); [apply counter_fh_write|].
    intros _. apply counter_fh_flush.
  - intros m n H. apply str_of_nat_inj. by inversion H.
Qed.

Example request_number_kept_on_conversion_error :
  let s := State sample_logger (sample_world []) in
  let out := log_routing 0 (Faulty AttributeError) (tensor2 [[(7#10)%Q; (3#10)%Q]])
                         None s in
  fst out = Ok tt /\
  request_counter (self (snd out)) = 0 /\
  diagnostics (env (snd out))
  = [Diagnostic ERROR "Failed to log MoE routing" (Some AttributeError)] /\
  disk (env (snd out)) = disk (env s).
Proof. cbv zeta. repeat split; vm_compute; reflexivity. Qed.

(** ** A batch that fails half-way *)

Lemma log_tokens_short req_id layer_idx (all_ids : list (list Z))
    (all_ws : list (list Q)) :
  forall (ids : list (list Z)) (ws : list (list Q)) (start : nat) (s : state) h,
    file_handle (self s) = Some h -> io_plan (env s) = [] ->
    drop start all_ids = ids -> drop start all_ws = ws ->
    length ws < length ids ->
    for_each (seq start (length ids))
             (log_token req_id layer_idx (rows2 all_ids) (rows2 all_ws)) s
    = (Raise IndexError,
       buffered (jsonl (batch_records req_id layer_idx start ids ws)) s).
Proof.
  induction ids as [|row ids IH]; intros ws start s h Hh Hp Hi Hw Hlen.
  - simpl in Hlen. lia.
  - cbn [length seq for_each]. unfold_monad.
    assert (Hri : all_ids !! start = Some row).
    { rewrite <- (Nat.add_0_r start), <- lookup_drop, Hi. done. }
    unfold log_token at 1. unfold_monad. unfold rows2 at 1 2.
    cbn [py_getitem]. rewrite !list_lookup_fmap, Hri.
    destruct ws as [|wrow ws].
    + assert (Hrw : all_ws !! start = None).
      { rewrite <- (Nat.add_0_r start), <- lookup_drop, Hw. done. }
      rewrite Hrw. cbn [fmap option_fmap option_map batch_records jsonl fold_right].
      by rewrite (buffered_nil _ _ Hh).
    + assert (Hrw : all_ws !! start = Some wrow).
      { rewrite <- (Nat.add_0_r start), <- lookup_drop, Hw. done. }
      rewrite Hrw.
      cbn [fmap option_fmap option_map py_iter batch_records].
      rewrite round_all_row, ids_to_json_row.
      rewrite (fh_write_ok _ _ _ Hh Hp).
      destruct (buffered_handle
                  (dumps (route_record req_id start layer_idx (JList (map JInt row))
                            (map (fun w => JFloat (round6 w)) wrow)) ++ newline)
                  s h Hh) as [Hh' He'].
      rewrite (IH ws (S start) _ _ Hh').
      * rewrite buffered_twice. cbn [jsonl fold_right]. by rewrite append_assoc.
      * by rewrite He'.
      * erewrite drop_S in Hi by done. by inversion Hi.
      * erewrite drop_S in Hw by done. by inversion Hw.
      * simpl in Hlen. lia.
Qed.

(** X3.  A batch whose weight tensor has fewer rows than its id tensor fails
    at the first row without weights: the call returns, one [IndexError] is
    reported and the request number is used up.  The records of the rows
    before the failure are not lost: as long as they fit the buffer of the
    file they stay there, with the file unchanged, and in any case the next
    batch that goes through leaves them in the file in front of its own
    records. *)
Theorem torn_batch_stays_buffered (s : state) (h : file_object) (layer_idx : Z)
    (ids : list (list Z)) (ws : list (list Q)) (rid : option string) :
  enabled (self s) = true -> file_handle (self s) = Some h ->
  io_plan (env s) = [] -> layer_idx = logged_layer (self s) ->
  length ws < length ids ->
  let out := log_routing layer_idx (tensor2 ids) (tensor2 ws) rid s in
  let torn := batch_records (next_req_id rid (self s)) layer_idx 0 ids ws in
  fst out = Ok tt /\
  length torn = length ws /\
  diagnostics (env (snd out))
    = (diagnostics (env s)
       ++ [Diagnostic ERROR "Failed to log MoE routing" (Some IndexError)])%list /\
  request_counter (self (snd out)) = next_counter rid (self s) /\
  ((N.of_nat (String.length (f_buffer h ++ jsonl torn)) < CHUNK_SIZE)%N ->
   file_handle (self (snd out))
     = Some (FileObject (f_name h) (f_buffer h ++ jsonl torn)) /\
   disk (env (snd out)) = disk (env s)) /\
  forall ids2 ws2 rid2, length ids2 <= length ws2 ->
    file_text (snd (log_routing layer_idx (tensor2 ids2) (tensor2 ws2) rid2 (snd out)))
              (f_name h)
    = file_text s (f_name h) ++ f_buffer h ++ jsonl torn
      ++ jsonl (batch_records (next_req_id rid2 (self (snd out))) layer_idx 0 ids2 ws2).
Proof.
  intros He Hh Hp Hl Hlen out torn.
  set (s1 := State (set_request_counter (next_counter rid (self s)) (self s)) (env s)).
  assert (Hbody : log_routing_body (self s) layer_idx (tensor2 ids) (tensor2 ws) rid s
                  = (Raise IndexError, buffered (jsonl torn) s1)).
  { unfold log_routing_body.
    assert (Hs1 :
      (match rid with
       | Some r => mret r
       | None =>
           set_self (set_request_counter (S (request_counter (self s)))) ≫= λ _,
           mret ("r" ++ PyStr.str_of_nat (request_counter (self s)))
       end) s = (Ok (next_req_id rid (self s)), s1)).
    { subst s1. destruct rid; unfold_monad; cbn [next_req_id next_counter]; [|done].
      destruct s as [[] ?]; reflexivity. }
    unfold tensor2. cbn [tolist].
    unfold mbind at 1 2, M_bind at 1 2, bind at 1 2, lift at 1 2.
    unfold mbind at 1, M_bind at 1, bind at 1. rewrite Hs1.
    unfold_monad. unfold rows2 at 1. cbn [py_len]. rewrite length_map.
    assert (Hh1 : file_handle (self s1) = Some h) by done.
    assert (Hp1 : io_plan (env s1) = []) by done.
    by rewrite (log_tokens_short _ _ ids ws ids ws 0 s1 h Hh1 Hp1 eq_refl eq_refl Hlen). }
  assert (Hh1 : file_handle (self s1) = Some h) by done.
  assert (Hbuf : buffered (jsonl torn) s1 =
    State (set_file_handle (Some (FileObject (f_name h) (f_buffer h ++ jsonl torn)))
                           (self s1)) (env s)).
  { unfold buffered. by rewrite Hh1. }
  assert (Hout : out = (Ok tt,
    State (self (buffered (jsonl torn) s1))
          (set_diagnostics
             (diagnostics (env s)
              ++ [Diagnostic ERROR "Failed to log MoE routing" (Some IndexError)])
             (env s)))).
  { subst out.
    rewrite (log_routing_reports layer_idx (tensor2 ids) (tensor2 ws) rid s IndexError
               (buffered (jsonl torn) s1)); try done.
    - by rewrite Hbuf.
    - unfold capturing. by rewrite He, Hh. }
  rewrite Hout, Hbuf. cbn [fst snd self env].
  split; [done|]. split.
  { subst torn. clear -Hlen. revert ws Hlen. generalize 0.
    induction ids as [|row ids IH]; intros n [|wrow ws] Hlen; simpl in *;
      try lia; try done.
    rewrite IH; lia. }
  split; [done|]. split; [done|]. split; [done|].
  intros ids2 ws2 rid2 Hlen2.
  rewrite (log_routing_ok _ (FileObject (f_name h) (f_buffer h ++ jsonl torn))
             layer_idx ids2 ws2 rid2); try done.
  unfold flushed_batch, file_text. cbn [snd env disk set_disk f_name f_buffer].
  rewrite lookup_insert_eq. by rewrite !append_assoc.
Qed.

Lemma torn_batch_stays_buffered_witness :
  let s := State sample_logger (sample_world []) in
  let out := log_routing 0 (tensor2 two_rows_ids) (tensor2 [[(7#10)%Q; (3#10)%Q]])
                         None s in
  file_handle (self (snd out))
    = Some (FileObject "moe_routes.jsonl"
              (jsonl [JObj [ ("type", JStr "route"); ("req_id", JStr "r0");
                             ("token_idx", JInt 0); ("layer", JInt 0);
                             ("topk_ids", JList [JInt 2; JInt 0]);
                             ("topk_weights", JList [JFloat 700000; JFloat 300000]) ]])) /\
  disk (env (snd out)) = disk (env s) /\
  request_counter (self (snd out)) = 1.
Proof.
  destruct (torn_batch_stays_buffered (State sample_logger (sample_world []))
              (FileObject "moe_routes.jsonl" "") 0 two_rows_ids
              [[(7#10)%Q; (3#10)%Q]] None eq_refl eq_refl eq_refl eq_refl)
    as (_ & _ & _ & Hc & Hb & _).
  - simpl. lia.
  - destruct Hb as [Hb Hd]; [reflexivity|].
    split; [exact Hb|]. split; [exact Hd|exact Hc].
Defined.

(** ** Construction *)

Lemma init_unfold (s : state) :
  __init__ s =
    let path := default "" (environ (env s) !! "VLLM_LOG_MOE") in
    let layer_str := default "0" (environ (env s) !! "VLLM_LOG_MOE_LAYER") in
    let fresh := Build_MoELogger false None None 0 0 in
    if String.eqb path "" then (Ok tt, State fresh (env s))
    else
      match io_plan (env s) with
      | true :: plan =>
          (Ok tt,
           State (set_log_file (Some path) fresh)
                 (set_diagnostics
                    (diagnostics (env s)
                     ++ [Diagnostic ERROR "Failed to initialize MoE logger" (Some OSError)])
                    (set_io_plan plan (env s))))
      | plan =>
          (Ok tt,
           State (Build_MoELogger true (Some path) (Some (FileObject path ""))
                    (match py_int layer_str with Ok z => z | Raise _ => 0%Z end) 0)
                 (World (<[path := ""]> (disk (env s))) (environ (env s))
                    (torch_version (env s)) (vllm_version (env s))
                    (diagnostics (env s)
                     ++ match py_int layer_str with
                        | Ok _ => []
                        | Raise _ =>
                            [Diagnostic WARNING
                               "Invalid VLLM_LOG_MOE_LAYER value. Using default layer 0."
                               None]
                        end
                     ++ [Diagnostic INFO "MoE logging enabled." None])
                    (tail plan)))
      end.
Proof.
  unfold __init__. unfold_monad. cbn [self env]. cbv zeta.
  destruct (String.eqb _ ""); [done|].
  unfold try_except, open_w, io_call. unfold_monad. cbn [self env].
  destruct (io_plan (env s)) as [|[] plan] eqn:Hplan; cbn; try done;
    (destruct (py_int_result (default "0" (environ (env s) !! "VLLM_LOG_MOE_LAYER")))
       as [[z ->]| ->]; cbn;
     unfold set_logged_layer, set_enabled, set_file_handle, set_log_file,
       set_diagnostics, set_disk, set_io_plan; cbn; rewrite ?Hplan;
     [done|by rewrite <- app_assoc]).
Qed.

(** X4.  What [__init__] leaves, for every environment and fate of the I/O
    calls.  It never raises and the counter starts at zero.  The logger is
    enabled exactly when [VLLM_LOG_MOE] is set to a non-empty path and the
    file could be opened; it then holds that file open, created or emptied,
    and no other file is touched.  Otherwise it holds no file, logs layer 0
    and the files are as they were; a failed [open] is reported once. *)
Theorem init_outcome (s : state) :
  let path := default "" (environ (env s) !! "VLLM_LOG_MOE") in
  let s' := snd (__init__ s) in
  fst (__init__ s) = Ok tt /\
  request_counter (self s') = 0 /\
  enabled (self s') = negb (String.eqb path "") && negb (next_io_fails (env s)) /\
  (enabled (self s') = true ->
     log_file (self s') = Some path /\
     file_handle (self s') = Some (FileObject path "") /\
     disk (env s') = <[path := ""]> (disk (env s))) /\
  (enabled (self s') = false ->
     file_handle (self s') = None /\ logged_layer (self s') = 0%Z /\
     disk (env s') = disk (env s) /\
     diagnostics (env s') =
       (diagnostics (env s)
        ++ if String.eqb path "" then []
           else [Diagnostic ERROR "Failed to initialize MoE logger" (Some OSError)])%list).
Proof.
  cbv zeta. rewrite init_unfold. cbv zeta. unfold next_io_fails.
  destruct (String.eqb _ "") eqn:Hp; cbn.
  - repeat split; try done. by rewrite app_nil_r.
  - destruct (io_plan (env s)) as [|[] plan]; cbn; repeat split; done.
Qed.

(** ** The layer to log *)

Lemma digit_not_int_space c : PyStr.is_digit c = true -> int_space c = false.
Proof. destruct c as [[] [] [] [] [] [] [] []]; vm_compute; intros; done. Qed.

Lemma int_space_text_char c : int_space c = true -> int_text_char c = true.
Proof. destruct c as [[] [] [] [] [] [] [] []]; vm_compute; intros; done. Qed.

Lemma int_space_not_digit c : int_space c = true -> PyStr.is_digit c = false.
Proof. destruct c as [[] [] [] [] [] [] [] []]; vm_compute; intros; done. Qed.

Lemma int_rstrip_clean s :
  all_chars (fun c => negb (int_space c)) s = true -> int_rstrip s = s.
Proof.
  induction s as [|c s IH]; [done|]. cbn [all_chars int_rstrip].
  intros [Hc Hs]%andb_true_iff. rewrite (IH Hs).
  apply negb_true_iff in Hc. rewrite Hc. by destruct s.
Qed.

Lemma int_strip_clean s :
  all_chars (fun c => negb (int_space c)) s = true -> int_rstrip (int_lstrip s) = s.
Proof.
  intros Hs.
  assert (int_lstrip s = s) as ->; [|by apply int_rstrip_clean].
  destruct s as [|c s]; [done|]. cbn [all_chars] in Hs.
  apply andb_true_iff in Hs as [Hc _]. apply negb_true_iff in Hc.
  cbn [int_lstrip]. by rewrite Hc.
Qed.

Lemma int_digits_digits ds b :
  all_chars PyStr.is_digit ds = true -> (b = true \/ ds <> "") ->
  int_digits ds b = Some ds.
Proof.
  revert b. induction ds as [|c ds IH]; intros b Hd Hb.
  - destruct Hb as [->|]; done.
  - cbn [all_chars] in Hd. apply andb_true_iff in Hd as [Hc Hd].
    cbn [int_digits]. rewrite Hc, (IH true); auto.
Qed.

Lemma str_of_Z_abs z :
  PyStr.str_of_Z z = sign_text (z <? 0)%Z ++ PyStr.str_of_Z (Z.abs z).
Proof. by destruct z. Qed.

(** What [int] makes of the decimal text of an int, by the number of its
    digits. *)
Lemma py_int_str_of_Z z :
  py_int (PyStr.str_of_Z z) =
    if (INT_MAX_STR_DIGITS <? N.of_nat (String.length (PyStr.str_of_Z (Z.abs z))))%N
    then Raise ValueError else Ok z.
Proof.
  rewrite (str_of_Z_abs z).
  destruct (str_of_Z_spec (Z.abs z)) as (ds & Hs & [Hd (c & r & -> & Hz)] & Hv).
  assert (Hnn : (Z.abs z <? 0)%Z = false) by lia.
  rewrite Hnn in Hs. cbn [sign_text String.append] in Hs. rewrite Hs.
  assert (Hc : PyStr.is_digit c = true).
  { cbn [all_chars] in Hd. by apply andb_true_iff in Hd as [? _]. }
  assert (Hclean : all_chars (fun c => negb (int_space c)) (String c r) = true).
  { eapply all_chars_impl; [|exact Hd]. intros x Hx.
    by rewrite (digit_not_int_space x Hx). }
  unfold py_int. rewrite int_strip_clean.
  - destruct (is_digit_not_special c Hc) as (Hm & Hp & _).
    destruct (z <? 0)%Z eqn:Hneg; cbn [sign_text String.append].
    + change (Ascii.eqb "-" "-") with true. cbv iota.
      rewrite int_digits_digits by auto. rewrite Hv.
      destruct (_ <? _)%N; [done|]. f_equal. lia.
    + rewrite Hm, Hp. rewrite int_digits_digits by auto. rewrite Hv.
      destruct (_ <? _)%N; [done|]. f_equal. lia.
  - rewrite all_chars_app, Hclean, andb_true_r. by destruct (z <? 0)%Z.
Qed.

Lemma all_chars_int_lstrip p s :
  (forall c, int_space c = true -> p c = true) ->
  all_chars p (int_lstrip s) = all_chars p s.
Proof.
  intros Hp. induction s as [|c s IH]; [done|]. cbn [int_lstrip all_chars].
  destruct (int_space c) eqn:Hc; [|done]. by rewrite IH, (Hp c Hc).
Qed.

Lemma all_chars_int_rstrip p s :
  (forall c, int_space c = true -> p c = true) ->
  all_chars p (int_rstrip s) = all_chars p s.
Proof.
  intros Hp. induction s as [|c s IH]; [done|]. cbn [int_rstrip all_chars].
  rewrite <- IH. destruct (int_rstrip s) as [|d t].
  - destruct (int_space c) eqn:Hc; cbn [all_chars]; [|done].
    by rewrite (Hp c Hc).
  - done.
Qed.

Lemma int_digits_chars body b ds :
  int_digits body b = Some ds ->
  all_chars int_text_char body = true /\
  (b = false -> exists c r, body = String c r /\ PyStr.is_digit c = true).
Proof.
  revert b ds. induction body as [|c body IH]; intros b ds; cbn [int_digits].
  - destruct b; [|done]. intros _. split; [done|]. done.
  - destruct (PyStr.is_digit c) eqn:Hc.
    + destruct (int_digits body true) as [ds'|] eqn:Hb; [|done]. intros _.
      destruct (IH _ _ Hb) as [Hall _]. split; [|by eauto].
      cbn [all_chars]. rewrite Hall. unfold int_text_char. by rewrite Hc.
    + destruct (Ascii.eqb c "_") eqn:Hu; [|done]. destruct b; [|done].
      cbn [andb]. intros Hb. destruct (IH _ _ Hb) as [Hall _].
      split; [|done]. cbn [all_chars]. rewrite Hall. unfold int_text_char.
      rewrite Hu. by rewrite !orb_true_r.
Qed.

(** A text [int] accepts holds a digit, and nothing but digits, signs,
    underscores and white space. *)
Lemma py_int_accepts text z :
  py_int text = Ok z ->
  all_chars int_text_char text = true /\
  all_chars (fun c => negb (PyStr.is_digit c)) text = false.
Proof.
  unfold py_int. intros H.
  rewrite <- (all_chars_int_lstrip int_text_char text) by apply int_space_text_char.
  rewrite <- (all_chars_int_rstrip int_text_char (int_lstrip text))
    by apply int_space_text_char.
  rewrite <- (all_chars_int_lstrip (fun c => negb (PyStr.is_digit c)) text)
    by (intros c Hc; by rewrite (int_space_not_digit c Hc)).
  rewrite <- (all_chars_int_rstrip (fun c => negb (PyStr.is_digit c)) (int_lstrip text))
    by (intros c Hc; by rewrite (int_space_not_digit c Hc)).
  destruct (int_rstrip (int_lstrip text)) as [|c r].
  - by cbn in H.
  - assert (Hbody : forall body ds, int_digits body false = Some ds ->
                      all_chars int_text_char body = true /\
                      all_chars (fun c => negb (PyStr.is_digit c)) body = false).
    { intros body ds Hb. destruct (int_digits_chars _ _ _ Hb) as [Ha Hd].
      split; [exact Ha|]. destruct (Hd eq_refl) as (d & t & -> & Hdig).
      cbn [all_chars]. by rewrite Hdig. }
    destruct (Ascii.eqb c "-") eqn:Hm; [|destruct (Ascii.eqb c "+") eqn:Hp].
    + destruct (int_digits r false) as [ds|] eqn:Hb; [|done].
      destruct (Hbody _ _ Hb) as [Ha Hd]. cbn [all_chars]. rewrite Ha, Hd.
      apply Ascii.eqb_eq in Hm as ->. done.
    + destruct (int_digits r false) as [ds|] eqn:Hb; [|done].
      destruct (Hbody _ _ Hb) as [Ha Hd]. cbn [all_chars]. rewrite Ha, Hd.
      apply Ascii.eqb_eq in Hp as ->. done.
    + destruct (int_digits (String c r) false) as [ds|] eqn:Hb; [|done].
      exact (Hbody _ _ Hb).
Qed.

Lemma py_int_rejects text :
  all_chars int_text_char text = false \/
  all_chars (fun c => negb (PyStr.is_digit c)) text = true ->
  py_int text = Raise ValueError.
Proof.
  intros Hbad. destruct (py_int_result text) as [[z Hz]|H]; [|exact H].
  destruct (py_int_accepts text z Hz) as [Ha Hd].
  destruct Hbad as [Hbad|Hbad]; congruence.
Qed.

(** X5.  The layer to log.  When the logger comes up enabled, the layer is
    what [int] makes of [VLLM_LOG_MOE_LAYER]: 0 when the variable is absent,
    and [z] when it holds the decimal text of [z] in at most 4300 digits.
    The layer is 0 again, with one warning, when the text has no digit, when
    it has a character that is neither a digit, a sign, an underscore nor
    white space of [int] (U+001C, say, which [str.strip] would remove), and
    when it is a number of more than 4300 digits.  The logger stays enabled
    in every case. *)
Theorem init_layer (s : state) (path : string) :
  environ (env s) !! "VLLM_LOG_MOE" = Some path -> path <> "" ->
  next_io_fails (env s) = false ->
  let s' := snd (__init__ s) in
  let warning :=
    Diagnostic WARNING "Invalid VLLM_LOG_MOE_LAYER value. Using default layer 0." None in
  let info := Diagnostic INFO "MoE logging enabled." None in
  let digits z := N.of_nat (String.length (PyStr.str_of_Z (Z.abs z))) in
  enabled (self s') = true /\
  (environ (env s) !! "VLLM_LOG_MOE_LAYER" = None ->
     logged_layer (self s') = 0%Z /\
     diagnostics (env s') = (diagnostics (env s) ++ [info])%list) /\
  (forall z, environ (env s) !! "VLLM_LOG_MOE_LAYER" = Some (PyStr.str_of_Z z) ->
     (digits z <= 4300)%N ->
     logged_layer (self s') = z /\
     diagnostics (env s') = (diagnostics (env s) ++ [info])%list) /\
  (forall text, environ (env s) !! "VLLM_LOG_MOE_LAYER" = Some text ->
     all_chars (fun c => negb (PyStr.is_digit c)) text = true \/
     all_chars int_text_char text = false \/
     (exists z, text = PyStr.str_of_Z z /\ (4300 < digits z)%N) ->
     logged_layer (self s') = 0%Z /\
     diagnostics (env s') = (diagnostics (env s) ++ [warning; info])%list).
Proof.
  intros Hp Hne Hio. cbv zeta. rewrite init_unfold. cbv zeta.
  rewrite Hp. cbn [default from_option id].
  destruct (String.eqb_spec path "") as [|_]; [done|].
  unfold next_io_fails in Hio.
  assert (Hbad : forall text,
    all_chars (fun c => negb (PyStr.is_digit c)) text = true \/
    all_chars int_text_char text = false \/
    (exists z, text = PyStr.str_of_Z z /\
               (4300 < N.of_nat (String.length (PyStr.str_of_Z (Z.abs z))))%N) ->
    py_int text = Raise ValueError).
  { intros text [H|[H|(z & -> & H)]]; [apply py_int_rejects; auto..|].
    rewrite py_int_str_of_Z. unfold INT_MAX_STR_DIGITS.
    by destruct (N.ltb_spec 4300 (N.of_nat (String.length (PyStr.str_of_Z (Z.abs z)))));
      [|lia]. }
  assert (Hgood : forall z,
    (N.of_nat (String.length (PyStr.str_of_Z (Z.abs z))) <= 4300)%N ->
    py_int (PyStr.str_of_Z z) = Ok z).
  { intros z H. rewrite py_int_str_of_Z. unfold INT_MAX_STR_DIGITS.
    by destruct (N.ltb_spec 4300 (N.of_nat (String.length (PyStr.str_of_Z (Z.abs z)))));
      [lia|]. }
  assert (Hzero : py_int "0" = Ok 0%Z) by (vm_compute; reflexivity).
  destruct (io_plan (env s)) as [|[] plan]; [|done|];
    cbn [snd self env enabled logged_layer diagnostics];
    (split; [done|]; split; [|split]).
  all: try (intros ->; cbn [default from_option id]; by rewrite Hzero).
  all: try (intros z -> Hz; cbn [default from_option id]; by rewrite (Hgood z Hz)).
  all: intros text -> H; cbn [default from_option id]; by rewrite (Hbad text H).
Qed.

Lemma init_layer_witness :
  let s := State (Build_MoELogger false None None 0 0)
                 (World ∅ {[ "VLLM_LOG_MOE" := "out.jsonl";
                             "VLLM_LOG_MOE_LAYER" := String "028" "5" ]}
                        None None [] []) in
  enabled (self (snd (__init__ s))) = true /\
  logged_layer (self (snd (__init__ s))) = 0%Z /\
  length (diagnostics (env (snd (__init__ s)))) = 2.
Proof.
  destruct (init_layer
              (State (Build_MoELogger false None None 0 0)
                 (World ∅ {[ "VLLM_LOG_MOE" := "out.jsonl";
                             "VLLM_LOG_MOE_LAYER" := String "028" "5" ]}
                        None None [] []))
              "out.jsonl") as (He & _ & _ & Hbad).
  - vm_compute. reflexivity.
  - discriminate.
  - reflexivity.
  - destruct (Hbad (String "028" "5")) as [Hl Hd].
    + vm_compute. reflexivity.
    + right. left. vm_compute. reflexivity.
    + split; [exact He|]. split; [exact Hl|]. by rewrite Hd.
Defined.

(** ** Closing *)

Lemma close_unfold (s : state) :
  close s =
    match file_handle (self s) with
    | None => (Ok tt, s)
    | Some h =>
        (Ok tt,
         State (Build_MoELogger false (log_file (self s)) None (logged_layer (self s))
                  (request_counter (self s)))
               (match io_plan (env s) with
                | true :: plan =>
                    set_diagnostics
                      (diagnostics (env s)
                       ++ [Diagnostic ERROR "Failed to close MoE log file" (Some OSError)])
                      (set_io_plan plan (env s))
                | plan =>
                    World (<[f_name h := file_text s (f_name h) ++ f_buffer h]>
                             (disk (env s)))
                          (environ (env s)) (torch_version (env s))
                          (vllm_version (env s)) (diagnostics (env s)) (tail plan)
                end))
    end.
Proof.
  unfold close. unfold_monad.
  destruct (file_handle (self s)) as [h|] eqn:Hh; cbn [is_none]; [|done].
  unfold try_except, fh_close, fh_flush, io_call, file_text. unfold_monad. rewrite Hh.
  destruct (io_plan (env s)) as [|[] plan] eqn:Hplan; cbn;
    unfold set_enabled, set_file_handle, set_disk, set_diagnostics, set_io_plan; cbn;
    rewrite ?Hplan; done.
Qed.

(** X6.  What [close] leaves, for every state and fate of the I/O calls.  It
    never raises.  With a file open, what was still buffered is appended to
    the file, unless the operation fails, in which case the buffer is lost
    and the failure reported; either way the logger ends disabled and without
    a file.  Closing again changes nothing, and from then on [log_routing]
    and [write_meta_header] do nothing. *)
Theorem close_outcome (s : state) :
  let s' := snd (close s) in
  fst (close s) = Ok tt /\
  file_handle (self s') = None /\
  (forall h, file_handle (self s) = Some h ->
     enabled (self s') = false /\
     (next_io_fails (env s) = false ->
        disk (env s') = <[f_name h := file_text s (f_name h) ++ f_buffer h]> (disk (env s))
        /\ diagnostics (env s') = diagnostics (env s)) /\
     (next_io_fails (env s) = true ->
        disk (env s') = disk (env s) /\
        diagnostics (env s') =
          (diagnostics (env s)
           ++ [Diagnostic ERROR "Failed to close MoE log file" (Some OSError)])%list)) /\
  logged_layer (self s') = logged_layer (self s) /\
  request_counter (self s') = request_counter (self s) /\
  close s' = (Ok tt, s') /\
  forall layer_idx ids ws rid model_id top_k num_experts device seed,
    log_routing layer_idx ids ws rid s' = (Ok tt, s') /\
    write_meta_header model_id top_k num_experts device seed s' = (Ok tt, s').
Proof.
  cbv zeta.
  assert (Hnone : file_handle (self (snd (close s))) = None).
  { rewrite close_unfold. by destruct (file_handle (self s)) eqn:E. }
  split; [rewrite close_unfold; by destruct (file_handle (self s))|].
  split; [exact Hnone|]. split; [|split; [|split; [|split]]].
  - intros h Hh. rewrite close_unfold, Hh. unfold next_io_fails. cbn [snd self env enabled].
    split; [done|].
    destruct (io_plan (env s)) as [|[] plan]; cbn; split; intros; done.
  - rewrite close_unfold. by destruct (file_handle (self s)).
  - rewrite close_unfold. by destruct (file_handle (self s)).
  - rewrite (close_unfold (snd (close s))), Hnone. done.
  - intros *. rewrite log_routing_unfold, write_meta_header_unfold.
    unfold capturing. rewrite Hnone. cbn [is_none negb]. by rewrite andb_false_r.
Qed.

(** ** The singleton *)

Lemma init_returns (s : state) : fst (__init__ s) = Ok tt.
Proof.
  rewrite init_unfold. cbv zeta. destruct (String.eqb _ ""); [done|].
  by destruct (io_plan (env s)) as [|[] ?].
Qed.

Lemma get_instance_stored (c : class_state) (l : MoELogger) :
  _instance c = Some l -> _initialized c = true -> get_instance c = (Ok l, c).
Proof. intros Hi Hn. unfold get_instance. by rewrite Hi, Hn. Qed.

Lemma get_instance_builds (c : class_state) :
  is_none (_instance c) || negb (_initialized c) = true ->
  exists s, __init__ (State (Build_MoELogger false None None 0 0) (outside c)) = (Ok tt, s) /\
            get_instance c = (Ok (self s), ClassState (Some (self s)) true (env s)).
Proof.
  intros Hc. unfold get_instance. rewrite Hc.
  pose proof (init_returns (State (Build_MoELogger false None None 0 0) (outside c))) as Hr.
  destruct (__init__ _) as [[[]|e] s1]; [|done]. by exists s1.
Qed.

(** X7.  [get_instance] always returns a logger and leaves the class
    initialised; once that is so, it returns the stored logger and changes
    nothing: the constructor is not run again, so the log file is not
    reopened (and emptied) and the request counter is not reset. *)
Theorem get_instance_once (c : class_state) :
  exists l,
    fst (get_instance c) = Ok l /\
    _instance (snd (get_instance c)) = Some l /\
    initialised (snd (get_instance c)) /\
    get_instance (snd (get_instance c)) = (Ok l, snd (get_instance c)) /\
    (initialised c -> snd (get_instance c) = c /\ _instance c = Some l).
Proof.
  destruct (is_none (_instance c) || negb (_initialized c)) eqn:Hc.
  - destruct (get_instance_builds c Hc) as (s & _ & ->).
    exists (self s). cbn [fst snd]. split; [done|]. split; [done|].
    split; [split; eauto|]. split; [by apply get_instance_stored|].
    intros [Hn [l Hi]]. by rewrite Hi, Hn in Hc.
  - apply orb_false_iff in Hc as [Hi Hn]. apply negb_false_iff in Hn.
    destruct (_instance c) as [l|] eqn:El; [|done].
    rewrite (get_instance_stored c l El Hn). exists l. cbn [fst snd].
    split; [done|]. split; [done|]. split; [split; eauto|].
    split; [by apply get_instance_stored|done].
Qed.

(** ** Lines the reader cannot use *)

Lemma lstrip_spaces ws : all_chars PyStr.isspace ws = true -> PyStr.lstrip ws = "".
Proof.
  induction ws as [|c ws IH]; [done|]. cbn [all_chars PyStr.lstrip].
  intros [Hc Hw]%andb_true_iff. by rewrite Hc, IH.
Qed.

Lemma read_loop_stops good recs bad more meta routes e :
  Forall2 decodes_to good recs -> decode_line bad = Raise e ->
  read_loop (good ++ bad :: more) meta routes = Raise e.
Proof.
  intros Hgood Hbad. rewrite read_loop_decode.
  assert (decode_lines (good ++ bad :: more) = Raise e) as ->; [|done].
  induction Hgood as [|line rec good recs [Hl [tag Ht]] _ IH].
  - cbn [app decode_lines]. by rewrite Hbad.
  - cbn [app decode_lines]. unfold decode_line at 1. by rewrite Hl, Ht, IH.
Qed.

(** X8.  A blank line stops the reader.  If the lines before it are records
    with a [type], a line holding nothing but white space makes
    [read_moe_log] raise [JSONDecodeError], whatever follows; the records
    read so far are not returned.  This includes an empty line at the end of
    the file. *)
Theorem read_moe_log_blank_line (d : gmap string string) (path text : string)
    (good : list string) (recs : list json) (bad : string) (more : list string) :
  d !! path = Some text ->
  PyStr.iter_lines text = (good ++ bad :: more)%list ->
  Forall2 decodes_to good recs ->
  all_chars PyStr.isspace bad = true ->
  read_moe_log d path = Raise JSONDecodeError.
Proof.
  intros Hd Hlines Hgood Hbad. unfold read_moe_log. rewrite Hd, Hlines.
  apply (read_loop_stops good recs); [done|].
  unfold decode_line, PyStr.strip. by rewrite (lstrip_spaces _ Hbad).
Qed.

Lemma read_moe_log_blank_line_witness :
  read_moe_log {[ "moe_routes.jsonl" := jsonl [sample_route 0] ++ newline ]}
               "moe_routes.jsonl"
  = Raise JSONDecodeError.
Proof.
  apply (read_moe_log_blank_line _ _ (jsonl [sample_route 0] ++ newline)
           [dumps (sample_route 0) ++ newline] [sample_route 0] newline []).
  - apply lookup_singleton_eq.
  - vm_compute. reflexivity.
  - apply Forall2_cons_2; [|apply Forall2_nil_2].
      split; [vm_compute; reflexivity|eexists; vm_compute; reflexivity].
  - reflexivity.
Defined.

(** X9.  A line that is JSON but no record with a [type] stops the reader
    too: [TypeError] when the value is not an object (a list, a number, a
    string, [null]), [KeyError] when it is an object without the key. *)
Theorem read_moe_log_untyped_line (d : gmap string string) (path text : string)
    (good : list string) (recs : list json) (bad : string) (more : list string)
    (v : json) :
  d !! path = Some text ->
  PyStr.iter_lines text = (good ++ bad :: more)%list ->
  Forall2 decodes_to good recs ->
  loads (PyStr.strip bad) = Some v ->
  ((forall kv, v <> JObj kv) -> read_moe_log d path = Raise TypeError) /\
  (forall kv, v = JObj kv -> dict_get "type" kv = None ->
              read_moe_log d path = Raise KeyError).
Proof.
  intros Hd Hlines Hgood Hbad. unfold read_moe_log. rewrite Hd, Hlines. split.
  - intros Hv. apply (read_loop_stops good recs); [done|].
    unfold decode_line. rewrite Hbad. destruct v; try done. by destruct (Hv kv).
  - intros kv -> Hk. apply (read_loop_stops good recs); [done|].
    unfold decode_line. rewrite Hbad. cbn [py_subscript]. by rewrite Hk.
Qed.

Lemma read_moe_log_untyped_line_witness :
  read_moe_log {[ "moe_routes.jsonl" := jsonl [sample_route 0; JList [JInt 1; JInt 2]] ]}
               "moe_routes.jsonl" = Raise TypeError /\
  read_moe_log {[ "moe_routes.jsonl" := jsonl [sample_route 0; JObj [("layer", JInt 0)]] ]}
               "moe_routes.jsonl" = Raise KeyError.
Proof.
  split.
  - refine (proj1 (read_moe_log_untyped_line _ _
              (jsonl [sample_route 0; JList [JInt 1; JInt 2]])
              [dumps (sample_route 0) ++ newline] [sample_route 0]
              (dumps (JList [JInt 1; JInt 2]) ++ newline) []
              (JList [JInt 1; JInt 2]) _ _ _ _) _).
    + apply lookup_singleton_eq.
    + vm_compute. reflexivity.
    + apply Forall2_cons_2; [|apply Forall2_nil_2].
      split; [vm_compute; reflexivity|eexists; vm_compute; reflexivity].
    + vm_compute. reflexivity.
    + discriminate.
  - refine (proj2 (read_moe_log_untyped_line _ _
              (jsonl [sample_route 0; JObj [("layer", JInt 0)]])
              [dumps (sample_route 0) ++ newline] [sample_route 0]
              (dumps (JObj [("layer", JInt 0)]) ++ newline) []
              (JObj [("layer", JInt 0)]) _ _ _ _) [("layer", JInt 0)] eq_refl eq_refl).
    + apply lookup_singleton_eq.
    + vm_compute. reflexivity.
    + apply Forall2_cons_2; [|apply Forall2_nil_2].
      split; [vm_compute; reflexivity|eexists; vm_compute; reflexivity].
    + vm_compute. reflexivity.
Defined.

(** ** Totals of the histogram *)

Lemma list_sum_map_add {A} (f g : A -> nat) (l : list A) :
  list_sum (map (fun i => f i + g i) l) = list_sum (map f l) + list_sum (map g l).
Proof. induction l as [|x l IH]; simpl; lia. Qed.

Lemma list_sum_hit (x : Z) (n : nat) :
  list_sum (map (fun i => if Z.eq_dec x (Z.of_nat i) then 1 else 0) (seq 0 n))
  = if nonneg x && (x <? Z.of_nat n)%Z then 1 else 0.
Proof.
  unfold nonneg. induction n as [|n IH].
  - simpl. destruct (Z.leb_spec 0 x), (Z.ltb_spec x (Z.of_nat 0)); simpl; lia.
  - rewrite seq_S, map_app, list_sum_app, IH. cbn [map list_sum Nat.add].
    destruct (Z.eq_dec x (Z.of_nat n)), (Z.leb_spec 0 x), (Z.ltb_spec x (Z.of_nat n)),
      (Z.ltb_spec x (Z.of_nat (S n))); simpl; lia.
Qed.

Lemma usage_sum (l : list Z) (n : nat) :
  Forall (fun x => (x < Z.of_nat n)%Z) l ->
  list_sum (map (fun i => count_occ Z.eq_dec l (Z.of_nat i)) (seq 0 n))
  = length (List.filter nonneg l).
Proof.
  induction 1 as [|x l Hx _ IH].
  - simpl. induction (seq 0 n); simpl; lia.
  - cbn [count_occ List.filter].
    rewrite (map_ext _ (fun i => (if Z.eq_dec x (Z.of_nat i) then 1 else 0)
                                 + count_occ Z.eq_dec l (Z.of_nat i))).
    + rewrite list_sum_map_add, IH, list_sum_hit.
      apply Z.ltb_lt in Hx. rewrite Hx, andb_true_r.
      destruct (nonneg x); simpl; lia.
    + intros i. by destruct (Z.eq_dec x (Z.of_nat i)).
Qed.

Lemma analyze_total (routes : list json) (idss : list (list Z)) (usage : list nat)
    (counts : gmap Z nat) :
  Forall2 (fun route ids => route_ids route = Ok ids) routes idss ->
  analyze_expert_usage routes = Ok (usage, counts) ->
  list_sum usage = length (List.filter nonneg (concat idss)).
Proof.
  intros H Ha. rewrite (analyze_expert_usage_ok _ _ H) in Ha.
  injection Ha as <- _.
  apply usage_sum.
  destruct (concat idss) as [|x l]; [done|].
  apply Forall_forall. intros y Hy. pose proof (py_max_upper x l y Hy). lia.
Qed.

Lemma filter_nonneg_all (l : list Z) :
  Forall (fun x => (0 <= x)%Z) l -> List.filter nonneg l = l.
Proof.
  induction 1 as [|x l Hx _ IH]; [done|]. cbn [List.filter].
  unfold nonneg at 1. apply Z.leb_le in Hx. by rewrite Hx, IH.
Qed.

Lemma filter_nonneg_none (l : list Z) :
  length (List.filter nonneg l) = 0 <-> Forall (fun x => (x < 0)%Z) l.
Proof.
  induction l as [|x l IH]; [by split|].
  cbn [List.filter]. unfold nonneg at 1. rewrite Forall_cons.
  destruct (Z.leb_spec 0 x); simpl; [split; [lia|intros [? _]; lia]|].
  rewrite IH. tauto.
Qed.

(** X10.  The counts add up.  For routes whose [topk_ids] are lists of
    ints, the entries of the usage array sum to the number of ids that are
    not negative: every id from 0 up is counted once, and negative ids are in
    the counter only.  So the sum is the number of all ids when none is
    negative, and it is zero exactly when no id is 0 or more. *)
Theorem usage_adds_up (routes : list json) (idss : list (list Z))
    (usage : list nat) (counts : gmap Z nat) :
  Forall2 (fun route ids => route_ids route = Ok ids) routes idss ->
  analyze_expert_usage routes = Ok (usage, counts) ->
  list_sum usage = length (List.filter nonneg (concat idss)) /\
  (Forall (fun x => (0 <= x)%Z) (concat idss) ->
   list_sum usage = length (concat idss)) /\
  (list_sum usage = 0 <-> Forall (fun x => (x < 0)%Z) (concat idss)).
Proof.
  intros H Ha. pose proof (analyze_total _ _ _ _ H Ha) as Hs.
  split; [exact Hs|]. rewrite Hs. split.
  - intros Hall. by rewrite filter_nonneg_all.
  - apply filter_nonneg_none.
Qed.

Lemma usage_adds_up_witness :
  exists usage counts,
    analyze_expert_usage sample_routes = Ok (usage, counts) /\ list_sum usage = 6.
Proof.
  exists [3; 2; 1], (Counter [0; 1; 1; 2; 0; 0]%Z).
  assert (Ha : analyze_expert_usage sample_routes
               = Ok ([3; 2; 1], Counter [0; 1; 1; 2; 0; 0]%Z)) by reflexivity.
  split; [exact Ha|].
  refine (proj1 (usage_adds_up sample_routes [[0; 1]; [1; 2]; [0; 0]]%Z _ _ _ Ha)).
  repeat constructor.
Defined.

(** ** From the calls to the histogram *)

Lemma trace_read_back (s : state) (path : string) (model_id : string)
    (top_k num_experts : Z) (device : string) (seed : option Z)
    (calls : list call) :
  enabled (self s) = true ->
  file_handle (self s) = Some (FileObject path "") ->
  disk (env s) !! path = Some "" ->
  io_plan (env s) = [] ->
  Forall (fun c => length (c_ids c) <= length (c_weights c)) calls ->
  read_moe_log
    (disk (env (snd (replay calls
                       (snd (write_meta_header model_id top_k num_experts device
                                               seed s))))))
    path =
    Ok (Some (meta_record (self s) (env s) model_id top_k num_experts device seed),
        expected_routes (logged_layer (self s)) (request_counter (self s)) calls).
Proof.
  intros He Hh Hd Hp Hs.
  set (meta := meta_record (self s) (env s) model_id top_k num_experts device seed).
  set (routes := expected_routes (logged_layer (self s)) (request_counter (self s)) calls).
  set (s1 := snd (write_meta_header model_id top_k num_experts device seed s)).
  assert (Hs1 : s1 = flushed_batch (Some "") [meta] (FileObject path "") s).
  { subst s1. by rewrite (write_meta_header_ok s _ _ _ _ _ _ He Hh Hp). }
  assert (He1 : enabled (self s1) = true) by by rewrite Hs1.
  assert (Hh1 : file_handle (self s1) = Some (FileObject path "")) by by rewrite Hs1.
  assert (Hp1 : io_plan (env s1) = []) by by rewrite Hs1.
  assert (Hd1 : disk (env s1) !! path = Some (jsonl [meta])).
  { rewrite Hs1. unfold flushed_batch, file_text.
    cbn [env disk set_disk f_name f_buffer].
    by rewrite lookup_insert_eq, Hd. }
  destruct (replay_ok path calls s1 (jsonl [meta]) He1 Hh1 Hp1 Hd1 Hs)
    as (s' & Hr & Hd').
  rewrite Hr. cbn [snd].
  unfold read_moe_log. rewrite Hd'.
  replace (logged_layer (self s1)) with (logged_layer (self s)) by by rewrite Hs1.
  replace (request_counter (self s1)) with (request_counter (self s)) by by rewrite Hs1.
  fold routes. rewrite <- jsonl_app, iter_lines_jsonl.
  destruct (routes_decode routes (expected_routes_routes _ _ _)) as (Hdec & Hfr & Hfm).
  rewrite (read_loop_spec _ ([meta] ++ routes)).
  - cbn [app List.filter].
    change (has_tag "meta" meta) with true. change (has_tag "route" meta) with false.
    cbv iota. by rewrite Hfr, Hfm.
  - cbn [app map]. constructor; [|done].
    split; [|by eexists]. apply decode_record_line, meta_record_wf.
Qed.

Lemma ints_of_map (row : list Z) : ints_of (map JInt row) = Ok row.
Proof. induction row as [|z row IH]; [done|]. cbn [map ints_of]. by rewrite IH. Qed.

Lemma batch_records_ids rid layer start ids ws :
  Forall2 (fun route row => route_ids route = Ok row)
          (batch_records rid layer start ids ws) (take (length ws) ids).
Proof.
  revert ws start. induction ids as [|row ids IH]; intros [|wrow ws] start;
    cbn [batch_records length take]; try by constructor.
  constructor; [|apply IH].
  unfold route_ids, route_record. cbn. apply ints_of_map.
Qed.

Lemma expected_routes_ids layer counter calls :
  Forall2 (fun route row => route_ids route = Ok row)
          (expected_routes layer counter calls) (logged_rows layer calls).
Proof.
  unfold logged_rows. revert counter.
  induction calls as [|c calls IH]; intros counter; cbn [expected_routes map concat];
    [by constructor|].
  destruct (c_layer c =? layer)%Z; [|apply IH].
  destruct (c_req_id c); apply Forall2_app; auto using batch_records_ids.
Qed.

(** X11.  From the calls to the histogram.  After the header and any
    sequence of batches of shape [[num_tokens, top_k]] written without I/O
    failure, reading the file and analysing its routes counts every expert
    id handed to [log_routing] at the logged layer exactly once: the counter
    and the usage array hold the number of occurrences of each id among
    those rows, batches of other layers contribute nothing, and
    [total_selections] is the number of ids that are not negative. *)
Theorem histogram_of_capture {F} `{FloatOps F} `{sorter : ArgSort}
    (s : state) (path : string)
    (model_id : string) (top_k num_experts : Z) (device : string) (seed : option Z)
    (calls : list call) :
  enabled (self s) = true ->
  file_handle (self s) = Some (FileObject path "") ->
  disk (env s) !! path = Some "" ->
  io_plan (env s) = [] ->
  Forall (fun c => length (c_ids c) <= length (c_weights c)) calls ->
  let s1 := snd (write_meta_header model_id top_k num_experts device seed s) in
  let s2 := snd (replay calls s1) in
  let ids := concat (logged_rows (logged_layer (self s)) calls) in
  exists meta routes usage counts,
    read_moe_log (disk (env s2)) path = Ok (Some meta, routes) /\
    analyze_expert_usage routes = Ok (usage, counts) /\
    (forall z, default 0 (counts !! z) = count_occ Z.eq_dec ids z) /\
    (forall i, i < length usage ->
               usage !! i = Some (count_occ Z.eq_dec ids (Z.of_nat i))) /\
    list_sum usage = length (List.filter nonneg ids) /\
    (list_sum usage <> 0 ->
     metrics_get "total_selections" (fst (calculate_metrics (F := F) usage))
     = Some (MInt (Z.of_nat (length (List.filter nonneg ids))))).
Proof.
  intros He Hh Hd Hp Hs s1 s2 ids.
  pose proof (expected_routes_ids (logged_layer (self s)) (request_counter (self s)) calls)
    as Hids.
  pose proof (analyze_expert_usage_ok _ _ Hids) as Ha. fold ids in Ha.
  eexists _, _, _, _. split; [by apply trace_read_back|].
  split; [exact Ha|].
  pose proof (analyze_total _ _ _ _ Hids Ha) as Hsum. fold ids in Hsum.
  split; [apply Counter_count|]. split; [|split; [exact Hsum|]].
  - intros i Hi. rewrite length_map, length_seq in Hi.
    by rewrite list_lookup_fmap, lookup_seq_lt.
  - intros Hne. unfold calculate_metrics.
    destruct (Nat.eqb_spec (list_sum (map (fun i => count_occ Z.eq_dec ids (Z.of_nat i))
        (seq 0 match ids with [] => 0 | x :: l => Z.to_nat (py_max x l + 1) end))) 0)
      as [E|_]; [done|].
    cbn [fst metrics_get]. cbn. by rewrite Hsum.
Qed.

Lemma histogram_of_capture_witness :
  let s := snd (__init__ configured_state) in
  let s1 := snd (write_meta_header "Qwen/Qwen1.5-MoE-A2.7B-Chat" 4 60 "cuda"
                                   (Some 1234%Z) s) in
  let s2 := snd (replay sample_calls s1) in
  exists meta routes usage counts,
    read_moe_log (disk (env s2)) "moe_routes.jsonl" = Ok (Some meta, routes) /\
    analyze_expert_usage routes = Ok (usage, counts) /\
    list_sum usage = 8.
Proof.
  destruct (histogram_of_capture (F := fexpr) (snd (__init__ configured_state))
              "moe_routes.jsonl" "Qwen/Qwen1.5-MoE-A2.7B-Chat" 4 60 "cuda"
              (Some 1234%Z) sample_calls)
    as (meta & routes & usage & counts & Hr & Ha & _ & _ & Hsum & _).
  - reflexivity.
  - reflexivity.
  - vm_compute. reflexivity.
  - reflexivity.
  - repeat constructor.
  - exists meta, routes, usage, counts. split; [exact Hr|]. split; [exact Ha|].
    exact Hsum.
Defined.

(** ** A whole session *)

Lemma replay_flushed (path : string) (calls : list call) :
  forall (s : state),
    enabled (self s) = true ->
    file_handle (self s) = Some (FileObject path "") ->
    io_plan (env s) = [] ->
    Forall (fun c => length (c_ids c) <= length (c_weights c)) calls ->
    enabled (self (snd (replay calls s))) = true /\
    file_handle (self (snd (replay calls s))) = Some (FileObject path "") /\
    io_plan (env (snd (replay calls s))) = [].
Proof.
  induction calls as [|c calls IH]; intros s He Hh Hp Hs; [done|].
  apply Forall_cons in Hs as [Hc Hs].
  unfold replay. cbn [for_each]. unfold mbind, M_bind, bind.
  destruct (Z.eqb_spec (c_layer c) (logged_layer (self s))) as [Hl|Hl].
  - rewrite (log_routing_ok s _ _ _ _ (c_req_id c) He Hh Hp Hl Hc).
    by apply IH.
  - rewrite log_routing_unfold.
    assert ((c_layer c =? logged_layer (self s))%Z = false) as -> by by apply Z.eqb_neq.
    rewrite andb_false_r. by apply IH.
Qed.

(** X12.  A whole session.  With [VLLM_LOG_MOE] set to a path and no I/O
    failure, constructing the logger, writing the header, logging any
    sequence of batches of shape [[num_tokens, top_k]] and closing leaves a
    file that holds the header and the routes of this session only,
    whatever the file held before; [close] adds nothing to it, every batch
    having been flushed when its call returned, and the logger ends
    disabled. *)
Theorem capture_session (s : state) (path : string) (model_id : string)
    (top_k num_experts : Z) (device : string) (seed : option Z)
    (calls : list call) :
  environ (env s) !! "VLLM_LOG_MOE" = Some path -> path <> "" ->
  io_plan (env s) = [] ->
  Forall (fun c => length (c_ids c) <= length (c_weights c)) calls ->
  let s0 := snd (__init__ s) in
  let s1 := snd (write_meta_header model_id top_k num_experts device seed s0) in
  let s2 := snd (replay calls s1) in
  let s3 := snd (close s2) in
  read_moe_log (disk (env s3)) path =
    Ok (Some (meta_record (self s0) (env s0) model_id top_k num_experts device seed),
        expected_routes (logged_layer (self s0)) 0 calls) /\
  disk (env s3) = disk (env s2) /\
  enabled (self s3) = false /\ file_handle (self s3) = None.
Proof.
  intros Hv Hne Hp Hs s0 s1 s2 s3.
  destruct (init_with_target s path Hv Hne Hp) as (_ & He0 & Hh0 & Hc0 & Hd0 & Hp0).
  fold s0 in He0, Hh0, Hc0, Hd0, Hp0.
  pose proof (trace_read_back s0 path model_id top_k num_experts device seed calls
                He0 Hh0 Hd0 Hp0 Hs) as Hread.
  fold s1 s2 in Hread. rewrite Hc0 in Hread.
  assert (Hs1 : s1 = flushed_batch (Some "")
                  [meta_record (self s0) (env s0) model_id top_k num_experts device seed]
                  (FileObject path "") s0).
  { subst s1. by rewrite (write_meta_header_ok s0 _ _ _ _ _ _ He0 Hh0 Hp0). }
  assert (He1 : enabled (self s1) = true) by by rewrite Hs1.
  assert (Hh1 : file_handle (self s1) = Some (FileObject path "")) by by rewrite Hs1.
  assert (Hp1 : io_plan (env s1) = []) by by rewrite Hs1.
  destruct (replay_flushed path calls s1 He1 Hh1 Hp1 Hs) as (He2 & Hh2 & Hp2).
  fold s2 in He2, Hh2, Hp2.
  assert (Hd2 : exists text, disk (env s2) !! path = Some text).
  { unfold read_moe_log in Hread. destruct (disk (env s2) !! path); [eauto|done]. }
  destruct Hd2 as [text Hd2].
  assert (Hs3 : disk (env s3) = disk (env s2)).
  { subst s3. rewrite close_unfold, Hh2, Hp2. cbn [snd env disk f_name f_buffer].
    unfold file_text. rewrite Hd2. cbn [default from_option id].
    rewrite append_nil_r. by apply insert_id. }
  rewrite Hs3. split; [exact Hread|]. split; [done|].
  subst s3. rewrite close_unfold, Hh2. done.
Qed.

Lemma capture_session_witness :
  let s0 := snd (__init__ configured_state) in
  let s1 := snd (write_meta_header "Qwen/Qwen1.5-MoE-A2.7B-Chat" 4 60 "cuda"
                                   (Some 1234%Z) s0) in
  let s3 := snd (close (snd (replay sample_calls s1))) in
  read_moe_log (disk (env s3)) "moe_routes.jsonl" =
    Ok (Some (meta_record (self s0) (env s0) "Qwen/Qwen1.5-MoE-A2.7B-Chat" 4 60 "cuda"
                          (Some 1234%Z)),
        expected_routes (logged_layer (self s0)) 0 sample_calls) /\
  enabled (self s3) = false.
Proof.
  destruct (capture_session configured_state "moe_routes.jsonl"
              "Qwen/Qwen1.5-MoE-A2.7B-Chat" 4 60 "cuda" (Some 1234%Z) sample_calls)
    as (Hr & _ & He & _).
  - reflexivity.
  - discriminate.
  - reflexivity.
  - repeat constructor.
  - split; [exact Hr|exact He].
Defined.

(** ** Rounded weights *)

Lemma round_half_even_near (q : Q) :
  (Qabs (inject_Z (round_half_even q) - q) <= 1 # 2)%Q.
Proof.
  apply Qabs_Qle_condition.
  unfold round_half_even. destruct q as [n d]. cbn [Qnum Qden].
  pose proof (Z.div_mod n (Z.pos d) ltac:(lia)) as Hdm.
  pose proof (Z.mod_pos_bound n (Z.pos d) ltac:(lia)) as Hb.
  set (f := (n / Z.pos d)%Z) in *. set (r := (n mod Z.pos d)%Z) in *.
  destruct (Z.compare_spec (2 * r) (Z.pos d)) as [E|E|E];
    [destruct (Z.even f)| |];
    unfold Qle, Qminus, Qplus, Qopp, inject_Z; cbn [Qnum Qden]; split; nia.
Qed.

Lemma round_half_even_integer (z : Z) (d : positive) :
  round_half_even ((z * Z.pos d) # d) = z.
Proof.
  unfold round_half_even. cbn [Qnum Qden].
  rewrite Z.div_mul, Z.mod_mul by lia. simpl. done.
Qed.

(** X13.  Rounded weights.  The value [round(w, 6)] written for a weight
    [w] is within half a millionth of [w], and a weight that is a whole
    number of millionths is written as it is. *)
Theorem round6_accuracy (w : Q) (k : Z) :
  (Qabs (inject_Z (round6 w) - w * 1000000) <= 1 # 2)%Q /\
  round6 (k # 1000000) = k.
Proof.
  split; [apply round_half_even_near|].
  unfold round6, Qmult. cbn [Qnum Qden].
  replace (1000000 * 1)%positive with 1000000%positive by done.
  apply round_half_even_integer.
Qed.

(** ** The analysis script *)

Lemma run_each_print {F A} (f : A -> printed F) (l : list A) (s : session F) :
  run_each l (fun x => print (f x)) s
  = (Ok tt, Session (files s) (stdout s ++ map f l) (saved s) (faults s)).
Proof.
  revert s. induction l as [|x l IH]; intros s.
  - cbn. rewrite app_nil_r. by destruct s.
  - cbn [run_each map]. unfold mbind, Run_bind, print at 1. rewrite IH.
    cbn [files stdout saved faults]. by rewrite <- app_assoc.
Qed.

Lemma usage_items_in_range (usage ids : list nat) :
  Forall (fun i => i < length usage) ids ->
  usage_items usage ids = Ok (map (fun i => (i, count_at usage i)) ids).
Proof.
  induction 1 as [|i ids Hi _ IH]; [done|].
  cbn [usage_items map]. unfold usage_item, count_at.
  apply lookup_lt_is_Some in Hi as [c Hc]. by rewrite Hc, IH.
Qed.

Lemma interpretation_returns {F} `{FloatCompare F} (metrics : list (string * mval F))
    (x : F) :
  metrics_get "normalized_entropy" metrics = Some (MFloat x) ->
  exists text, interpretation metrics = Ok text.
Proof.
  intros Hx. unfold interpretation, metrics_item. rewrite Hx. cbn [py_gt].
  destruct (exceeds x (9 # 10)); [eauto|].
  destruct (exceeds x (7 # 10)); [eauto|].
  destruct (exceeds x (5 # 10)); eauto.
Qed.

Section stepping.
Context {F : Type}.

Lemma step_print {B} (line : printed F) (k : unit -> Run F B) f o sv fl :
  (print line ≫= k) (Session f o sv fl) = k tt (Session f (o ++ [line]) sv fl).
Proof. reflexivity. Qed.

Lemma step_raise {A B} (e : exn) (k : A -> Run F B) (s : session F) :
  (run_lift (Raise e) ≫= k) s = (Raise e, s).
Proof. reflexivity. Qed.

Lemma step_ok {A B} (a : A) (k : A -> Run F B) (s : session F) :
  (run_lift (Ok a) ≫= k) s = k a s.
Proof. reflexivity. Qed.

Lemma step_session {B} (k : session F -> Run F B) (s : session F) :
  (run_session ≫= k) s = k s s.
Proof. reflexivity. Qed.

Lemma step_io {B} (k : unit -> Run F B) f o sv :
  (run_io ≫= k) (Session f o sv []) = k tt (Session f o sv []).
Proof. reflexivity. Qed.

Lemma step_save {B} (file : string) (a : artifact F) (k : unit -> Run F B) f o sv fl :
  (save file a ≫= k) (Session f o sv fl) = k tt (Session f o (<[file := a]> sv) fl).
Proof. reflexivity. Qed.

Lemma step_each {A B} (g : A -> printed F) (l : list A) (k : unit -> Run F B)
    f o sv fl :
  (run_each l (fun x => print (g x)) ≫= k) (Session f o sv fl)
  = k tt (Session f (o ++ map g l) sv fl).
Proof.
  unfold mbind at 1, Run_bind at 1. by rewrite run_each_print.
Qed.
End stepping.

(** X14.  No routes, no analysis.  When the trace holds no route record (an
    empty file, or a header alone), [main] prints its error line and
    returns: nothing is analysed, nothing is saved and no exception is
    raised, with or without a header. *)
Theorem main_without_routes {F} `{FloatOps F} `{FloatCompare F} `{sorter : ArgSort}
    (s : session F)
    (meta : option json) :
  read_moe_log (files s) "moe_routes.jsonl" = Ok (meta, []) ->
  main s = (Ok tt, Session (files s) (stdout s ++ [Reading; NoRoutes]) (saved s)
                           (faults s)).
Proof.
  destruct s as [f o sv fl]. cbn [files stdout saved faults]. intros Hr.
  unfold main. rewrite step_print, step_session. cbn [files]. rewrite Hr, step_ok.
  cbn [snd]. unfold print. cbn [files stdout saved faults].
  by rewrite <- app_assoc.
Qed.

Lemma main_without_routes_witness :
  main (F := fexpr) (Session {[ "moe_routes.jsonl" := jsonl [sample_meta] ]} [] ∅ [])
  = (Ok tt, Session {[ "moe_routes.jsonl" := jsonl [sample_meta] ]}
                    [Reading; NoRoutes] ∅ []).
Proof.
  rewrite (main_without_routes (F := fexpr)
             (Session {[ "moe_routes.jsonl" := jsonl [sample_meta] ]} [] ∅ [])
             (Some sample_meta)); [reflexivity|].
  vm_compute. reflexivity.
Defined.

(** X15.  Routes without a header.  When the trace holds route records but
    no meta record, [main] raises [AttributeError] at its first use of the
    header ([meta] is [None]), after announcing the records it loaded;
    nothing is analysed or saved. *)
Theorem main_without_header {F} `{FloatOps F} `{FloatCompare F} `{sorter : ArgSort}
    (s : session F)
    (r : json) (routes : list json) :
  read_moe_log (files s) "moe_routes.jsonl" = Ok (None, r :: routes) ->
  main s = (Raise AttributeError,
            Session (files s) (stdout s ++ [Reading; Loaded (S (length routes))])
                    (saved s) (faults s)).
Proof.
  destruct s as [f o sv fl]. cbn [files stdout saved faults]. intros Hr.
  unfold main. rewrite step_print, step_session. cbn [files]. rewrite Hr, step_ok.
  cbn [fst snd]. unfold report. rewrite step_print. cbn [py_get].
  rewrite step_raise. by rewrite <- app_assoc.
Qed.

Lemma main_without_header_witness :
  main (F := fexpr)
       (Session {[ "moe_routes.jsonl" := jsonl [sample_route 0; sample_route 1] ]} [] ∅ [])
  = (Raise AttributeError,
     Session {[ "moe_routes.jsonl" := jsonl [sample_route 0; sample_route 1] ]}
             [Reading; Loaded 2] ∅ []).
Proof.
  rewrite (main_without_header (F := fexpr)
             (Session {[ "moe_routes.jsonl" := jsonl [sample_route 0; sample_route 1] ]}
                      [] ∅ [])
             (sample_route 0) [sample_route 1]); [reflexivity|].
  vm_compute. reflexivity.
Defined.

(** X16.  Routes without a single expert id.  When the routes hold no id
    that is 0 or more (every [topk_ids] empty, say), the metrics dict is
    empty and [main] raises [KeyError] at its first use, after the banner;
    nothing is saved. *)
Theorem main_without_selections {F} `{FloatOps F} `{FloatCompare F} `{sorter : ArgSort}
    (s : session F)
    (d : list (string * json)) (r : json) (routes : list json)
    (idss : list (list Z)) :
  read_moe_log (files s) "moe_routes.jsonl" = Ok (Some (JObj d), r :: routes) ->
  Forall2 (fun route ids => route_ids route = Ok ids) (r :: routes) idss ->
  Forall (fun x => (x < 0)%Z) (concat idss) ->
  main s = (Raise KeyError,
            Session (files s)
              (stdout s ++
               [Reading; Loaded (S (length routes));
                ModelLine (default (JStr "Unknown") (dict_get "model_id" d));
                LayersLine (default (JList []) (dict_get "layers_logged" d));
                TopKLine (default (JStr "Unknown") (dict_get "top_k" d));
                Analyzing; Rule; Title; Rule])
              (saved s) (faults s)).
Proof.
  destruct s as [f o sv fl]. cbn [files stdout saved faults]. intros Hr Hids Hneg.
  unfold main. rewrite step_print, step_session. cbn [files]. rewrite Hr, step_ok.
  cbn [fst snd]. unfold report.
  rewrite step_print. cbn [py_get]. rewrite step_ok, step_print, step_ok, step_print.
  rewrite step_ok, !step_print.
  destruct (analyze_expert_usage (r :: routes)) as [[usage counts]|e] eqn:Ha.
  - pose proof (analyze_total _ _ _ _ Hids Ha) as Hsum.
    apply filter_nonneg_none in Hneg. rewrite Hneg in Hsum.
    rewrite step_ok. cbn [fst]. rewrite (calculate_metrics_empty usage Hsum).
    cbn [fst]. rewrite !step_print.
    change (metrics_item (F := F) [] "total_selections") with (Raise (A := mval F) KeyError).
    rewrite step_raise. by rewrite <- !app_assoc.
  - by rewrite (analyze_expert_usage_ok _ _ Hids) in Ha.
Qed.

Lemma main_without_selections_witness :
  fst (main (F := fexpr)
         (Session {[ "moe_routes.jsonl" :=
                       jsonl [sample_meta; route_record "r0" 0 0 (JList []) []] ]}
                  [] ∅ []))
  = Raise KeyError.
Proof.
  rewrite (main_without_selections (F := fexpr)
             (Session {[ "moe_routes.jsonl" :=
                           jsonl [sample_meta; route_record "r0" 0 0 (JList []) []] ]}
                      [] ∅ [])
             [ ("type", JStr "meta"); ("model_id", JStr "model");
               ("vllm_version", JStr "unknown"); ("torch_version", JStr "unknown");
               ("device", JStr "cuda"); ("seed", JNull);
               ("layers_logged", JList [JInt 0]); ("top_k", JInt 2);
               ("num_experts", JInt 8) ]
             (route_record "r0" 0 0 (JList []) []) [] [[]]).
  - reflexivity.
  - vm_compute. reflexivity.
  - repeat constructor.
  - constructor.
Defined.

(** X17.  A full run.  With a header, at least one route and counts that do
    not sum to zero, and no I/O failure, [main] returns normally, leaves the
    trace as it is and saves two files: the figure [expert_hist.png], whose
    highlighted bars are the top-3 experts of the metrics, and
    [expert_metrics.json], holding the metrics dict of [calculate_metrics]
    on the usage array of the routes.  Its last line reports the metrics
    file. *)
Theorem main_full_run {F} `{FloatOps F} `{FloatCompare F} `{sorter : ArgSort}
    (s : session F)
    (d : list (string * json)) (r : json) (routes : list json)
    (usage : list nat) (counts : gmap Z nat) :
  read_moe_log (files s) "moe_routes.jsonl" = Ok (Some (JObj d), r :: routes) ->
  analyze_expert_usage (r :: routes) = Ok (usage, counts) ->
  list_sum usage <> 0 ->
  faults s = [] ->
  let metrics := fst (calculate_metrics usage) in
  exists lines top probabilities entropies,
    main s =
      (Ok tt,
       Session (files s) (stdout s ++ lines ++ [SavedMetrics])
         (<["expert_metrics.json" := MetricsFile metrics]>
            (<["expert_hist.png" :=
                 Histogram (default (JStr "Unknown Model") (dict_get "model_id" d))
                           usage
                           (map (fun i => (i, count_at usage i)) (top_3_indices usage))
                           top probabilities entropies]>
               (saved s)))
         []) /\
    metrics_get "top_3_experts" metrics = Some (MTop top) /\
    map (fun e => fst (fst e)) top = top_3_indices usage /\
    length probabilities = length usage.
Proof.
  destruct s as [f o sv fl]. cbn [files stdout saved faults].
  intros Hr Ha Hne ->. cbv zeta.
  unfold main. rewrite step_print, step_session. cbn [files]. rewrite Hr, step_ok.
  cbn [fst snd]. unfold report.
  rewrite step_print. cbn [py_get]. rewrite step_ok, step_print, step_ok, step_print.
  rewrite step_ok, !step_print, Ha, step_ok. cbn [fst].
  unfold calculate_metrics.
  destruct (Nat.eqb_spec (list_sum usage) 0) as [|_]; [done|].
  set (prob_dist := map (fun c => true_divide c (list_sum usage)) usage).
  set (top := map (fun idx => (idx, default 0 (usage !! idx),
                               default (of_int 0) (prob_dist !! idx)))
                  (top_3_indices usage)).
  set (shannon := entropy2 (filter (fun p => is_positive p = true) prob_dist)).
  set (normalized := if is_positive (log2 (length usage))
                     then fdiv shannon (log2 (length usage)) else of_int 0).
  set (metrics := [("top_3_experts", MTop top); ("shannon_entropy_bits", MFloat shannon);
                   ("max_entropy_bits", MFloat (log2 (length usage)));
                   ("normalized_entropy", MFloat normalized);
                   ("total_selections", MInt (Z.of_nat (list_sum usage)));
                   ("num_experts", MInt (Z.of_nat (length usage)))]).
  cbn [fst].
  assert (Htop : map (fun e => fst (fst e)) top = top_3_indices usage).
  { subst top. rewrite map_map. cbn [fst]. apply map_id. }
  destruct (interpretation_returns metrics normalized eq_refl) as [text Htext].
  assert (H1 : metrics_item metrics "total_selections"
               = Ok (MInt (Z.of_nat (list_sum usage)))) by reflexivity.
  assert (H2 : metrics_item metrics "num_experts"
               = Ok (MInt (Z.of_nat (length usage)))) by reflexivity.
  assert (H3 : metrics_item metrics "top_3_experts" = Ok (MTop top)) by reflexivity.
  assert (H4 : metrics_item metrics "shannon_entropy_bits" = Ok (MFloat shannon))
    by reflexivity.
  assert (H5 : metrics_item metrics "max_entropy_bits"
               = Ok (MFloat (log2 (length usage)))) by reflexivity.
  assert (H6 : metrics_item metrics "normalized_entropy" = Ok (MFloat normalized))
    by reflexivity.
  assert (Hg : metrics_get "top_3_experts" metrics = Some (MTop top)) by reflexivity.
  clearbody metrics.
  rewrite !step_print, H1, step_ok, step_print, H2, step_ok, !step_print.
  rewrite H3, step_ok. cbn [top_items]. rewrite step_ok, step_each, step_print.
  rewrite H4, step_ok. cbn [as_number]. rewrite step_ok, step_print.
  rewrite H5, step_ok. cbn [as_number]. rewrite step_ok, step_print.
  rewrite H6, step_ok. cbn [as_number]. rewrite step_ok, step_print.
  rewrite Htext, step_ok, !step_print.
  unfold plot_histogram at 1. unfold mbind at 1, Run_bind at 1.
  cbn [py_get]. rewrite step_ok, H3, step_ok. cbn [top_items]. rewrite step_ok.
  rewrite Htop, usage_items_in_range
    by (apply Forall_forall; intros i Hi; by apply top_3_elem).
  rewrite step_ok, H4, step_ok. cbn [as_number]. rewrite step_ok.
  rewrite H5, step_ok. cbn [as_number]. rewrite step_ok.
  rewrite H6, step_ok. cbn [as_number]. rewrite step_ok.
  cbv zeta. rewrite step_io, step_save, step_print. unfold mret at 1, Run_ret at 1.
  cbn [files stdout saved faults].
  rewrite step_io, step_save, step_io, step_save. unfold print at 1.
  cbn [files stdout saved faults].
  rewrite insert_insert_eq.
  exists ([Reading; Loaded (length (r :: routes));
            ModelLine (default (JStr "Unknown") (dict_get "model_id" d));
            LayersLine (default (JList []) (dict_get "layers_logged" d));
            TopKLine (default (JStr "Unknown") (dict_get "top_k" d));
            Analyzing; Rule; Title; Rule;
            TotalLine (MInt (Z.of_nat (list_sum usage)));
            ExpertsLine (MInt (Z.of_nat (length usage)));
            TokensLine (length (r :: routes)); Top3Title]
           ++ map (fun re => Top3Line (fst re) (snd re)) (enumerate 1 top)
           ++ [MetricsTitle; EntropyLine (MFloat shannon);
               MaxEntropyLine (MFloat (log2 (length usage)));
               NormalizedLine (MFloat normalized); Interpretation text; Rule;
               Generating; SavedHistogram "expert_hist.png"])%list.
  eexists top, _, _. split; [|split; [exact Hg|split; [exact Htop|]]].
  - rewrite <- !app_assoc. reflexivity.
  - destruct (0 <? list_sum usage)%nat; by rewrite length_map.
Qed.

Lemma main_full_run_witness :
  let s := Session {[ "moe_routes.jsonl" := jsonl [sample_meta; sample_route 0] ]}
                   [] ∅ [] in
  fst (main (F := fexpr) s) = Ok tt /\
  saved (snd (main (F := fexpr) s)) !! "expert_metrics.json"
    = Some (MetricsFile (fst (calculate_metrics [1; 0; 1]))).
Proof.
  destruct (main_full_run (F := fexpr)
              (Session {[ "moe_routes.jsonl" := jsonl [sample_meta; sample_route 0] ]}
                       [] ∅ [])
              [ ("type", JStr "meta"); ("model_id", JStr "model");
                ("vllm_version", JStr "unknown"); ("torch_version", JStr "unknown");
                ("device", JStr "cuda"); ("seed", JNull);
                ("layers_logged", JList [JInt 0]); ("top_k", JInt 2);
                ("num_experts", JInt 8) ]
              (sample_route 0) [] [1; 0; 1] (Counter [2; 0]%Z))
    as (lines & top & probabilities & entropies & Hm & _).
  - vm_compute. reflexivity.
  - reflexivity.
  - discriminate.
  - reflexivity.
  - cbv zeta. rewrite Hm. cbn [fst snd saved]. split; [reflexivity|].
    apply lookup_insert_eq.
Defined.

Example interpretation_samples :
  interpretation (fst (calculate_metrics (F := fexpr) [1; 0; 1]))
  = Ok "moderate imbalance, some experts are preferred" /\
  interpretation (fst (calculate_metrics (F := fexpr) [7; 7; 7; 7]))
  = Ok "near-perfect load balance across experts" /\
  interpretation (fst (calculate_metrics (F := fexpr) [8; 3; 1]))
  = Ok "fairly balanced, with moderate specialization" /\
  interpretation (fst (calculate_metrics (F := fexpr) [40; 1; 1; 0]))
  = Ok "high specialization, routing heavily favors specific experts" /\
  interpretation (fst (calculate_metrics (F := fexpr) [5]))
  = Ok "high specialization, routing heavily favors specific experts".
Proof. repeat split; vm_compute; reflexivity. Qed.

(** ** The prompt file *)

Lemma strip_prefix_app (p t : string) : strip_prefix p (p ++ t) = Some t.
Proof.
  induction p as [|c p IH]; [by destruct t|].
  cbn [String.append strip_prefix]. by rewrite Ascii.eqb_refl.
Qed.

Lemma no_blank_line_tail c p : no_blank_line (String c p) = true -> no_blank_line p = true.
Proof.
  cbn [no_blank_line]. destruct p as [|c' p]; [done|].
  by intros [_ ?]%andb_true_iff.
Qed.

(** The separator does not start inside a text without empty line, even
    when the separator follows it. *)
Lemma separator_not_here c p t :
  no_blank_line (String c p) = true ->
  strip_prefix SEPARATOR (String c p ++ t) = None \/
  (p = "" /\ Ascii.eqb c NEWLINE = true).
Proof.
  intros Hp. unfold SEPARATOR. cbn [String.append strip_prefix].
  destruct (Ascii.eqb_spec NEWLINE c) as [<-|Hc]; [|by left].
  destruct p as [|c' p]; [by right|]. left.
  cbn [no_blank_line] in Hp. apply andb_true_iff in Hp as [Hp _].
  change (Ascii.eqb NEWLINE NEWLINE) with true in Hp. cbn [andb negb] in Hp.
  apply negb_true_iff in Hp. cbn [String.append strip_prefix].
  rewrite Ascii.eqb_sym in Hp. by rewrite Hp.
Qed.

Lemma partition_separator p t :
  no_blank_line p = true ->
  str_partition SEPARATOR (p ++ SEPARATOR ++ t) = Some (p, t).
Proof.
  induction p as [|c p IH]; intros Hp.
  - cbn [String.append]. destruct (SEPARATOR ++ t) eqn:E; [done|].
    cbn [str_partition]. by rewrite <- E, strip_prefix_app.
  - assert (Hhere : strip_prefix SEPARATOR (String c p ++ SEPARATOR ++ t) = None).
    { destruct (separator_not_here c p (SEPARATOR ++ t) Hp) as [H|[-> Hc]]; [done|].
      apply Ascii.eqb_eq in Hc as ->. reflexivity. }
    cbn [String.append str_partition] in *. rewrite Hhere.
    by rewrite (IH (no_blank_line_tail _ _ Hp)).
Qed.

Lemma partition_absent p :
  no_blank_line p = true -> str_partition SEPARATOR p = None.
Proof.
  induction p as [|c p IH]; intros Hp; [done|].
  assert (Hhere : strip_prefix SEPARATOR (String c p) = None).
  { destruct (separator_not_here c p "" Hp) as [H|[-> Hc]].
    - by rewrite append_nil_r in H.
    - apply Ascii.eqb_eq in Hc as ->. reflexivity. }
  cbn [str_partition]. rewrite Hhere. by rewrite (IH (no_blank_line_tail _ _ Hp)).
Qed.

Lemma split_join (prompts : list string) :
  Forall (fun p => no_blank_line p = true) prompts -> prompts <> [] ->
  forall fuel, length prompts <= S fuel ->
    split_fuel fuel SEPARATOR (join SEPARATOR prompts) = prompts.
Proof.
  induction 1 as [|p prompts Hp Hps IH]; [done|]. intros _ fuel Hf.
  destruct prompts as [|q prompts].
  - cbn [join]. destruct fuel; [done|]. cbn [split_fuel].
    by rewrite partition_absent.
  - rewrite join_cons. destruct fuel as [|fuel]; [simpl in Hf; lia|].
    cbn [split_fuel]. rewrite partition_separator by done.
    rewrite IH; [done|done|simpl in *; lia].
Qed.

Lemma join_length (prompts : list string) :
  length prompts <= S (String.length (join SEPARATOR prompts)).
Proof.
  induction prompts as [|p prompts IH]; [simpl; lia|].
  destruct prompts as [|q prompts]; [simpl; lia|].
  rewrite join_cons, !length_append. cbn [length] in *.
  change (String.length SEPARATOR) with 7. lia.
Qed.

Lemma read_back (linesep s : string) :
  linesep = String NEWLINE "" \/ linesep = String CRETURN (String NEWLINE "") ->
  all_chars (fun c => negb (Ascii.eqb c CRETURN)) s = true ->
  universal_newlines (translate_out linesep s) = s.
Proof.
  intros Hl. induction s as [|c s IH]; [done|].
  cbn [all_chars translate_out]. intros [Hc Hs]%andb_true_iff.
  apply negb_true_iff in Hc.
  destruct (Ascii.eqb_spec c NEWLINE) as [->|Hn].
  - destruct Hl as [-> | ->]; cbn; by rewrite IH.
  - cbn [universal_newlines]. by rewrite Hc, IH.
Qed.

Lemma join_plain (prompts : list string) :
  Forall plain_prompt prompts ->
  all_chars (fun c => negb (Ascii.eqb c CRETURN)) (join SEPARATOR prompts) = true.
Proof.
  induction 1 as [|p prompts [Hp _] _ IH]; [done|].
  destruct prompts as [|q prompts]; [done|].
  rewrite join_cons, !all_chars_app, Hp, IH. done.
Qed.

(** X18.  The prompt file round trip.  When the dataset has at least 25
    questions and none of the first 25 holds a carriage return or an empty
    line, the prompts [run_generate.py] loads from the file written by
    [make_prompts.py] are exactly those 25 questions, in order, on a
    platform whose line separator is a newline or a carriage return and a
    newline. *)
Theorem prompts_round_trip (linesep : string) (questions : list string)
    (d : gmap string string) :
  linesep = String NEWLINE "" \/ linesep = String CRETURN (String NEWLINE "") ->
  25 <= length questions ->
  Forall plain_prompt (take 25 questions) ->
  fst (make_prompts linesep questions d) = Ok tt /\
  load_prompts (snd (make_prompts linesep questions d)) = Ok (take 25 questions).
Proof.
  intros Hl Hlen Hplain. unfold make_prompts.
  destruct (Nat.ltb_spec (length questions) 25) as [|_]; [lia|].
  cbn [fst snd]. split; [done|].
  unfold load_prompts. rewrite lookup_insert_eq.
  rewrite read_back by (done || by apply join_plain).
  unfold str_split. change (String.eqb SEPARATOR "") with false. cbv iota.
  f_equal. apply split_join.
  - eapply Forall_impl; [exact Hplain|]. by intros p [_ ?].
  - intros E. assert (Ht : length (take 25 questions) = 25) by (rewrite length_take; lia).
    by rewrite E in Ht.
  - apply join_length.
Qed.

Lemma prompts_round_trip_witness :
  let questions := map (fun n => "What is " ++ PyStr.str_of_nat n ++ " plus one?")
                       (seq 0 30) in
  load_prompts (snd (make_prompts (String NEWLINE "") questions ∅))
  = Ok (take 25 questions).
Proof.
  refine (proj2 (prompts_round_trip (String NEWLINE "")
                   (map (fun n => "What is " ++ PyStr.str_of_nat n ++ " plus one?")
                        (seq 0 30)) ∅ _ _ _)).
  - by left.
  - vm_compute. lia.
  - let l := eval vm_compute in
        (take 25 (map (fun n => "What is " ++ PyStr.str_of_nat n ++ " plus one?")
                      (seq 0 30))) in
    change (Forall plain_prompt l).
    repeat (apply Forall_cons_2; [split; reflexivity|]). apply Forall_nil_2.
Defined.

(** ** Line endings *)

(** X19.  One record per line.  Whatever a record holds (a request id or a
    model name with line breaks, quotes or control characters included),
    the text [json.dumps] gives for it consists of printable ASCII
    characters only, so that a file of records written one after the other,
    each followed by a newline, is read back line by line as exactly those
    texts. *)
Theorem one_record_per_line (records : list json) :
  Forall (fun r => all_chars is_printable (dumps r) = true) records /\
  PyStr.iter_lines (jsonl records) = map (fun r => dumps r ++ newline) records /\
  length (PyStr.iter_lines (jsonl records)) = length records.
Proof.
  split; [|split].
  - apply Forall_forall. intros r _. apply dumps_printable.
  - apply iter_lines_jsonl.
  - by rewrite iter_lines_jsonl, length_map.
Qed.

Lemma iter_lines_crlf s t :
  all_chars is_printable s = true ->
  PyStr.iter_lines (s ++ String CRETURN newline ++ t)
  = (s ++ newline) :: PyStr.iter_lines t.
Proof.
  induction s as [|c s IH]; intros Hs.
  - reflexivity.
  - cbn [all_chars] in Hs. apply andb_true_iff in Hs as [Hc Hs].
    destruct (printable_not_newline c Hc) as [Hn Hr].
    cbn [String.append PyStr.iter_lines]. rewrite Hn, Hr.
    change (String CRETURN (String.append newline t))
      with (String CRETURN newline ++ t).
    by rewrite (IH Hs).
Qed.

Lemma iter_lines_jsonl_crlf records :
  PyStr.iter_lines (jsonl_crlf records) = map (fun r => dumps r ++ newline) records.
Proof.
  induction records as [|r records IH]; [done|].
  cbn [jsonl_crlf fold_right map]. fold (jsonl_crlf records).
  rewrite iter_lines_crlf by apply dumps_printable. by rewrite IH.
Qed.

Lemma iter_lines_last s :
  all_chars is_printable s = true -> s <> "" -> PyStr.iter_lines s = [s].
Proof.
  induction s as [|c s IH]; intros Hs Hne; [done|].
  cbn [all_chars] in Hs. apply andb_true_iff in Hs as [Hc Hs].
  destruct (printable_not_newline c Hc) as [Hn Hr].
  cbn [PyStr.iter_lines]. rewrite Hn, Hr.
  destruct s as [|c' s]; [done|]. by rewrite IH.
Qed.

Lemma iter_lines_unterminated records r :
  PyStr.iter_lines (jsonl records ++ dumps r)
  = (map (fun r => (dumps r ++ newline)%string) records ++ [dumps r])%list.
Proof.
  induction records as [|x records IH].
  - cbn [jsonl fold_right map app String.append].
    apply iter_lines_last; [apply dumps_printable|].
    destruct (dumps_starts r) as (c & s & -> & _). done.
  - cbn [jsonl fold_right map app]. fold (jsonl records).
    rewrite !append_assoc, iter_lines_line by apply dumps_printable.
    by rewrite IH.
Qed.

Lemma rstrip_newline s : PyStr.rstrip (s ++ newline) = PyStr.rstrip s.
Proof.
  induction s as [|c s IH]; [done|].
  cbn [String.append PyStr.rstrip]. by rewrite IH.
Qed.

Lemma strip_newline s : PyStr.strip (s ++ newline) = PyStr.strip s.
Proof.
  unfold PyStr.strip. induction s as [|c s IH]; [done|].
  cbn [String.append PyStr.lstrip]. destruct (PyStr.isspace c); [done|].
  apply (rstrip_newline (String c s)).
Qed.

Lemma decode_lines_unterminated lines line :
  decode_lines (lines ++ [line ++ newline]) = decode_lines (lines ++ [line]).
Proof.
  induction lines as [|l lines IH].
  - cbn [app decode_lines]. unfold decode_line. by rewrite strip_newline.
  - cbn [app decode_lines]. by rewrite IH.
Qed.

(** X20.  Line endings do not matter to the reader.  A trace whose lines
    end in a carriage return and a newline, and a trace whose last line has
    no line ending at all, are read exactly as the trace written with a
    newline after every record. *)
Theorem read_moe_log_line_endings (d : gmap string string) (path : string)
    (records : list json) (r : json) :
  read_moe_log (<[path := jsonl_crlf records]> d) path
  = read_moe_log (<[path := jsonl records]> d) path /\
  read_moe_log (<[path := jsonl records ++ dumps r]> d) path
  = read_moe_log (<[path := jsonl (records ++ [r])]> d) path.
Proof.
  unfold read_moe_log. rewrite !lookup_insert_eq. split.
  - by rewrite iter_lines_jsonl_crlf, iter_lines_jsonl.
  - rewrite iter_lines_unterminated, iter_lines_jsonl, map_app. cbn [map].
    by rewrite !read_loop_decode, decode_lines_unterminated.
Qed.

(** ** Plotting without data *)

(** X21.  The metrics of an array that sums to zero cannot be plotted:
    [plot_histogram] on the empty dict [calculate_metrics] returns raises
    before anything is drawn to a file, [AttributeError] when there is no
    header dict and [KeyError] (no [top_3_experts]) when there is. *)
Theorem plot_histogram_without_data {F} `{FloatOps F} `{sorter : ArgSort} (usage : list nat)
    (meta : option json) (output_file : string) (s : session F) :
  list_sum usage = 0 ->
  plot_histogram usage meta (fst (calculate_metrics usage)) output_file s
  = (Raise match meta with Some (JObj _) => KeyError | _ => AttributeError end, s).
Proof.
  intros H0. rewrite (calculate_metrics_empty usage H0). cbn [fst].
  unfold plot_histogram.
  destruct meta as [[]|]; cbn [py_get]; try by rewrite step_raise.
  rewrite step_ok. change (metrics_item (F := F) [] "top_3_experts")
                     with (Raise (A := mval F) KeyError).
  by rewrite step_raise.
Qed.

Lemma plot_histogram_without_data_witness :
  plot_histogram (F := fexpr) [0; 0] (Some sample_meta) (fst (calculate_metrics [0; 0]))
                 "expert_hist.png" (Session ∅ [] ∅ [])
  = (Raise KeyError, Session ∅ [] ∅ []).
Proof.
  exact (plot_histogram_without_data (F := fexpr) [0; 0] (Some sample_meta)
           "expert_hist.png" (Session ∅ [] ∅ []) eq_refl).
Defined.

(** ** The number of experts in the metrics *)

(** X22.  The number of experts is read off the trace, not off the header:
    with [m] the largest id among the routes, and [m] not negative, the
    usage array has [m + 1] entries and the metrics give
    [num_experts = m + 1] and the maximal entropy of [m + 1] experts,
    whatever [num_experts] the header carries. *)
Theorem num_experts_is_observed {F} `{FloatOps F} `{sorter : ArgSort} (routes : list json)
    (idss : list (list Z)) (usage : list nat) (counts : gmap Z nat) (m : Z) :
  Forall2 (fun route ids => route_ids route = Ok ids) routes idss ->
  analyze_expert_usage routes = Ok (usage, counts) ->
  m ∈ concat idss -> (forall y, y ∈ concat idss -> (y <= m)%Z) -> (0 <= m)%Z ->
  length usage = Z.to_nat (m + 1) /\
  metrics_get "num_experts" (fst (calculate_metrics (F := F) usage))
    = Some (MInt (m + 1)) /\
  metrics_get "max_entropy_bits" (fst (calculate_metrics (F := F) usage))
    = Some (MFloat (log2 (Z.to_nat (m + 1)))).
Proof.
  intros Hids Ha Hm Hub Hpos.
  pose proof (analyze_total _ _ _ _ Hids Ha) as Hsum.
  assert (Hlen : length usage = Z.to_nat (m + 1)).
  { rewrite (analyze_expert_usage_ok _ _ Hids) in Ha. injection Ha as <- _.
    rewrite length_map, length_seq.
    destruct (concat idss) as [|x l]; [by apply elem_of_nil in Hm|].
    f_equal. f_equal. apply Z.le_antisymm.
    - apply Hub, py_max_elem.
    - by apply py_max_upper. }
  assert (Hne : list_sum usage <> 0).
  { rewrite Hsum. clear -Hm Hpos.
    induction (concat idss) as [|x l IH]; [by apply elem_of_nil in Hm|].
    cbn [List.filter]. apply elem_of_cons in Hm as [<-|Hm].
    - unfold nonneg at 1. apply Z.leb_le in Hpos. by rewrite Hpos.
    - specialize (IH Hm). destruct (nonneg x); simpl; lia. }
  split; [exact Hlen|]. unfold calculate_metrics.
  destruct (Nat.eqb_spec (list_sum usage) 0) as [|_]; [done|].
  cbn [fst]. rewrite Hlen. split; [|reflexivity].
  change (metrics_get "num_experts" _)
    with (Some (MInt (F := F) (Z.of_nat (Z.to_nat (m + 1))))).
  do 2 f_equal. lia.
Qed.

Lemma num_experts_is_observed_witness :
  metrics_get "num_experts" (fst (calculate_metrics (F := fexpr) [3; 2; 1]))
  = Some (MInt 3).
Proof.
  refine (proj1 (proj2 (num_experts_is_observed (F := fexpr) sample_routes
            [[0; 1]; [1; 2]; [0; 0]]%Z [3; 2; 1] (Counter [0; 1; 1; 2; 0; 0]%Z) 2
            _ _ _ _ _))).
  - repeat constructor.
  - reflexivity.
  - cbn. do 3 right. left.
  - cbn. intros y Hy.
    repeat (apply elem_of_cons in Hy as [->|Hy]; [lia|]). by apply elem_of_nil in Hy.
  - lia.
Defined.

(** ** What the analysis script leaves alone *)

Section outputs.
Context {F : Type}.
Variable names : list string.

Lemma only_outputs_refl (s : session F) : only_outputs names s s.
Proof. split; [done|]. split; [|done]. exists []. by rewrite app_nil_r. Qed.

Lemma only_outputs_trans (s1 s2 s3 : session F) :
  only_outputs names s1 s2 -> only_outputs names s2 s3 -> only_outputs names s1 s3.
Proof.
  intros (Hf1 & [a Ha] & Hs1) (Hf2 & [b Hb] & Hs2). split; [congruence|]. split.
  - exists (a ++ b)%list. by rewrite Hb, Ha, app_assoc.
  - intros p Hp. by rewrite Hs2, Hs1.
Qed.

Lemma outputs_bind {A B} (m : Run F A) (k : A -> Run F B) :
  run_keeps (only_outputs names) m ->
  (forall a, run_keeps (only_outputs names) (k a)) ->
  run_keeps (only_outputs names) (m ≫= k).
Proof.
  intros Hm Hk s. unfold mbind, Run_bind.
  specialize (Hm s). destruct (m s) as [[a|e] s1]; [|done].
  eapply only_outputs_trans; [exact Hm|apply Hk].
Qed.

Lemma outputs_ret {A} (a : A) : run_keeps (F := F) (only_outputs names) (mret a).
Proof. intros s. apply only_outputs_refl. Qed.

Lemma outputs_lift {A} (r : result A) :
  run_keeps (F := F) (only_outputs names) (run_lift r).
Proof. intros s. apply only_outputs_refl. Qed.

Lemma outputs_session : run_keeps (F := F) (only_outputs names) run_session.
Proof. intros s. apply only_outputs_refl. Qed.

Lemma outputs_print (line : printed F) : run_keeps (only_outputs names) (print line).
Proof. intros s. split; [done|]. split; [by eexists|done]. Qed.

Lemma outputs_io : run_keeps (F := F) (only_outputs names) run_io.
Proof.
  intros s. unfold run_io.
  destruct (faults s) as [|[] plan]; cbn [snd]; try apply only_outputs_refl;
    (split; [done|]; split; [|done]; exists []; by rewrite app_nil_r).
Qed.

Lemma outputs_save (file : string) (a : artifact F) :
  file ∈ names -> run_keeps (only_outputs names) (save file a).
Proof.
  intros Hin s. split; [done|]. split; [exists []; by rewrite app_nil_r|].
  intros p Hp. cbn [snd saved]. apply lookup_insert_ne. by intros ->.
Qed.

Lemma outputs_each {A} (l : list A) (body : A -> Run F unit) :
  (forall a, run_keeps (only_outputs names) (body a)) ->
  run_keeps (only_outputs names) (run_each l body).
Proof.
  intros Hb. induction l as [|x l IH]; [apply outputs_ret|].
  cbn [run_each]. apply outputs_bind; [apply Hb|]. by intros _.
Qed.
End outputs.

Ltac outputs :=
  repeat first
    [ apply outputs_print | apply outputs_lift | apply outputs_session
    | apply outputs_io | apply outputs_ret
    | apply outputs_each; intros ?
    | apply outputs_bind; [|intros ?] ].

(** X23.  What the analysis leaves alone.  Whatever the trace and the fate
    of the I/O calls, and whether it returns or raises, [main] changes no
    text file (the trace included), only adds lines to what was printed, and
    saves nothing but [expert_hist.png] and [expert_metrics.json]. *)
Theorem main_only_writes_outputs {F} `{FloatOps F} `{FloatCompare F} `{sorter : ArgSort}
    (s : session F) :
  only_outputs ["expert_hist.png"; "expert_metrics.json"] s (snd (main s)).
Proof.
  revert s. change (run_keeps (only_outputs ["expert_hist.png"; "expert_metrics.json"])
                              (main (F := F))).
  unfold main. outputs.
  match goal with |- run_keeps _ (match ?l with _ => _ end) => destruct l end;
    [apply outputs_print|].
  unfold report. outputs; cbv zeta; outputs.
  all: apply outputs_save; set_solver.
Qed.
